(** * AI Assistant Hub: the tool catalog, the invocation path and the
      resilient HTTP client, embedded from the Python sources

    - [Py]       exceptions, results and dictionaries shared by the modules
    - [Http]     [utils/http.py]: [ResilientAsyncHTTPClient]
    - [Tooling]  [mcp/tooling.py]: [ToolSpec], [_extract_invocation_payload],
                 [ToolCatalog]
    - [Server]   [server/mcp_server.py]: [AIHubMCPServer.invoke]
    - [Github]   [integrations/github.py]: [GitHubIssuesAdapter.list_issues]
    - [Binding]  [mcp/tooling.py]: [ToolSpec.bind_to_server];
                 [server/mcp_server.py]: [AIHubMCPServer.register_tool]
    - [Loader]   [server/tool_loader.py]: [load_tools]
    - [GithubConfig], [GithubTool]
                 [utils/auth.py], [integrations/github.py]:
                 [GitHubIssuesAdapter.__init__], [ensure_repository];
                 [tools/github_issues.py]: the handler
    - [Config]   [config/loaders.py]: [merge_dicts]
    - [Weather]  [integrations/weather.py], [tools/weather.py]
    - [Slack]    [integrations/slack.py], [tools/slack_post_message.py]

    Conventions.  A Python [int] is a [Z].  A [float] is the rational it
    denotes.  Scaling by a power of two, all the code does with floats, is
    exact as long as the product stays within the range of the doubles
    ([Py.finite]); beyond it Python has [inf], a delay that
    [asyncio.sleep] never comes back from, and the product here is no
    longer the one of the code: what is proved about delays is proved under
    [Http.delay_fits].  Converting an [int] too large for a [float] raises
    [OverflowError], as in Python, in the product and in [asyncio.sleep].
    NaN is outside this development.  An exception is an [Exception] or
    not ([Py.is_Exception]): [except Exception] lets the others through.  A
    [str] is a [string], one [ascii] standing for one character.  A [dict]
    with string keys is an association list in insertion order.  A
    coroutine is the function it computes; what it does to the outside
    (requests sent, suspensions, handler calls) is recorded in a trace. *)

From Stdlib Require Import ZArith QArith Qabs Qpower String Ascii List Bool Lia DecimalString.
Import ListNotations.

Set Warnings "-register-all".

Open Scope string_scope.
Open Scope Z_scope.

(* ================================================================= *)
(** ** Python values shared by all modules *)

Module Py.

(** The exception classes the sources raise or catch.  [AIHubError],
    [ConfigurationError] and [ToolExecutionError] are declared in
    [utils/errors.py]; [ValidationError] is pydantic's; [ValueError],
    [RuntimeError], [TypeError], [AttributeError] and [OverflowError] are
    built in.  [OtherException name] is any further subclass of
    [Exception].  [CancelledError] (of [asyncio]), [KeyboardInterrupt],
    [SystemExit] and [OtherBaseException name] are subclasses of
    [BaseException] that are not subclasses of [Exception]: an
    [except Exception] clause does not take them. *)
Inductive exn_class : Type :=
| AIHubError
| ConfigurationError
| ToolExecutionError
| ValueError
| RuntimeError
| ValidationError
| TypeError
| AttributeError
| OverflowError
| OtherException (name : string)
| CancelledError
| KeyboardInterrupt
| SystemExit
| OtherBaseException (name : string).

(** [type(exc).__name__] *)
Definition class_name (c : exn_class) : string :=
  match c with
  | AIHubError => "AIHubError"
  | ConfigurationError => "ConfigurationError"
  | ToolExecutionError => "ToolExecutionError"
  | ValueError => "ValueError"
  | RuntimeError => "RuntimeError"
  | ValidationError => "ValidationError"
  | TypeError => "TypeError"
  | AttributeError => "AttributeError"
  | OverflowError => "OverflowError"
  | OtherException name => name
  | CancelledError => "CancelledError"
  | KeyboardInterrupt => "KeyboardInterrupt"
  | SystemExit => "SystemExit"
  | OtherBaseException name => name
  end.

(** [isinstance(exc, Exception)] *)
Definition is_Exception (c : exn_class) : bool :=
  match c with
  | CancelledError | KeyboardInterrupt | SystemExit | OtherBaseException _ => false
  | _ => true
  end.

(** [isinstance(exc, ToolExecutionError)]: the class has no subclass in the
    sources. *)
Definition is_ToolExecutionError (c : exn_class) : bool :=
  match c with ToolExecutionError => true | _ => false end.

(** [isinstance(exc, TypeError)] *)
Definition is_TypeError (c : exn_class) : bool :=
  match c with TypeError => true | _ => false end.

(** An exception instance: its class and [str(exc)]. *)
Record exn : Type := mkExn { exn_cls : exn_class; exn_str : string }.

(** A call either returns or raises. *)
Inductive result (A : Type) : Type :=
| Return (a : A)
| Raise (e : exn).
Arguments Return {A} a.
Arguments Raise {A} e.

Definition bind {A B} (r : result A) (k : A -> result B) : result B :=
  match r with
  | Return a => k a
  | Raise e => Raise e
  end.

(** [str(n)] and [f"{n}"] for an [int]. *)
Definition str_int (z : Z) : string := NilZero.string_of_int (Z.to_int z).

(** Numbers: an [int], or a [float], which stands for the rational it
    denotes.  A [float] is finite: a product that leaves the range of the
    doubles is [inf] in Python and has no value here (see [finite]). *)
Inductive number : Type :=
| NInt (z : Z)
| NFloat (q : Q).

Definition number_value (x : number) : Q :=
  match x with
  | NInt z => inject_Z z
  | NFloat q => q
  end.

(** Truth value of a number: it is not zero. *)
Definition number_truthy (x : number) : bool :=
  negb (Qeq_bool (number_value x) 0).

(** [max(x, 0)]: Python's [max] keeps its first argument unless the second
    is greater, and the second is the [int] 0. *)
Definition max0 (x : number) : number :=
  if Qle_bool 0 (number_value x) then x else NInt 0.

(** [float(n)] as the arithmetic does it for an [int] operand: an [int] that
    rounds to a finite double is converted, any other raises.  The largest
    double is [2^1024 - 2^971]; the ints from [2^1024 - 2^970] on round
    beyond it. *)
Definition float_of_int (n : Z) : result Q :=
  if Z.abs n <? 2 ^ 1024 - 2 ^ 970 then Return (inject_Z n)
  else Raise (mkExn OverflowError "int too large to convert to float").

(** [x * n] for a number [x] and an [int] [n].  With a [float] the [int] is
    converted first, which raises when it is too large.  The product of the
    two floats is exact as long as it is [finite]: [n] is a power of two
    where the sources multiply. *)
Definition mul_int (x : number) (n : Z) : result number :=
  match x with
  | NInt z => Return (NInt (z * n))
  | NFloat q => bind (float_of_int n) (fun f => Return (NFloat (q * f)))
  end.

(** A number Python holds as it is: any [int], and a [float] within the
    range of the doubles, whose largest is [2^1024 - 2^971]. *)
Definition finite (x : number) : bool :=
  match x with
  | NInt _ => true
  | NFloat q => Qle_bool (Qabs q) (inject_Z (2 ^ 1024 - 2 ^ 971))
  end.

(** [await asyncio.sleep(delay)]: it comes back at once for a delay that is
    not positive, and otherwise adds the delay to the clock of the loop, a
    [float], before it suspends: an [int] too large for a [float] raises
    there.  A finite delay comes back when it is over. *)
Definition asyncio_sleep (delay : number) : result unit :=
  match delay with
  | NInt z =>
      if z <=? 0 then Return tt
      else bind (float_of_int z) (fun _ => Return tt)
  | NFloat _ => Return tt
  end.

(** [s.startswith(p)] *)
Fixpoint startswith (s p : string) {struct p} : bool :=
  match p with
  | EmptyString => true
  | String a p' =>
      match s with
      | EmptyString => false
      | String b s' => Ascii.eqb a b && startswith s' p'
      end
  end.

(** Dictionaries with string keys, in insertion order. *)
Definition dict (V : Type) : Type := list (string * V).

(** [d.get(k)], [None] when the key is absent. *)
Fixpoint dict_get {V} (k : string) (d : dict V) : option V :=
  match d with
  | [] => None
  | (k', v) :: d' => if String.eqb k k' then Some v else dict_get k d'
  end.

(** [k in d] *)
Definition dict_mem {V} (k : string) (d : dict V) : bool :=
  match dict_get k d with Some _ => true | None => false end.

(** [d[k] = v] on a dictionary that does not hold [k] yet appends the
    entry; on one that holds it the value is replaced in place. *)
Fixpoint dict_set {V} (k : string) (v : V) (d : dict V) : dict V :=
  match d with
  | [] => [(k, v)]
  | (k', v') :: d' =>
      if String.eqb k k' then (k', v) :: d' else (k', v') :: dict_set k v d'
  end.

(** [list(d.keys())] and [list(d.values())] *)
Definition dict_keys {V} (d : dict V) : list string := map fst d.
Definition dict_values {V} (d : dict V) : list V := map snd d.

(** Parsed JSON, what [response.json()] returns. *)
Inductive json : Type :=
| JNull
| JBool (b : bool)
| JInt (z : Z)
| JFloat (q : Q)
| JStr (s : string)
| JList (l : list json)
| JDict (d : list (string * json)).

(** Truth value of a JSON value, as [or] and [if] take it. *)
Definition json_truthy (v : json) : bool :=
  match v with
  | JNull => false
  | JBool b => b
  | JInt z => negb (z =? 0)
  | JFloat q => negb (Qeq_bool q 0)
  | JStr s => negb (String.eqb s "")
  | JList l => match l with [] => false | _ => true end
  | JDict d => match d with [] => false | _ => true end
  end.

End Py.

(* ================================================================= *)
(** ** utils/http.py *)

Module Http.
Import Py.

Record ResilientAsyncHTTPClient : Type := mkClient {
  base_url : option string;
  headers : dict string;
  timeout : option number;
  retries : Z;
  backoff_factor : number
}.

(** [__init__] *)
Definition init (base_url : option string) (headers : option (dict string))
    (timeout : option number) (retries : Z) (backoff_factor : number)
  : ResilientAsyncHTTPClient :=
  {| base_url := base_url;
     headers := match headers with Some h => h | None => [] end;
     timeout := timeout;
     retries := Z.max retries 0;
     backoff_factor := max0 backoff_factor |}.

(** One call of [session.request] on a fresh [httpx.AsyncClient]. *)
Record http_call : Type := mkCall {
  call_base_url : option string;
  call_headers : dict string;
  call_timeout : option number;
  call_method : string;
  call_url : string;
  call_kwargs : dict json
}.

(** The classes of [httpx] below [RequestError]: the timeouts (below
    [TimeoutException]), the network errors (below [NetworkError]), and the
    rest. *)
Inductive request_error_class : Type :=
| ConnectTimeout
| ReadTimeout
| WriteTimeout
| PoolTimeout
| ConnectError
| ReadError
| WriteError
| CloseError
| LocalProtocolError
| RemoteProtocolError
| ProxyError
| UnsupportedProtocol
| DecodingError
| TooManyRedirects
| OtherRequestError (name : string).

(** [isinstance(exc, httpx.TimeoutException)] *)
Definition is_timeout (k : request_error_class) : bool :=
  match k with
  | ConnectTimeout | ReadTimeout | WriteTimeout | PoolTimeout => true
  | _ => false
  end.

(** [isinstance(exc, httpx.NetworkError)]: the connection could not be made
    or broke. *)
Definition is_connection_error (k : request_error_class) : bool :=
  match k with
  | ConnectError | ReadError | WriteError | CloseError => true
  | _ => false
  end.

(** An instance of [httpx.RequestError]: its class and [str(exc)]. *)
Record request_exn : Type := mkRequestExn {
  request_cls : request_error_class;
  request_str : string
}.

(** What the body of the [try] does in one pass.  It returns the parsed
    body, or one of the three [except] clauses takes over, or an exception
    no clause takes leaves [request].  [RequestError] is any
    [httpx.RequestError].  [text] is [exc.response.text], empty when it
    cannot be read.  [UnexpectedError] is any other [Exception] raised once
    the request is under way, such as a body that is not JSON.
    [ClientError] is an [Exception] of [httpx.AsyncClient(...)] itself,
    which cannot be built from what it is given: nothing is sent.
    [Interrupted] is an exception given as it is, for those that are a
    [BaseException] and not an [Exception], such as the [CancelledError] of
    a task cancelled while it waits for the answer: no clause takes
    these. *)
Inductive attempt_outcome : Type :=
| Parsed (body : json)
| HTTPStatusError (status_code : Z) (reason_phrase text str_exc : string)
| RequestError (exc : request_exn)
| UnexpectedError (str_exc : string)
| ClientError (str_exc : string)
| Interrupted (exc : exn).

(** What a call does to the outside.  [EvSleep d] is an [await
    asyncio.sleep(d)] that came back. *)
Inductive event : Type :=
| EvRequest (c : http_call)
| EvDebug (attempt_no total : Z) (cause : string) (sleep_for : number)
| EvSleep (seconds : number).

(** The outside world of a client: how many requests went out so far, and
    everything observable that happened. *)
Record world : Type := mkWorld { sent : nat; trace : list event }.

(** Nothing has happened yet. *)
Definition world0 : world := {| sent := 0; trace := [] |}.

Definition log (e : event) (w : world) : world :=
  {| sent := sent w; trace := trace w ++ [e] |}.

(** [_extract_error_detail] *)
Definition _extract_error_detail (str_exc text : string) : string :=
  if negb (String.eqb text "") then text else str_exc.

(** [self.backoff_factor * (2**attempt)] *)
Definition sleep_for (c : ResilientAsyncHTTPClient) (attempt : Z)
  : result number :=
  mul_int (backoff_factor c) (2 ^ attempt).

(** The delay after attempt number [attempt] can be taken: the product is
    there, it is finite, and [asyncio.sleep] takes it. *)
Definition delay_fits (c : ResilientAsyncHTTPClient) (attempt : Z) : bool :=
  match sleep_for c attempt with
  | Return d =>
      finite d && match asyncio_sleep d with Return _ => true | Raise _ => false end
  | Raise _ => false
  end.

(** [httpx.AsyncClient(base_url=..., headers=..., timeout=...)] with no
    base URL: [httpx] makes a URL of [None] and raises. *)
Definition no_base_url : exn :=
  mkExn TypeError
    "Invalid type for url.  Expected str or httpx.URL, got <class 'NoneType'>: None".

Definition exhausted (c : ResilientAsyncHTTPClient) (last_error : option string)
  : exn :=
  mkExn ToolExecutionError
    ("Request failed after " ++ str_int (retries c + 1) ++ " attempts: "
     ++ match last_error with Some e => e | None => "None" end).

Section Request.

(** [httpx] imported or not (the module-level [try: import httpx]). *)
Variable httpx : bool.

(** The network and [httpx]: the outcome of the pass of the [try] that
    comes after [n] requests have gone out. *)
Variable net : nat -> http_call -> attempt_outcome.

(** One pass of the body of the [try].  The client is built first: without
    a base URL it never is, and with one [net] says so.  A request goes out
    only on a client that was built. *)
Definition session_request (call : http_call) (w : world)
  : attempt_outcome * world :=
  match call_base_url call with
  | None => (ClientError (exn_str no_base_url), w)
  | Some _ =>
      match net (sent w) call with
      | ClientError str_exc => (ClientError str_exc, w)
      | outcome =>
          (outcome,
           {| sent := S (sent w); trace := trace w ++ [EvRequest call] |})
      end
  end.

(** The [while attempt <= self.retries] loop.  [None] stands for a loop
    that has not ended within [fuel] passes.  An exception raised inside an
    [except] clause leaves the function: the [OverflowError] of the product
    and that of [asyncio.sleep]. *)
Fixpoint request_loop (fuel : nat) (c : ResilientAsyncHTTPClient)
    (call : http_call) (attempt : Z) (last_error : option string)
    (w : world) : option (result json * world) :=
  match fuel with
  | O => None
  | S fuel' =>
      if attempt <=? retries c then
        let (outcome, w1) := session_request call w in
        match outcome with
        | Parsed body => Some (Return body, w1)
        | HTTPStatusError status_code reason_phrase text str_exc =>
            let error_detail := _extract_error_detail str_exc text in
            Some (Raise (mkExn ToolExecutionError
                    ("API request failed: " ++ str_int status_code ++ " "
                     ++ reason_phrase ++ ". " ++ "Details: " ++ error_detail)),
                  w1)
        | RequestError exc =>
            let str_exc := request_str exc in
            if attempt =? retries c then
              Some (Raise (exhausted c (Some str_exc)), w1)
            else
              match sleep_for c attempt with
              | Raise e => Some (Raise e, w1)
              | Return d =>
                  let w2 :=
                    log (EvDebug (attempt + 1) (retries c + 1) str_exc d) w1 in
                  if number_truthy d then
                    match asyncio_sleep d with
                    | Raise e => Some (Raise e, w2)
                    | Return _ =>
                        request_loop fuel' c call (attempt + 1) (Some str_exc)
                          (log (EvSleep d) w2)
                    end
                  else
                    request_loop fuel' c call (attempt + 1) (Some str_exc) w2
              end
        | UnexpectedError str_exc | ClientError str_exc =>
            Some (Raise (mkExn ToolExecutionError
                    ("Unexpected HTTP error: " ++ str_exc)), w1)
        | Interrupted exc =>
            if is_Exception (exn_cls exc) then
              Some (Raise (mkExn ToolExecutionError
                      ("Unexpected HTTP error: " ++ exn_str exc)), w1)
            else Some (Raise exc, w1)
        end
      else Some (Raise (exhausted c last_error), w)
  end.

Definition call_of (c : ResilientAsyncHTTPClient) (method url : string)
    (kwargs : dict json) : http_call :=
  {| call_base_url := base_url c; call_headers := headers c;
     call_timeout := timeout c; call_method := method; call_url := url;
     call_kwargs := kwargs |}.

(** [request]: the loop is given [retries + 1] passes; it never needs
    more (see [HttpFacts.request_loop_ends]). *)
Definition request (c : ResilientAsyncHTTPClient) (method url : string)
    (kwargs : dict json) (w : world) : option (result json * world) :=
  if negb httpx then
    Some (Raise (mkExn RuntimeError "httpx is required for HTTP operations"), w)
  else
    request_loop (Z.to_nat (retries c) + 1) c (call_of c method url kwargs)
      0 None w.

End Request.

(** Observations on a trace. *)
Definition is_request (e : event) : bool :=
  match e with EvRequest _ => true | _ => false end.

(** Number of attempts made: requests that went out. *)
Definition attempts (t : list event) : nat := length (filter is_request t).

(** The suspensions, each with the number of requests that went out before
    it: [(k, d)] is a delay of [d] seconds before attempt number [k]. *)
Fixpoint suspensions_from (k : nat) (t : list event) : list (nat * number) :=
  match t with
  | [] => []
  | EvRequest _ :: t' => suspensions_from (S k) t'
  | EvSleep d :: t' => (k, d) :: suspensions_from k t'
  | EvDebug _ _ _ _ :: t' => suspensions_from k t'
  end.

Definition suspensions (t : list event) : list (nat * number) :=
  suspensions_from 0 t.

(** The delays before attempt number [k] in a trace. *)
Definition delays_before (k : nat) (t : list event) : list number :=
  map snd (filter (fun p => Nat.eqb (fst p) k) (suspensions t)).

(** What a pass that ends the call makes of its outcome: the parsed body,
    the [ToolExecutionError] of the [except] clause that took over (for a
    [RequestError], on the last attempt), or the exception no clause
    takes. *)
Definition final_result (c : ResilientAsyncHTTPClient) (o : attempt_outcome)
  : result json :=
  match o with
  | Parsed body => Return body
  | HTTPStatusError status_code reason_phrase text str_exc =>
      Raise (mkExn ToolExecutionError
        ("API request failed: " ++ str_int status_code ++ " " ++ reason_phrase
         ++ ". " ++ "Details: " ++ _extract_error_detail str_exc text))
  | RequestError exc => Raise (exhausted c (Some (request_str exc)))
  | UnexpectedError str_exc | ClientError str_exc =>
      Raise (mkExn ToolExecutionError ("Unexpected HTTP error: " ++ str_exc))
  | Interrupted exc =>
      if is_Exception (exn_cls exc) then
        Raise (mkExn ToolExecutionError
                 ("Unexpected HTTP error: " ++ exn_str exc))
      else Raise exc
  end.

(** What a pass that goes round leaves in the trace when attempt number
    [a] failed with [m] and the delay is [d]: the request, the debug record,
    the suspension if any. *)
Definition retry_events (c : ResilientAsyncHTTPClient) (call : http_call)
    (a : Z) (m : request_exn) (d : number) : list event :=
  ([EvRequest call; EvDebug (a + 1) (retries c + 1) (request_str m) d]
   ++ (if number_truthy d then [EvSleep d] else []))%list.

Definition retry_step (c : ResilientAsyncHTTPClient) (call : http_call)
    (a : Z) (m : request_exn) (d : number) (w : world) : world :=
  {| sent := S (sent w); trace := trace w ++ retry_events c call a m d |}.

(** The suspensions of [n] retries in a row, the first one after attempt
    number [a], which is request number [base] of the trace. *)
Fixpoint backoff_schedule (c : ResilientAsyncHTTPClient) (a : Z) (base n : nat)
  : list (nat * number) :=
  match n with
  | O => []
  | S n' =>
      (match sleep_for c a with
       | Return d => if number_truthy d then [(S base, d)] else []
       | Raise _ => []
       end ++ backoff_schedule c (a + 1) (S base) n')%list
  end.

(** The three shapes of message [request] puts in a [ToolExecutionError]. *)
Definition readable_cause (s : string) : bool :=
  startswith s "Request failed after "
  || startswith s "API request failed: "
  || startswith s "Unexpected HTTP error: ".

(** The delays of a client can all be taken: the one after every attempt
    that may be retried. *)
Definition no_overflow (c : ResilientAsyncHTTPClient) : Prop :=
  forall a : Z, 0 <= a < retries c -> delay_fits c a = true.

(** What the back-off does after attempt number [a]: the delay that was
    taken, or the exception of the product or of [asyncio.sleep] and whether
    the debug record was written before it. *)
Inductive backoff_outcome : Type :=
| Slept (d : number)
| Overflowed (e : exn) (logged : option number).

Definition backoff (c : ResilientAsyncHTTPClient) (a : Z) : backoff_outcome :=
  match sleep_for c a with
  | Raise e => Overflowed e None
  | Return d =>
      if number_truthy d then
        match asyncio_sleep d with
        | Raise e => Overflowed e (Some d)
        | Return _ => Slept d
        end
      else Slept d
  end.

(** The pass that comes after [n] requests cannot build its client, and
    the text of the error; [None] when it can and sends its request. *)
Definition client_error (net : nat -> http_call -> attempt_outcome)
    (call : http_call) (n : nat) : option string :=
  match call_base_url call with
  | None => Some (exn_str no_base_url)
  | Some _ =>
      match net n call with
      | ClientError str_exc => Some str_exc
      | _ => None
      end
  end.

(** The loop as a relation between the world before a pass and the result
    and the world at the end of the call: [run net c call a w res w'] when
    the passes from attempt number [a] on, started in [w], end with [res]
    in [w']. *)
Inductive run (net : nat -> http_call -> attempt_outcome)
    (c : ResilientAsyncHTTPClient) (call : http_call)
  : Z -> world -> result json -> world -> Prop :=
| run_done (a : Z) (w : world) (o : attempt_outcome) (w1 : world) :
    a <= retries c ->
    session_request net call w = (o, w1) ->
    (forall m, o = RequestError m -> a = retries c) ->
    run net c call a w (final_result c o) w1
| run_overflow (a : Z) (w : world) (m : request_exn) (e : exn)
    (logged : option number) (w1 : world) :
    a < retries c ->
    session_request net call w = (RequestError m, w1) ->
    backoff c a = Overflowed e logged ->
    run net c call a w (Raise e)
      match logged with
      | Some d => log (EvDebug (a + 1) (retries c + 1) (request_str m) d) w1
      | None => w1
      end
| run_retry (a : Z) (w : world) (m : request_exn) (d : number)
    (res : result json) (w' : world) :
    a < retries c ->
    session_request net call w
    = (RequestError m,
       {| sent := S (sent w); trace := trace w ++ [EvRequest call] |}) ->
    backoff c a = Slept d ->
    run net c call (a + 1) (retry_step c call a m d w) res w' ->
    run net c call a w res w'.

(** How a run from attempt number [a] on ended that went round [k] times
    and sent [n] requests: on the outcome of its last request; on the
    back-off after it; or on a client that could not be built for the last
    pass. *)
Definition ended (net : nat -> http_call -> attempt_outcome)
    (c : ResilientAsyncHTTPClient) (call : http_call)
    (a : Z) (w : world) (k n : nat) (res : result json) : Prop :=
  (n = S k
   /\ client_error net call (sent w + k)%nat = None
   /\ res = final_result c (net (sent w + k)%nat call)
   /\ forall m, net (sent w + k)%nat call = RequestError m ->
                a + Z.of_nat k = retries c)
  \/ (n = S k
      /\ client_error net call (sent w + k)%nat = None
      /\ exists m e logged,
           net (sent w + k)%nat call = RequestError m
           /\ a + Z.of_nat k < retries c
           /\ backoff c (a + Z.of_nat k) = Overflowed e logged
           /\ res = Raise e)
  \/ (n = k
      /\ exists str_exc,
           client_error net call (sent w + k)%nat = Some str_exc
           /\ res = Raise (mkExn ToolExecutionError
                             ("Unexpected HTTP error: " ++ str_exc))).

End Http.

(* ================================================================= *)
(** ** mcp/tooling.py *)

Module Tooling.
Import Py.

(** The values a host or a caller hands to a tool: JSON-like data, pydantic
    models ([VModel fields], whose [model_dump()] is [fields]) and any
    other object ([VObject], which has no [model_dump]). *)
Inductive value : Type :=
| VNone
| VBool (b : bool)
| VInt (z : Z)
| VFloat (q : Q)
| VStr (s : string)
| VList (l : list value)
| VDict (d : list (string * value))
| VModel (fields : list (string * value))
| VObject (name : string).

Definition is_none (v : value) : bool :=
  match v with VNone => true | _ => false end.

(** [isinstance(v, dict)] *)
Definition is_dict (v : value) : bool :=
  match v with VDict _ => true | _ => false end.

(** [schemas/base.py] *)
Record ToolInvocationRequest : Type := mkRequest {
  tool : string;
  input : dict value;
  context : option (dict value)
}.

Record ToolInvocationResponse : Type := mkResponse {
  ok : bool;
  output : dict value;
  error : option string
}.

(** [ToolSpec].  [input_model v] is [self.input_model.model_validate(v)]:
    the fields of the validated model, or the exception of the failed
    validation; likewise [output_model].  [handler payload context] is the
    awaited handler on the validated model and the optional context. *)
Record ToolSpec : Type := mkToolSpec {
  name : string;
  description : string;
  input_model : value -> result (dict value);
  output_model : value -> result (dict value);
  handler : dict value -> option (dict value) -> result value
}.

(** The same tool with another handler ([dataclasses.replace]). *)
Definition with_handler (spec : ToolSpec)
    (h : dict value -> option (dict value) -> result value) : ToolSpec :=
  {| name := name spec; description := description spec;
     input_model := input_model spec; output_model := output_model spec;
     handler := h |}.

Inductive event : Type :=
| EvValidateInput (tool_name : string) (v : value)
| EvHandler (tool_name : string) (payload : dict value)
    (context : option (dict value))
| EvValidateOutput (tool_name : string) (v : value).

Definition is_handler_call (e : event) : bool :=
  match e with EvHandler _ _ _ => true | _ => false end.

(** Number of times a handler ran. *)
Definition handler_calls (t : list event) : nat :=
  length (filter is_handler_call t).

(** [request.input or {}] *)
Definition input_or_empty (d : dict value) : dict value :=
  match d with [] => [] | _ => d end.

(** [ToolSpec.invoke] *)
Definition invoke (self : ToolSpec) (request : ToolInvocationRequest)
  : result ToolInvocationResponse * list event :=
  let arg := VDict (input_or_empty (input request)) in
  let t0 := [EvValidateInput (name self) arg] in
  match input_model self arg with
  | Raise e => (Raise e, t0)
  | Return payload =>
      let t1 := (t0 ++ [EvHandler (name self) payload (context request)])%list in
      match handler self payload (context request) with
      | Raise exc =>
          if is_ToolExecutionError (exn_cls exc) then
            (Return {| ok := false; output := []; error := Some (exn_str exc) |}, t1)
          else if is_Exception (exn_cls exc) then
            (Raise (mkExn ToolExecutionError (exn_str exc)), t1)
          else
            (Raise exc, t1)
      | Return raw_output =>
          match raw_output with
          | VModel fields =>
              (Return {| ok := true; output := fields; error := None |}, t1)
          | _ =>
              let t2 := (t1 ++ [EvValidateOutput (name self) raw_output])%list in
              match output_model self raw_output with
              | Raise e => (Raise e, t2)
              | Return fields =>
                  (Return {| ok := true; output := fields; error := None |}, t2)
              end
          end
      end
  end.

Section Payload.

(** [dict(x)] on a value that is neither a [dict] nor a model: the
    dictionary built from a sequence of pairs, [None] when [dict] raises. *)
Variable py_dict : value -> option (dict value).

(** The first [if]/[elif] chain of [_extract_invocation_payload]. *)
Definition keyword_arguments (kwargs : dict value) : value :=
  if dict_mem "arguments" kwargs then
    match dict_get "arguments" kwargs with Some v => v | None => VNone end
  else if dict_mem "input" kwargs then
    match dict_get "input" kwargs with Some v => v | None => VNone end
  else if dict_mem "params" kwargs then
    match dict_get "params" kwargs with Some v => v | None => VNone end
  else VNone.

Definition keyword_context (kwargs : dict value) : value :=
  if dict_mem "context" kwargs then
    match dict_get "context" kwargs with Some v => v | None => VNone end
  else VNone.

(** [if arguments is None and args:] *)
Definition positional (args : list value) (arguments context : value)
  : value * value :=
  match args with
  | [] => (arguments, context)
  | a0 :: rest =>
      if is_none arguments then
        if is_dict a0 then
          (a0, match rest with a1 :: _ => a1 | [] => context end)
        else
          (match rest with
           | candidate :: _ =>
               match candidate with
               | VDict _ => candidate
               | VModel fields => VDict fields
               | _ => candidate
               end
           | [] => arguments
           end, a0)
      else (arguments, context)
  end.

(** The last [if]/[elif] of the function: a model is dumped, anything
    else that is not a [dict] goes through [dict(...)], and through
    [{"value": ...}] when that raises. *)
Definition coerce (arguments : value) : value :=
  match arguments with
  | VDict _ => arguments
  | VModel fields => VDict fields
  | _ =>
      match py_dict arguments with
      | Some d => VDict d
      | None => VDict [("value", arguments)]
      end
  end.

Definition _extract_invocation_payload (args : list value)
    (kwargs : dict value) : value * value :=
  let arguments := keyword_arguments kwargs in
  let context := keyword_context kwargs in
  let (arguments, context) := positional args arguments context in
  let arguments := if is_none arguments then VDict [] else arguments in
  (coerce arguments, context).

(** [mcp_handler], the closure [bind_to_server] hands to the host. *)
Definition mcp_handler (self : ToolSpec) (args : list value)
    (kwargs : dict value) : result (dict value) * list event :=
  let (arguments, context) := _extract_invocation_payload args kwargs in
  let t0 := [EvValidateInput (name self) arguments] in
  match input_model self arguments with
  | Raise e => (Raise e, t0)
  | Return payload =>
      let context_payload :=
        match context with VDict d => Some d | _ => None end in
      let t1 := (t0 ++ [EvHandler (name self) payload context_payload])%list in
      match handler self payload context_payload with
      | Raise e => (Raise e, t1)
      | Return (VModel fields) => (Return fields, t1)
      | Return result_ =>
          let t2 := (t1 ++ [EvValidateOutput (name self) result_])%list in
          (output_model self result_, t2)
      end
  end.

End Payload.

(** [fastmcp_handler], the closure [bind_to_server] hands to a host whose
    [add_tool] takes a function first: it validates its one argument as it
    comes and passes no context.  It returns a model, not its dump: the
    model the handler returned, or the validated output. *)
Definition fastmcp_handler (self : ToolSpec) (input_data : value)
  : result value * list event :=
  let t0 := [EvValidateInput (name self) input_data] in
  match input_model self input_data with
  | Raise e => (Raise e, t0)
  | Return validated_input =>
      let t1 := (t0 ++ [EvHandler (name self) validated_input None])%list in
      match handler self validated_input None with
      | Raise e => (Raise e, t1)
      | Return (VModel fields) => (Return (VModel fields), t1)
      | Return result_ =>
          let t2 := (t1 ++ [EvValidateOutput (name self) result_])%list in
          (match output_model self result_ with
           | Return fields => Return (VModel fields)
           | Raise e => Raise e
           end, t2)
      end
  end.

(** [ToolCatalog] *)
Record ToolCatalog : Type := mkCatalog { tools : dict ToolSpec }.

Definition empty_catalog : ToolCatalog := {| tools := [] |}.

Definition register (self : ToolCatalog) (spec : ToolSpec)
  : result unit * ToolCatalog :=
  if dict_mem (name spec) (tools self) then
    (Raise (mkExn ValueError ("Tool already registered: " ++ name spec)), self)
  else
    (Return tt, {| tools := dict_set (name spec) spec (tools self) |}).

Definition get (self : ToolCatalog) (name : string) : option ToolSpec :=
  dict_get name (tools self).

Definition list_ (self : ToolCatalog) : list ToolSpec :=
  dict_values (tools self).

End Tooling.

(* ================================================================= *)
(** ** server/mcp_server.py *)

Module Server.
Import Py Tooling.

(** [AIHubMCPServer], the part [invoke] and [list_tools] read. *)
Record AIHubMCPServer : Type := mkServer { catalog : ToolCatalog }.

(** [AIHubMCPServer.invoke].  A [ToolSpec] is always true, so [not spec]
    is [spec is None]. *)
Definition invoke (self : AIHubMCPServer) (request : ToolInvocationRequest)
  : result ToolInvocationResponse * list event :=
  match get (catalog self) (tool request) with
  | None =>
      (Raise (mkExn ToolExecutionError ("Unknown tool: " ++ tool request)), [])
  | Some spec => Tooling.invoke spec request
  end.

Definition list_tools (self : AIHubMCPServer) : list ToolSpec :=
  list_ (catalog self).

End Server.

(* ================================================================= *)
(** ** integrations/github.py *)

Module Github.
Import Py Http.

(** [GitHubIssuesAdapter], the part [list_issues] reads. *)
Record GitHubIssuesAdapter : Type := mkAdapter {
  client : ResilientAsyncHTTPClient
}.

(** [for x in v] on parsed JSON: a list gives its items, a dict its keys, a
    string its characters; nothing else can be iterated. *)
Definition json_iter (v : json) : result (list json) :=
  match v with
  | JList l => Return l
  | JDict d => Return (map JStr (dict_keys d))
  | JStr s => Return (map (fun c => JStr (String c "")) (list_ascii_of_string s))
  | _ => Raise (mkExn TypeError "object is not iterable")
  end.

Definition is_str (k : string) (v : json) : bool :=
  match v with JStr s => String.eqb s k | _ => false end.

(** [k in v] for a string [k]: key of a dict, substring of a string, item
    of a list; a [TypeError] on the rest. *)
Definition json_contains (k : string) (v : json) : result bool :=
  match v with
  | JDict d => Return (dict_mem k d)
  | JStr s => Return (match index 0 k s with Some _ => true | None => false end)
  | JList l => Return (existsb (is_str k) l)
  | _ => Raise (mkExn TypeError "argument is not iterable")
  end.

(** [v.get(k, default)]: only a dict has [get]. *)
Definition json_get (v : json) (k : string) (default : json) : result json :=
  match v with
  | JDict d => Return (match dict_get k d with Some x => x | None => default end)
  | _ => Raise (mkExn AttributeError "object has no attribute 'get'")
  end.

(** [x or ""] *)
Definition or_empty_str (x : json) : json :=
  if json_truthy x then x else JStr "".

(** [x[:n]]: strings and lists are sliced, nothing else in JSON can be
    (a dict raises [TypeError], [KeyError] from Python 3.12 on). *)
Definition slice_upto (n : nat) (x : json) : result json :=
  match x with
  | JStr s => Return (JStr (substring 0 n s))
  | JList l => Return (JList (firstn n l))
  | _ => Raise (mkExn TypeError "object is not subscriptable")
  end.

(** [x[:500]] *)
Definition slice_500 (x : json) : result json := slice_upto 500 x.

(** [len(x)] where it is defined. *)
Definition json_len (x : json) : option nat :=
  match x with
  | JStr s => Some (String.length s)
  | JList l => Some (List.length l)
  | JDict d => Some (List.length d)
  | _ => None
  end.

(** [[x.get(k) for x in xs]] *)
Fixpoint get_each (k : string) (xs : list json) : result (list json) :=
  match xs with
  | [] => Return []
  | x :: xs' =>
      bind (json_get x k JNull) (fun v =>
      bind (get_each k xs') (fun vs => Return (v :: vs)))
  end.

(** The dictionary appended for one issue; the items are evaluated in the
    order they are written. *)
Definition issue_entry (issue : json) : result json :=
  bind (json_get issue "number" JNull) (fun number =>
  bind (json_get issue "title" JNull) (fun title =>
  bind (json_get issue "state" JNull) (fun state =>
  bind (json_get issue "html_url" JNull) (fun url =>
  bind (json_get issue "body" (JStr "")) (fun body0 =>
  bind (slice_500 (or_empty_str body0)) (fun body =>
  bind (json_get issue "created_at" JNull) (fun created_at =>
  bind (json_get issue "updated_at" JNull) (fun updated_at =>
  bind (json_get issue "labels" (JList [])) (fun labels0 =>
  bind (json_iter labels0) (fun labels1 =>
  bind (get_each "name" labels1) (fun labels =>
  bind (json_get issue "user" (JDict [])) (fun user0 =>
  bind (json_get user0 "login" JNull) (fun user =>
  bind (json_get issue "assignees" (JList [])) (fun assignees0 =>
  bind (json_iter assignees0) (fun assignees1 =>
  bind (get_each "login" assignees1) (fun assignees =>
  Return (JDict
    [("number", number); ("title", title); ("state", state); ("url", url);
     ("body", body); ("created_at", created_at); ("updated_at", updated_at);
     ("labels", JList labels); ("user", user);
     ("assignees", JList assignees)]))))))))))))))))).

(** The [for issue in issues_response] loop, [issues] being the list built
    so far. *)
Fixpoint collect_issues (items : list json) (issues : list json)
  : result (list json) :=
  match items with
  | [] => Return issues
  | issue :: items' =>
      bind (json_contains "pull_request" issue) (fun is_pr =>
      if is_pr then collect_issues items' issues
      else bind (issue_entry issue) (fun entry =>
           collect_issues items' (issues ++ [entry])%list))
  end.

(** Everything [list_issues] does with the response. *)
Definition shape_issues (issues_response : json) : result (list json) :=
  bind (json_iter issues_response) (fun items => collect_issues items []).

(** An item the loop skips: ["pull_request" in issue] is true. *)
Definition marked_pull_request (issue : json) : bool :=
  match json_contains "pull_request" issue with
  | Return true => true
  | _ => false
  end.

(** [entry["body"]] of an entry of the returned list. *)
Definition entry_body (entry : json) : option json :=
  match entry with
  | JDict d => dict_get "body" d
  | _ => None
  end.

(** An issue as the issues endpoint documents it, as far as [list_issues]
    reads it: an object whose body is a string or [null], whose labels and
    assignees are lists of objects and whose user is an object; a field may
    be missing. *)
Definition is_object (v : json) : bool :=
  match v with JDict _ => true | _ => false end.

Definition list_of_objects (v : json) : bool :=
  match v with JList l => forallb is_object l | _ => false end.

Definition well_formed_issue (issue : json) : bool :=
  match issue with
  | JDict d =>
      match dict_get "body" d with
      | None | Some JNull | Some (JStr _) => true
      | Some _ => false
      end
      && match dict_get "labels" d with
         | None => true
         | Some v => list_of_objects v
         end
      && match dict_get "user" d with
         | None | Some (JDict _) => true
         | Some _ => false
         end
      && match dict_get "assignees" d with
         | None => true
         | Some v => list_of_objects v
         end
  | _ => false
  end.

(** The query parameters. *)
Definition issue_params (state : string) (labels : option (list string))
    (page per_page : Z) : dict json :=
  let params :=
    [("state", JStr state); ("page", JInt page);
     ("per_page", JInt (Z.min per_page 100))] in
  match labels with
  | Some (l :: ls) => dict_set "labels" (JStr (String.concat "," (l :: ls))) params
  | _ => params
  end.

Section ListIssues.
Variable httpx : bool.
Variable net : nat -> http_call -> attempt_outcome.

(** [GitHubIssuesAdapter.list_issues] *)
Definition list_issues (self : GitHubIssuesAdapter) (owner repo state : string)
    (labels : option (list string)) (page per_page : Z) (w : world)
  : option (result (list json) * world) :=
  match request httpx net (client self) "GET"
          ("/repos/" ++ owner ++ "/" ++ repo ++ "/issues")
          [("params", JDict (issue_params state labels page per_page))] w with
  | None => None
  | Some (Raise e, w') => Some (Raise e, w')
  | Some (Return issues_response, w') => Some (shape_issues issues_response, w')
  end.
End ListIssues.

End Github.

(* ================================================================= *)
(** ** Scenarios used to exercise the definitions *)

Module Scenarios.
Import Py Http.

(** A server that is down: every request is refused. *)
Definition refused : nat -> http_call -> attempt_outcome :=
  fun _ _ => RequestError (mkRequestExn ConnectError "connection refused").

(** Two timeouts, then an answer. *)
Definition third_time_lucky : nat -> http_call -> attempt_outcome :=
  fun n _ =>
    match n with
    | 0%nat | 1%nat => RequestError (mkRequestExn ReadTimeout "timed out")
    | _ => Parsed (JDict [("ok", JBool true)])
    end.

(** One timeout, then a 404. *)
Definition then_not_found : nat -> http_call -> attempt_outcome :=
  fun n _ =>
    match n with
    | 0%nat => RequestError (mkRequestExn ConnectTimeout "timed out")
    | _ => HTTPStatusError 404 "Not Found" "" "Client error '404 Not Found'"
    end.

(** An answer whose content cannot be decoded, then an answer. *)
Definition garbled_then_fine : nat -> http_call -> attempt_outcome :=
  fun n _ =>
    match n with
    | 0%nat =>
        RequestError
          (mkRequestExn DecodingError
             "Error -3 while decompressing data: incorrect header check")
    | _ => Parsed (JDict [("ok", JBool true)])
    end.

(** One timeout, then an answer whose body is not JSON. *)
Definition then_not_json : nat -> http_call -> attempt_outcome :=
  fun n _ =>
    match n with
    | 0%nat => RequestError (mkRequestExn ConnectTimeout "timed out")
    | _ => UnexpectedError "Expecting value: line 1 column 1 (char 0)"
    end.

(** One timeout, then the task is cancelled while it waits for the
    answer. *)
Definition then_cancelled : nat -> http_call -> attempt_outcome :=
  fun n _ =>
    match n with
    | 0%nat => RequestError (mkRequestExn ConnectTimeout "timed out")
    | _ => Interrupted (mkExn CancelledError "")
    end.

Definition client_2_half : ResilientAsyncHTTPClient :=
  init (Some "https://api.github.com") None (Some (NFloat 10)) 2 (NFloat (1 # 2)).

(** 1025 retries and no back-off: [retries=1025, backoff_factor=0.0], and
    the same with the [int] 0 as factor. *)
Definition client_1025_zero : ResilientAsyncHTTPClient :=
  init (Some "https://api.github.com") None None 1025 (NFloat 0).

Definition client_1025_int_zero : ResilientAsyncHTTPClient :=
  init (Some "https://api.github.com") None None 1025 (NInt 0).

(** 1025 retries with the [int] 1 as factor. *)
Definition client_1025_int_one : ResilientAsyncHTTPClient :=
  init (Some "https://api.github.com") None None 1025 (NInt 1).

(** One attempt, no retry. *)
Definition client_once : ResilientAsyncHTTPClient :=
  init (Some "https://api.github.com") None None 0 (NInt 0).

(** Three retries with the factor [b]. *)
Definition client_3 (b : number) : ResilientAsyncHTTPClient :=
  init (Some "https://api.github.com") None None 3 b.

(** The suspensions of a call with three retries against the server that is
    down, each delay in lowest terms. *)
Definition delays_when_refused (b : number) : list (nat * Q) :=
  match request true refused (client_3 b) "GET" "/" [] world0 with
  | Some (_, w') =>
      map (fun p => (fst p, Qred (number_value (snd p)))) (suspensions (trace w'))
  | None => []
  end.

(** What a call ends with and how many requests it sent. *)
Definition outcome_and_attempts (r : option (result json * world))
  : option (result json * nat) :=
  match r with
  | Some (res, w') => Some (res, attempts (trace w'))
  | None => None
  end.

(** A tool whose schema wants a string under "city" and whose handler always
    fails with a [ToolExecutionError]. *)
Definition city_model (v : Tooling.value) : result (dict Tooling.value) :=
  match v with
  | Tooling.VDict d =>
      match dict_get "city" d with
      | Some (Tooling.VStr s) => Return [("city", Tooling.VStr s)]
      | _ => Raise (mkExn ValidationError "1 validation error for WeatherInput")
      end
  | _ => Raise (mkExn ValidationError "Input should be a valid dictionary")
  end.

Definition failing_weather : Tooling.ToolSpec :=
  {| Tooling.name := "weather";
     Tooling.description := "Current weather";
     Tooling.input_model := city_model;
     Tooling.output_model := fun _ => Return [];
     Tooling.handler := fun _ _ =>
       Raise (mkExn ToolExecutionError "units must be one of metric, imperial") |}.

Definition weather_catalog : Tooling.ToolCatalog :=
  snd (Tooling.register Tooling.empty_catalog failing_weather).

Definition weather_server : Server.AIHubMCPServer :=
  {| Server.catalog := weather_catalog |}.

(** [dict(x)] where it gives a dictionary with string keys.  Each item of a
    list is taken apart into a key and a value: a two-item list whose first
    item is a string, a string of two characters, or a dictionary with two
    keys (which gives its keys).  An empty list or string gives the empty
    dictionary.  [None] is for the values [dict] raises on (a number, a
    string that is not empty, an item that is not a pair), and for those no
    scenario passes to it: an object, and pairs whose key is not a string,
    which a [dict] with string keys cannot hold. *)
Fixpoint pairs_into (l : list Tooling.value) (d : dict Tooling.value)
  : option (dict Tooling.value) :=
  match l with
  | [] => Some d
  | Tooling.VList [Tooling.VStr k; v] :: l' => pairs_into l' (dict_set k v d)
  | Tooling.VStr (String a (String b EmptyString)) :: l' =>
      pairs_into l'
        (dict_set (String a EmptyString) (Tooling.VStr (String b EmptyString)) d)
  | Tooling.VDict [(k, _); (k', _)] :: l' =>
      pairs_into l' (dict_set k (Tooling.VStr k') d)
  | _ => None
  end.

Definition py_dict (v : Tooling.value) : option (dict Tooling.value) :=
  match v with
  | Tooling.VList l => pairs_into l []
  | Tooling.VStr "" => Some []
  | _ => None
  end.

(** An answer of the issues endpoint: an issue with a body of 600
    characters, a pull request, an issue whose body is [null] and one that
    has no body at all. *)
Definition long_body : string := string_of_list_ascii (repeat "a"%char 600).

Definition issues_response : json :=
  JList
    [JDict [("number", JInt 1); ("title", JStr "Crash on start");
            ("state", JStr "open"); ("html_url", JStr "https://github.com/o/r/issues/1");
            ("body", JStr long_body);
            ("labels", JList [JDict [("name", JStr "bug")]]);
            ("user", JDict [("login", JStr "octocat")]);
            ("assignees", JList [JDict [("login", JStr "hubot")]])];
     JDict [("number", JInt 2); ("title", JStr "Fix crash");
            ("pull_request", JDict [("url", JStr "https://api.github.com/pulls/2")]);
            ("body", JStr "Fixes #1"); ("user", JDict [("login", JStr "hubot")])];
     JDict [("number", JInt 3); ("title", JStr "Docs"); ("body", JNull);
            ("user", JDict [("login", JStr "octocat")])];
     JDict [("number", JInt 4); ("title", JStr "Typo")]].

Definition issues_net : nat -> http_call -> attempt_outcome :=
  fun _ _ => Parsed issues_response.

Definition github : Github.GitHubIssuesAdapter :=
  {| Github.client := init (Some "https://api.github.com")
                        (Some [("Accept", "application/vnd.github.v3+json")])
                        (Some (NFloat 10)) 1 (NFloat (1 # 2)) |}.

End Scenarios.

(* ================================================================= *)
(** ** Further observations on a call of [request] *)

Module HttpObs.
Import Py Http.

(** The time a trace spends suspended: the sum of its delays. *)
Fixpoint total_delay (t : list event) : Q :=
  match t with
  | [] => 0
  | EvSleep d :: t' => number_value d + total_delay t'
  | _ :: t' => total_delay t'
  end.

(** The sum of a list of suspensions. *)
Fixpoint sum_delays (l : list (nat * number)) : Q :=
  match l with
  | [] => 0
  | p :: l' => number_value (snd p) + sum_delays l'
  end.

(** Every request of a trace is the request [call]. *)
Definition requests_are (call : http_call) (t : list event) : Prop :=
  Forall (fun e => match e with EvRequest c' => c' = call | _ => True end) t.

(** The requests of a trace. *)
Fixpoint requests (t : list event) : list http_call :=
  match t with
  | [] => []
  | EvRequest c :: t' => c :: requests t'
  | _ :: t' => requests t'
  end.

End HttpObs.

(* ================================================================= *)
(** ** Catalogs as start-up builds them, and calls as hosts make them *)

Module ToolingObs.
Import Py Tooling.

(** The catalog after [register] was called for each tool of [specs] in
    turn; a call that raises leaves the catalog as it was. *)
Definition register_all (specs : list ToolSpec) (cat : ToolCatalog)
  : ToolCatalog :=
  fold_left (fun c spec => snd (register c spec)) specs cat.

(** The tools of a list that are the first of their name, in order. *)
Fixpoint first_of_each_name (seen : list string) (specs : list ToolSpec)
  : list ToolSpec :=
  match specs with
  | [] => []
  | spec :: specs' =>
      if existsb (String.eqb (name spec)) seen
      then first_of_each_name seen specs'
      else spec :: first_of_each_name (seen ++ [name spec]) specs'
  end.

(** An optional context as a value: [None] or the dictionary. *)
Definition context_value (context : option (dict value)) : value :=
  match context with
  | Some d => VDict d
  | None => VNone
  end.

(** The keyword call a host makes for a request: [arguments=..., context=...]. *)
Definition keyword_call (request : ToolInvocationRequest) : dict value :=
  [("arguments", VDict (input request));
   ("context", context_value (context request))].

End ToolingObs.

(* ================================================================= *)
(** ** Further scenarios *)

Module Cases.
Import Py Tooling.

(** A tool that echoes the city it is given, as a raw mapping, and one whose
    handler breaks with a [TypeError]. *)
Definition echo_tool : ToolSpec :=
  {| name := "echo";
     description := "Echo the city";
     input_model := Scenarios.city_model;
     output_model := Scenarios.city_model;
     handler := fun payload _ => Return (VDict payload) |}.

Definition crashing_tool : ToolSpec :=
  {| name := "crash";
     description := "Always breaks";
     input_model := Scenarios.city_model;
     output_model := Scenarios.city_model;
     handler := fun _ _ =>
       Raise (mkExn TypeError "unsupported operand type(s)") |}.

(** A tool whose task is cancelled while its handler runs. *)
Definition cancelled_tool : ToolSpec :=
  {| name := "slow";
     description := "Never gets to answer";
     input_model := Scenarios.city_model;
     output_model := Scenarios.city_model;
     handler := fun _ _ => Raise (mkExn CancelledError "") |}.

Definition oslo : ToolInvocationRequest :=
  {| tool := "echo"; input := [("city", VStr "Oslo")]; context := None |}.

End Cases.

(* ================================================================= *)
(** ** mcp/tooling.py: [ToolSpec.bind_to_server];
       server/mcp_server.py: [AIHubMCPServer.register_tool];
       server/tool_loader.py *)

Module Binding.
Import Py Tooling.

(** The calls [bind_to_server] makes on the host.  Each carries the tool,
    for its name, its description and the closure handed over
    ([fastmcp_handler] in the first, [mcp_handler] in the others), and the
    JSON schemas where the call passes them. *)
Inductive host_call : Type :=
| AddToolFunction (spec : ToolSpec)
| AddToolKeywords (spec : ToolSpec) (input_schema output_schema : value)
| AddToolObject (spec : ToolSpec) (input_schema output_schema : value)
| RegisterTool (spec : ToolSpec) (input_schema output_schema : value)
| ToolDecorator (spec : ToolSpec) (input_schema output_schema : value)
| Decorated (spec : ToolSpec).

(** The host: which of [add_tool], [register_tool] and [tool] it has as
    callables, and what it answers to a call given the calls made on it so
    far. *)
Record host : Type := mkHost {
  has_add_tool : bool;
  has_register_tool : bool;
  has_tool : bool;
  answer : list host_call -> host_call -> result unit
}.

(** The [mcp.types] module: missing ([None]), or with its [Tool] or
    [ToolDefinition] class, if it has one; the class is what constructing a
    tool object does. *)
Definition mcp_types_module : Type :=
  option (option (ToolSpec -> value -> value -> result unit)).

Definition host_do (h : host) (c : host_call) (log : list host_call)
  : result unit * list host_call :=
  (answer h log c, (log ++ [c])%list).

(** How a block of [bind_to_server] ends: with [return], by going on to the
    next block, or with an exception that leaves the function. *)
Inductive block_end : Type :=
| Returned
| GoOn
| Left (e : exn).

Section Bind.

Variable mcp_types : mcp_types_module.

(** [model_json_schema()] of the input and of the output model of a tool,
    called one after the other before anything is asked of the host: the
    two schemas, or the exception of the call that raises. *)
Variable model_json_schema : ToolSpec -> result (value * value).

Variable server : host.

(** What an [except Exception: pass] makes of an exception: the function
    goes on after an [Exception], and anything else leaves it. *)
Definition pass_Exception (e : exn) (log : list host_call)
  : block_end * list host_call :=
  if is_Exception (exn_cls e) then (GoOn, log) else (Left e, log).

(** The [add_tool] block.  An exception of the host has the class the
    [except] clauses see: one whose class derives from [TypeError] is a
    [TypeError] here. *)
Definition try_add_tool (self : ToolSpec) (input_schema output_schema : value)
    (log : list host_call) : block_end * list host_call :=
  if has_add_tool server then
    let (r1, log1) := host_do server (AddToolFunction self) log in
    match r1 with
    | Return _ => (Returned, log1)
    | Raise e1 =>
        if is_TypeError (exn_cls e1) then
          let (r2, log2) :=
            host_do server (AddToolKeywords self input_schema output_schema) log1 in
          match r2 with
          | Return _ => (Returned, log2)
          | Raise e2 => pass_Exception e2 log2
          end
        else if is_Exception (exn_cls e1) then
          match mcp_types with
          | Some (Some tool_cls) =>
              match tool_cls self input_schema output_schema with
              | Return _ =>
                  let (r3, log3) :=
                    host_do server
                      (AddToolObject self input_schema output_schema) log1 in
                  match r3 with
                  | Return _ => (Returned, log3)
                  | Raise e3 => pass_Exception e3 log3
                  end
              | Raise e => pass_Exception e log1
              end
          | _ => (GoOn, log1)
          end
        else (Left e1, log1)
    end
  else (GoOn, log).

(** The [register_tool] block. *)
Definition try_register_tool (self : ToolSpec)
    (input_schema output_schema : value) (log : list host_call)
  : block_end * list host_call :=
  if has_register_tool server then
    let (r, log1) :=
      host_do server (RegisterTool self input_schema output_schema) log in
    match r with
    | Return _ => (Returned, log1)
    | Raise e => pass_Exception e log1
    end
  else (GoOn, log).

(** The [tool] block: nothing is caught here. *)
Definition try_tool_decorator (self : ToolSpec)
    (input_schema output_schema : value) (log : list host_call)
  : block_end * list host_call :=
  if has_tool server then
    let (r1, log1) :=
      host_do server (ToolDecorator self input_schema output_schema) log in
    match r1 with
    | Raise e => (Left e, log1)
    | Return _ =>
        let (r2, log2) := host_do server (Decorated self) log1 in
        match r2 with
        | Raise e => (Left e, log2)
        | Return _ => (Returned, log2)
        end
    end
  else (GoOn, log).

(** [ToolSpec.bind_to_server] *)
Definition bind_to_server (self : ToolSpec) (log : list host_call)
  : result unit * list host_call :=
  match mcp_types with
  | None =>
      (Raise (mkExn RuntimeError
                "The 'mcp' package is required but not installed"), log)
  | Some _ =>
      match model_json_schema self with
      | Raise e => (Raise e, log)
      | Return (input_schema, output_schema) =>
          match try_add_tool self input_schema output_schema log with
          | (Returned, log1) => (Return tt, log1)
          | (Left e, log1) => (Raise e, log1)
          | (GoOn, log1) =>
              match try_register_tool self input_schema output_schema log1 with
              | (Returned, log2) => (Return tt, log2)
              | (Left e, log2) => (Raise e, log2)
              | (GoOn, log2) =>
                  match try_tool_decorator self input_schema output_schema
                          log2 with
                  | (Returned, log3) => (Return tt, log3)
                  | (Left e, log3) => (Raise e, log3)
                  | (GoOn, log3) =>
                      (Raise (mkExn RuntimeError
                                "Incompatible MCP server: missing tool registration API"),
                       log3)
                  end
              end
          end
      end
  end.

(** [AIHubMCPServer.register_tool], on the catalog of the server and the
    calls made so far on [self.mcp_server]. *)
Definition register_tool (catalog : ToolCatalog) (log : list host_call)
    (spec : ToolSpec) : result unit * (ToolCatalog * list host_call) :=
  match register catalog spec with
  | (Raise e, catalog') => (Raise e, (catalog', log))
  | (Return _, catalog') =>
      match bind_to_server spec log with
      | (Raise e, log') => (Raise e, (catalog', log'))
      | (Return _, log') => (Return tt, (catalog', log'))
      end
  end.

End Bind.

(** A call that registers a tool when the host accepts it: every call but
    the one that only asks [server.tool] for a decorator. *)
Definition registers (c : host_call) : bool :=
  match c with
  | ToolDecorator _ _ _ => false
  | _ => true
  end.

(** The calls of [new], made after [log], that the host accepted. *)
Fixpoint accepted (h : host) (log new : list host_call) : list host_call :=
  match new with
  | [] => []
  | c :: new' =>
      match answer h log c with
      | Return _ => c :: accepted h (log ++ [c]) new'
      | Raise _ => accepted h (log ++ [c]) new'
      end
  end.

End Binding.

(* ================================================================= *)
(** ** config/settings.py: [ToolToggle]; server/tool_loader.py *)

Module Loader.
Import Py Tooling Binding.

(** [ToolToggle] *)
Record ToolToggle : Type := mkToggle {
  enabled : bool;
  config : dict value
}.

(** [ToolFactory]: [build_tool] of a tool module. *)
Definition ToolFactory : Type := dict value -> result ToolSpec.

(** What [importlib.import_module] does for a module name: the module is
    not found, the import breaks in another way, or there is a module, with
    or without a [build_tool] attribute, which is callable or not. *)
Inductive import_outcome : Type :=
| ModuleNotFound
| ImportBreaks (e : exn)
| Imported (build_tool : option (option ToolFactory)).

Section Load.

Variable modules : string -> import_outcome.
Variable mcp_types : mcp_types_module.
Variable model_json_schema : ToolSpec -> result (value * value).
Variable server : host.

(** [_import_tool_factory] *)
Definition _import_tool_factory (tool_name : string) : result ToolFactory :=
  let module_name := "ai_assistant_hub.tools." ++ tool_name in
  match modules module_name with
  | ModuleNotFound =>
      Raise (mkExn ConfigurationError ("Tool module not found: " ++ module_name))
  | ImportBreaks e => Raise e
  | Imported None =>
      Raise (mkExn ConfigurationError
               ("Tool module " ++ module_name ++ " missing build_tool"))
  | Imported (Some None) =>
      Raise (mkExn ConfigurationError
               ("Tool module " ++ module_name ++ " build_tool is not callable"))
  | Imported (Some (Some factory)) => Return factory
  end.

(** [load_tools]: the loop over [settings.enabled_tools.items()], on the
    catalog of the server and the calls made so far on its host.  The lines
    written to the debug log are left out. *)
Fixpoint load_tools (enabled_tools : dict ToolToggle) (catalog : ToolCatalog)
    (log : list host_call) : result unit * (ToolCatalog * list host_call) :=
  match enabled_tools with
  | [] => (Return tt, (catalog, log))
  | (tool_name, toggle) :: rest =>
      if negb (enabled toggle) then load_tools rest catalog log
      else
        match _import_tool_factory tool_name with
        | Raise e => (Raise e, (catalog, log))
        | Return factory =>
            match factory (config toggle) with
            | Raise e => (Raise e, (catalog, log))
            | Return spec =>
                match register_tool mcp_types model_json_schema server
                        catalog log spec with
                | (Raise e, state) => (Raise e, state)
                | (Return _, (catalog', log')) => load_tools rest catalog' log'
                end
            end
        end
  end.

End Load.

(** The tools the factories build for the toggles that are enabled, in the
    order of the settings; [None] when a factory is missing or raises. *)
Fixpoint built_tools (modules : string -> import_outcome)
    (enabled_tools : dict ToolToggle) : option (list ToolSpec) :=
  match enabled_tools with
  | [] => Some []
  | (tool_name, toggle) :: rest =>
      if negb (enabled toggle) then built_tools modules rest
      else
        match _import_tool_factory modules tool_name with
        | Return factory =>
            match factory (config toggle), built_tools modules rest with
            | Return spec, Some specs => Some (spec :: specs)
            | _, _ => None
            end
        | Raise _ => None
        end
  end.

End Loader.

Module Hosts.
Import Py Tooling Binding Loader.

(** A host of the older kind: its [add_tool] wants keywords and answers a
    function in first position with a [TypeError]. *)
Definition keyword_host : host :=
  {| has_add_tool := true; has_register_tool := false; has_tool := false;
     answer := fun _ c =>
       match c with
       | AddToolFunction _ =>
           Raise (mkExn TypeError "add_tool() takes 1 positional argument")
       | _ => Return tt
       end |}.

(** A host whose [add_tool] refuses everything, and that has nothing else. *)
Definition refusing_host : host :=
  {| has_add_tool := true; has_register_tool := false; has_tool := false;
     answer := fun _ _ => Raise (mkExn ValueError "tool rejected") |}.

(** A host that accepts a function in first position. *)
Definition fastmcp_host : host :=
  {| has_add_tool := true; has_register_tool := false; has_tool := true;
     answer := fun _ _ => Return tt |}.

Definition no_schema : ToolSpec -> result (value * value) :=
  fun _ => Return (VDict [], VDict []).

(** Models whose schema cannot be generated. *)
Definition broken_schema : ToolSpec -> result (value * value) :=
  fun _ =>
    Raise (mkExn (OtherException "PydanticInvalidForJsonSchema")
             "Cannot generate a JsonSchema for core_schema.CallableSchema").

(** A host whose [add_tool] is interrupted from the keyboard. *)
Definition interrupted_host : host :=
  {| has_add_tool := true; has_register_tool := true; has_tool := true;
     answer := fun _ _ => Raise (mkExn KeyboardInterrupt "") |}.

Definition mcp_without_tool_class : mcp_types_module := Some None.

(** An installation with one tool module, [ai_assistant_hub.tools.echo]. *)
Definition echo_module_only : string -> import_outcome :=
  fun module_name =>
    if String.eqb module_name "ai_assistant_hub.tools.echo"
    then Imported (Some (Some (fun _ => Return Cases.echo_tool)))
    else ModuleNotFound.

Definition switched_on : ToolToggle := {| enabled := true; config := [] |}.
Definition switched_off : ToolToggle := {| enabled := false; config := [] |}.

Definition echo_settings : dict ToolToggle :=
  [("slack", switched_off); ("echo", switched_on)].

Definition settings_with_unknown_tool : dict ToolToggle :=
  [("echo", switched_on); ("slack", switched_off); ("nowhere", switched_on)].

End Hosts.

(* ================================================================= *)
(** ** utils/auth.py; integrations/github.py: [GitHubIssuesConfig] and
       [GitHubIssuesAdapter.__init__] *)

Module GithubConfig.
Import Py.

(** [APIKeyAuth.headers] *)
Definition APIKeyAuth_headers (header_name api_key : string) : dict string :=
  [(header_name, api_key)].

(** [OAuthTokenAuth.headers] *)
Definition OAuthTokenAuth_headers (token token_type : string) : dict string :=
  [("Authorization", token_type ++ " " ++ token)].

(** [d.update(other)] *)
Definition dict_update {V} (d other : dict V) : dict V :=
  fold_left (fun d item => dict_set (fst item) (snd item) d) other d.

Record GitHubIssuesConfig : Type := mkConfig {
  base_url : string;
  token : option string;
  token_type : string;
  timeout : number;
  retries : Z;
  backoff_factor : number
}.

(** The headers [GitHubIssuesAdapter.__init__] gives to its client. *)
Definition adapter_headers (config : GitHubIssuesConfig) : dict string :=
  let headers := [("Accept", "application/vnd.github.v3+json")] in
  match token config with
  | Some t =>
      if String.eqb t "" then headers
      else dict_update headers (OAuthTokenAuth_headers t (token_type config))
  | None => headers
  end.

(** [GitHubIssuesAdapter.__init__] *)
Definition GitHubIssuesAdapter_init (config : GitHubIssuesConfig)
  : Github.GitHubIssuesAdapter :=
  {| Github.client :=
       Http.init (Some (base_url config)) (Some (adapter_headers config))
         (Some (timeout config)) (retries config) (backoff_factor config) |}.

(** The [Authorization] header a configuration asks for. *)
Definition authorization (config : GitHubIssuesConfig) : option string :=
  match token config with
  | Some t => if String.eqb t "" then None
              else Some (token_type config ++ " " ++ t)
  | None => None
  end.

End GithubConfig.

(* ================================================================= *)
(** ** integrations/github.py: [ensure_repository];
       tools/github_issues.py: the handler of [build_tool] *)

Module GithubTool.
Import Py Http HttpObs Github.

(** [needle in s] on strings. *)
Definition contains (needle s : string) : bool :=
  match index 0 needle s with
  | Some _ => true
  | None => false
  end.

Definition repository_not_found (owner repo : string) : exn :=
  mkExn ToolExecutionError
    ("Repository '" ++ owner ++ "/" ++ repo
     ++ "' not found. Confirm owner and repository name.").

Definition repository_inaccessible (owner repo : string) : exn :=
  mkExn ToolExecutionError
    ("Repository '" ++ owner ++ "/" ++ repo
     ++ "' is private or inaccessible. Provide a GitHub token via TOOL_GITHUB_ISSUES_CONFIG__TOKEN").

(** [GitHubIssuesInput] *)
Record GitHubIssuesInput : Type := mkIssuesInput {
  owner : string;
  repo : string;
  state : option string;
  labels : option (list string);
  page : option Z;
  per_page : option Z
}.

(** [x or default] on an optional string and on an optional integer. *)
Definition str_or (x : option string) (default : string) : string :=
  match x with
  | Some s => if String.eqb s "" then default else s
  | None => default
  end.

Definition int_or (x : option Z) (default : Z) : Z :=
  match x with
  | Some z => if z =? 0 then default else z
  | None => default
  end.

Definition issue_states : list string := ["open"; "closed"; "all"].

Section Adapter.
Variable httpx : bool.
Variable net : nat -> http_call -> attempt_outcome.

(** [str.lower] *)
Variable lower : string -> string.

(** [GitHubIssuesAdapter.ensure_repository] *)
Definition ensure_repository (self : GitHubIssuesAdapter) (owner repo : string)
    (w : world) : option (result unit * world) :=
  match request httpx net (client self) "GET"
          ("/repos/" ++ owner ++ "/" ++ repo) [] w with
  | None => None
  | Some (Return _, w') => Some (Return tt, w')
  | Some (Raise exc, w') =>
      if is_ToolExecutionError (exn_cls exc) then
        let message := exn_str exc in
        if contains "404" message || contains "Not Found" message then
          Some (Raise (repository_not_found owner repo), w')
        else if contains "403" message || contains "Forbidden" message then
          Some (Raise (repository_inaccessible owner repo), w')
        else Some (Raise exc, w')
      else Some (Raise exc, w')
  end.

(** The state, the page and the page size the handler asks for. *)
Definition asked_state (payload : GitHubIssuesInput) : string :=
  lower (str_or (state payload) "open").

Definition asked_page (payload : GitHubIssuesInput) : Z :=
  int_or (page payload) 1.

Definition asked_per_page (payload : GitHubIssuesInput) : Z :=
  int_or (per_page payload) 30.

(** [handler] of [build_tool], for the adapter built from the
    configuration. *)
Definition handler (adapter : GitHubIssuesAdapter) (payload : GitHubIssuesInput)
    (w : world) : option (result json * world) :=
  let state := asked_state payload in
  if negb (existsb (String.eqb state) issue_states) then
    Some (Raise (mkExn ToolExecutionError
                   "Invalid issue state. Choose 'open', 'closed', or 'all'."), w)
  else
    match ensure_repository adapter (owner payload) (repo payload) w with
    | None => None
    | Some (Raise e, w1) => Some (Raise e, w1)
    | Some (Return _, w1) =>
        match list_issues httpx net adapter (owner payload) (repo payload)
                state (labels payload) (asked_page payload)
                (asked_per_page payload) w1 with
        | None => None
        | Some (Raise e, w2) => Some (Raise e, w2)
        | Some (Return issues, w2) =>
            Some (Return (JDict
                    [("issues", JList issues);
                     ("repository_exists", JBool true);
                     ("total_count", JInt (Z.of_nat (List.length issues)))]),
                  w2)
        end
    end.

End Adapter.

(** The two requests of the handler. *)
Definition repository_call (adapter : GitHubIssuesAdapter)
    (payload : GitHubIssuesInput) : http_call :=
  call_of (client adapter) "GET"
    ("/repos/" ++ owner payload ++ "/" ++ repo payload) [].

Definition issues_call (lower : string -> string) (adapter : GitHubIssuesAdapter)
    (payload : GitHubIssuesInput) : http_call :=
  call_of (client adapter) "GET"
    ("/repos/" ++ owner payload ++ "/" ++ repo payload ++ "/issues")
    [("params",
      JDict (issue_params (asked_state lower payload) (labels payload)
               (asked_page payload) (asked_per_page payload)))].


(** A host that answers every request with a 404. *)
Definition always_404 : nat -> http_call -> attempt_outcome :=
  fun _ _ =>
    HTTPStatusError 404 "Not Found" "no such repository"
      "Client error '404 Not Found' for url 'https://api.github.com/repos/o/r'".

Definition closed_issues_of_o_r : GitHubIssuesInput :=
  {| owner := "o"; repo := "r"; state := Some "Closed"; labels := Some ["bug"];
     page := Some 0; per_page := Some 250 |}.

(** Lowering of the letters A to Z, for the examples. *)
Fixpoint ascii_lower (s : string) : string :=
  match s with
  | EmptyString => EmptyString
  | String ch s' =>
      let n := Ascii.nat_of_ascii ch in
      String (if (65 <=? n)%nat && (n <=? 90)%nat
              then Ascii.ascii_of_nat (n + 32) else ch)
             (ascii_lower s')
  end.

End GithubTool.

(* ================================================================= *)
(** ** config/loaders.py: [merge_dicts] *)

Module Config.
Import Py.

(** What one pass of the loop of [merge_dicts] leaves under [key], given
    what [base.get(key)] was: two dictionaries are merged, anything else is
    replaced by [value].  The values are taken as trees: [base] and
    [overrides] share no dictionary. *)
Fixpoint merge_value (old : option json) (value : json) {struct value} : json :=
  match value, old with
  | JDict overrides, Some (JDict base) =>
      JDict
        ((fix loop (items : list (string * json)) (base : dict json)
            {struct items} : dict json :=
            match items with
            | [] => base
            | (key, v) :: rest =>
                loop rest (dict_set key (merge_value (dict_get key base) v) base)
            end) overrides base)
  | _, _ => value
  end.

(** [merge_dicts]: the dictionary [base] is after the call. *)
Fixpoint merge_dicts (base overrides : dict json) {struct overrides} : dict json :=
  match overrides with
  | [] => base
  | (key, value) :: rest =>
      merge_dicts (dict_set key (merge_value (dict_get key base) value) base) rest
  end.

Definition env_config : dict json :=
  [("APP_NAME", JStr "hub");
   ("TOOL_WEATHER", JDict [("enabled", JBool true);
                           ("config", JDict [("api_key", JStr "k");
                                             ("retries", JInt 1)])])].

Definition file_config : dict json :=
  [("TOOL_WEATHER", JDict [("config", JDict [("retries", JInt 3)])]);
   ("LOG_LEVEL", JStr "DEBUG");
   ("APP_NAME", JStr "hub-2")].

End Config.

(* ================================================================= *)
(** ** integrations/weather.py and tools/weather.py *)

Module Weather.
Import Py HttpObs.

(** [WeatherConfig] *)
Record WeatherConfig : Type := mkWeatherConfig {
  api_key : string;
  base_url : string;
  timeout : number;
  retries : Z;
  backoff_factor : number
}.

(** [WeatherAdapter] *)
Record WeatherAdapter : Type := mkWeatherAdapter {
  config : WeatherConfig;
  client : Http.ResilientAsyncHTTPClient
}.

(** [WeatherAdapter.__init__] *)
Definition WeatherAdapter_init (config : WeatherConfig) : WeatherAdapter :=
  {| config := config;
     client := Http.init (Some (base_url config)) None (Some (timeout config))
                 (retries config) (backoff_factor config) |}.

(** [WeatherInput] *)
Record WeatherInput : Type := mkWeatherInput {
  location : string;
  units : string
}.

(** [x[0]]: the first item of a list, the first character of a string;
    a dictionary of JSON has no key [0]. *)
Definition item0 (x : json) : result json :=
  match x with
  | JList (v :: _) => Return v
  | JList [] => Raise (mkExn (OtherException "IndexError") "list index out of range")
  | JStr (String ch _) => Return (JStr (String ch ""))
  | JStr EmptyString =>
      Raise (mkExn (OtherException "IndexError") "string index out of range")
  | JDict _ => Raise (mkExn (OtherException "KeyError") "0")
  | _ => Raise (mkExn TypeError "object is not subscriptable")
  end.

Definition unit_systems : list string := ["metric"; "imperial"].


Section Fetch.
Variable httpx : bool.
Variable net : nat -> Http.http_call -> Http.attempt_outcome.

(** [str(x)] for a value [x] that is not a string. *)
Variable py_str : json -> string.

(** [str.lower] *)
Variable lower : string -> string.

(** [f"{x}"] *)
Definition format (x : json) : string :=
  match x with
  | JStr s => s
  | _ => py_str x
  end.

(** What [fetch_weather] does with the response. *)
Definition conditions_of (location units : string) (response : json)
  : result json :=
  bind (Github.json_get response "main" (JDict [])) (fun main =>
  bind (Github.json_get response "weather" (JList [JDict []])) (fun weather0 =>
  bind (item0 weather0) (fun weather =>
  bind (Github.json_get response "wind" (JDict [])) (fun wind =>
  bind (Github.json_get response "name" (JStr location)) (fun location_name =>
  bind (Github.json_get response "sys" (JDict [])) (fun sys =>
  bind (Github.json_get sys "country" (JStr "")) (fun country =>
  let location_str :=
    if json_truthy country
    then JStr (format location_name ++ ", " ++ format country)
    else location_name in
  bind (Github.json_get main "temp" JNull) (fun temperature =>
  bind (Github.json_get main "feels_like" JNull) (fun feels_like =>
  bind (Github.json_get weather "description" (JStr "")) (fun description =>
  bind (Github.json_get main "humidity" JNull) (fun humidity =>
  bind (Github.json_get main "pressure" JNull) (fun pressure =>
  bind (Github.json_get wind "speed" JNull) (fun wind_speed =>
  bind (Github.json_get wind "deg" JNull) (fun wind_direction =>
  bind (Github.json_get response "visibility" JNull) (fun visibility =>
  bind (Github.json_get response "clouds" (JDict [])) (fun clouds0 =>
  bind (Github.json_get clouds0 "all" JNull) (fun clouds =>
  Return (JDict
    [("location", location_str); ("temperature", temperature);
     ("feels_like", feels_like); ("description", description);
     ("humidity", humidity); ("pressure", pressure);
     ("wind_speed", wind_speed); ("wind_direction", wind_direction);
     ("visibility", visibility); ("clouds", clouds);
     ("units", JStr units)])))))))))))))))))).

Definition weather_params (self : WeatherAdapter) (location units : string)
  : dict json :=
  [("q", JStr location); ("units", JStr units);
   ("appid", JStr (api_key (config self)))].

(** [WeatherAdapter.fetch_weather] *)
Definition fetch_weather (self : WeatherAdapter) (location units : string)
    (w : Http.world) : option (result json * Http.world) :=
  if String.eqb (api_key (config self)) "" then
    Some (Raise (mkExn ToolExecutionError
                   "Weather API key not configured. Set TOOL_WEATHER_CONFIG__API_KEY"),
          w)
  else
    match Http.request httpx net (client self) "GET" "/weather"
            [("params", JDict (weather_params self location units))] w with
    | None => None
    | Some (Raise e, w') => Some (Raise e, w')
    | Some (Return response, w') =>
        Some (conditions_of location units response, w')
    end.

(** [handler] of [build_tool] *)
Definition handler (adapter : WeatherAdapter) (payload : WeatherInput)
    (w : Http.world) : option (result json * Http.world) :=
  let units := lower (units payload) in
  if negb (existsb (String.eqb units) unit_systems) then
    Some (Raise (mkExn ToolExecutionError
                   "Invalid unit system. Choose 'metric' or 'imperial'."), w)
  else
    match fetch_weather adapter (location payload) units w with
    | None => None
    | Some (Raise e, w') => Some (Raise e, w')
    | Some (Return conditions, w') =>
        Some (Return (JDict [("conditions", conditions)]), w')
    end.

End Fetch.


End Weather.

(* ================================================================= *)
(** ** integrations/slack.py and tools/slack_post_message.py *)

Module Slack.
Import Py HttpObs.

(** [SlackConfig] *)
Record SlackConfig : Type := mkSlackConfig {
  token : string;
  token_type : string;
  base_url : string;
  timeout : number;
  retries : Z;
  backoff_factor : number
}.

(** [SlackAdapter] *)
Record SlackAdapter : Type := mkSlackAdapter {
  client : Http.ResilientAsyncHTTPClient
}.

(** [SlackAdapter.__init__] *)
Definition SlackAdapter_init (config : SlackConfig) : SlackAdapter :=
  let headers :=
    GithubConfig.dict_update
      [("Content-Type", "application/x-www-form-urlencoded")]
      (GithubConfig.OAuthTokenAuth_headers (token config) (token_type config)) in
  {| client := Http.init (Some (base_url config)) (Some headers)
                 (Some (timeout config)) (retries config)
                 (backoff_factor config) |}.

(** [SlackPostMessageInput] *)
Record SlackPostMessageInput : Type := mkSlackInput {
  channel : string;
  text : string;
  thread_ts : option string
}.

(** [s.replace('.', '')] *)
Fixpoint without_dots (s : string) : string :=
  match s with
  | EmptyString => EmptyString
  | String ch s' =>
      if Ascii.eqb ch "."%char then without_dots s'
      else String ch (without_dots s')
  end.

(** The form data of [post_message]. *)
Definition message_payload (channel text : string) (thread_ts : option string)
  : dict json :=
  let payload := [("channel", JStr channel); ("text", JStr text)] in
  match thread_ts with
  | Some t =>
      if String.eqb t "" then payload else dict_set "thread_ts" (JStr t) payload
  | None => payload
  end.

(** [channel[1:] if channel.startswith("#") else channel] *)
Definition channel_of (channel : string) : string :=
  match channel with
  | String ch rest => if Ascii.eqb ch "#"%char then rest else channel
  | EmptyString => channel
  end.

Section Post.
Variable httpx : bool.
Variable net : nat -> Http.http_call -> Http.attempt_outcome.

(** [str(x)] for a value [x] that is not a string. *)
Variable py_str : json -> string.

(** What [post_message] does with the response. *)
Definition posted (channel : string) (response : json) : result json :=
  bind (Github.json_get response "ok" JNull) (fun ok =>
  if negb (json_truthy ok) then
    bind (Github.json_get response "error" (JStr "Unknown error"))
      (fun error_msg =>
       Raise (mkExn ToolExecutionError
                ("Slack API error: " ++ Weather.format py_str error_msg)))
  else
    bind (Github.json_get response "message" (JDict [])) (fun message_data =>
    bind (Github.json_get response "channel" (JDict [])) (fun channel_data =>
    bind (match channel_data with
          | JStr _ => Return channel_data
          | _ => Github.json_get channel_data "id" (JStr channel)
          end) (fun channel_id =>
    let channel_name :=
      match channel_data with
      | JDict d =>
          match dict_get "name" d with
          | Some v =>
              if json_truthy v then JStr ("#" ++ Weather.format py_str v)
              else JNull
          | None => JNull
          end
      | _ => JNull
      end in
    bind (Github.json_get message_data "ts" (JStr "")) (fun message_ts =>
    bind (if json_truthy message_ts && json_truthy channel_id then
            match message_ts with
            | JStr s =>
                Return (JStr ("https://slack.com/archives/"
                              ++ Weather.format py_str channel_id
                              ++ "/p" ++ without_dots s))
            | _ => Raise (mkExn AttributeError
                            "object has no attribute 'replace'")
            end
          else Return JNull) (fun permalink =>
    Return (JDict
      [("message_ts", message_ts); ("status", JStr "sent");
       ("channel", channel_id); ("channel_name", channel_name);
       ("permalink", permalink)]))))))).

(** [SlackAdapter.post_message] *)
Definition post_message (self : SlackAdapter) (channel text : string)
    (thread_ts : option string) (w : Http.world)
  : option (result json * Http.world) :=
  match Http.request httpx net (client self) "POST" "/chat.postMessage"
          [("data", JDict (message_payload channel text thread_ts))] w with
  | None => None
  | Some (Raise e, w') => Some (Raise e, w')
  | Some (Return response, w') => Some (posted channel response, w')
  end.

(** [handler] of [build_tool] *)
Definition handler (adapter : SlackAdapter) (payload : SlackPostMessageInput)
    (w : Http.world) : option (result json * Http.world) :=
  post_message adapter (channel_of (channel payload)) (text payload)
    (thread_ts payload) w.

End Post.




End Slack.

(* ================================================================= *)
(** ** Facts about utils/http.py *)

Module HttpFacts.
Import Py Http.

Lemma attempts_app (t1 t2 : list event) :
  attempts (t1 ++ t2) = (attempts t1 + attempts t2)%nat.
Proof.
  unfold attempts. rewrite filter_app, length_app. reflexivity.
Qed.

(** *** The back-off arithmetic *)

Lemma pow2_fits (a : Z) :
  0 <= a < 1024 -> (Z.abs (2 ^ a) <? 2 ^ 1024 - 2 ^ 970) = true.
Proof.
  intros Ha. apply Z.ltb_lt.
  rewrite Z.abs_eq by (apply Z.pow_nonneg; lia).
  apply Z.le_lt_trans with (m := 2 ^ 1023).
  - apply Z.pow_le_mono_r; lia.
  - apply Z.ltb_lt. vm_compute. reflexivity.
Qed.

Lemma pow2_too_large (a : Z) :
  1024 <= a -> (Z.abs (2 ^ a) <? 2 ^ 1024 - 2 ^ 970) = false.
Proof.
  intros Ha. apply Z.ltb_ge.
  rewrite Z.abs_eq by (apply Z.pow_nonneg; lia).
  apply Z.le_trans with (m := 2 ^ 1024).
  - apply Z.leb_le. vm_compute. reflexivity.
  - apply Z.pow_le_mono_r; lia.
Qed.

(** With a [float] factor the product is there up to attempt number 1023 and
    raises from 1024 on; with an [int] factor it is always there. *)
Lemma sleep_for_float (c : ResilientAsyncHTTPClient) (q : Q) (a : Z) :
  backoff_factor c = NFloat q ->
  0 <= a ->
  sleep_for c a
  = if a <? 1024 then Return (NFloat (q * inject_Z (2 ^ a)))
    else Raise (mkExn OverflowError "int too large to convert to float").
Proof.
  intros Hb Ha. unfold sleep_for, mul_int, float_of_int. rewrite Hb.
  destruct (Z.ltb_spec a 1024) as [Hlt|Hge].
  - rewrite pow2_fits by lia. reflexivity.
  - rewrite pow2_too_large by lia. reflexivity.
Qed.

Lemma sleep_for_int (c : ResilientAsyncHTTPClient) (z a : Z) :
  backoff_factor c = NInt z -> sleep_for c a = Return (NInt (z * 2 ^ a)).
Proof.
  intros Hb. unfold sleep_for, mul_int. rewrite Hb. reflexivity.
Qed.

(** The delay is the factor times [2^attempt]. *)
Lemma sleep_for_value (c : ResilientAsyncHTTPClient) (a : Z) (d : number) :
  0 <= a ->
  sleep_for c a = Return d ->
  (number_value d == number_value (backoff_factor c) * 2 ^ a)%Q.
Proof.
  intros Ha. unfold sleep_for, mul_int, float_of_int.
  destruct (backoff_factor c) as [z|q]; cbn [number_value].
  - intros H. injection H as <-. cbn [number_value].
    rewrite inject_Z_mult, Zpower_Qpower by lia. reflexivity.
  - destruct (Z.abs (2 ^ a) <? 2 ^ 1024 - 2 ^ 970); cbn [bind]; [|discriminate].
    intros H. injection H as <-. cbn [number_value].
    rewrite Zpower_Qpower by lia. reflexivity.
Qed.

(** A delay that fits is taken. *)
Lemma delay_fits_backoff (c : ResilientAsyncHTTPClient) (a : Z) :
  delay_fits c a = true ->
  exists d, sleep_for c a = Return d /\ backoff c a = Slept d /\ finite d = true.
Proof.
  unfold delay_fits, backoff.
  destruct (sleep_for c a) as [d|e]; [|discriminate].
  intros H. apply andb_true_iff in H. destruct H as [Hfin Hsleep].
  exists d. split; [reflexivity|]. split; [|assumption].
  destruct (asyncio_sleep d); [|discriminate].
  destruct (number_truthy d); reflexivity.
Qed.

Lemma backoff_Slept (c : ResilientAsyncHTTPClient) (a : Z) (d : number) :
  backoff c a = Slept d ->
  sleep_for c a = Return d
  /\ (number_truthy d = true -> asyncio_sleep d = Return tt).
Proof.
  unfold backoff. destruct (sleep_for c a) as [d'|e]; [|discriminate].
  destruct (number_truthy d') eqn:Ht.
  - destruct (asyncio_sleep d') as [[]|e] eqn:Hs; [|discriminate].
    intros H. injection H as <-. split; [reflexivity|]. intros _. exact Hs.
  - intros H. injection H as <-. split; [reflexivity|].
    rewrite Ht. discriminate.
Qed.

(** With an [int] factor that is 0 nothing can overflow. *)
Lemma no_overflow_int_zero (c : ResilientAsyncHTTPClient) :
  backoff_factor c = NInt 0 -> no_overflow c.
Proof.
  intros Hb a Ha. unfold delay_fits.
  rewrite (sleep_for_int c 0 a Hb). reflexivity.
Qed.

(** *** One pass *)

Section Loop.
Variable net : nat -> http_call -> attempt_outcome.
Variable c : ResilientAsyncHTTPClient.
Variable call : http_call.

(** A pass either builds its client and sends its request, or does
    neither. *)
Lemma session_request_cases (w : world) :
  (client_error net call (sent w) = None
   /\ call_base_url call <> None
   /\ session_request net call w
      = (net (sent w) call,
         {| sent := S (sent w); trace := trace w ++ [EvRequest call] |}))
  \/ (exists str_exc,
        client_error net call (sent w) = Some str_exc
        /\ session_request net call w = (ClientError str_exc, w)).
Proof.
  unfold client_error, session_request.
  destruct (call_base_url call) as [u|]; [|right; eauto].
  destruct (net (sent w) call); try (left; split; [reflexivity|];
                                      split; [discriminate|reflexivity]).
  right. eauto.
Qed.

Lemma session_request_RequestError (w : world) (m : request_exn) (w1 : world) :
  session_request net call w = (RequestError m, w1) ->
  client_error net call (sent w) = None
  /\ call_base_url call <> None
  /\ net (sent w) call = RequestError m
  /\ w1 = {| sent := S (sent w); trace := trace w ++ [EvRequest call] |}.
Proof.
  intros H.
  destruct (session_request_cases w) as [(Hce & Hb & Hs)|(s & Hce & Hs)];
    rewrite Hs in H.
  - injection H as Hn <-. auto.
  - discriminate H.
Qed.

Lemma sent_RequestError (w : world) (m : request_exn) :
  call_base_url call <> None ->
  net (sent w) call = RequestError m ->
  session_request net call w
  = (RequestError m,
     {| sent := S (sent w); trace := trace w ++ [EvRequest call] |}).
Proof.
  intros Hb Hn. unfold session_request.
  destruct (call_base_url call); [|contradiction]. rewrite Hn. reflexivity.
Qed.

(** *** The loop *)

Lemma loop_retry (f : nat) (a : Z) (le : option string) (w : world)
    (m : request_exn) (d : number) :
  a < retries c ->
  session_request net call w
  = (RequestError m,
     {| sent := S (sent w); trace := trace w ++ [EvRequest call] |}) ->
  backoff c a = Slept d ->
  request_loop net (S f) c call a le w
  = request_loop net f c call (a + 1) (Some (request_str m))
      (retry_step c call a m d w).
Proof.
  intros Ha Hs Hd. cbn [request_loop].
  replace (a <=? retries c) with true by (symmetry; apply Z.leb_le; lia).
  rewrite Hs.
  replace (a =? retries c) with false by (symmetry; apply Z.eqb_neq; lia).
  unfold backoff in Hd.
  destruct (sleep_for c a) as [d'|e]; [|discriminate Hd].
  unfold retry_step, retry_events, log. cbn [sent trace].
  destruct (number_truthy d') eqn:Ht.
  - destruct (asyncio_sleep d') as [[]|e]; [|discriminate Hd].
    injection Hd as <-. rewrite Ht. cbn [sent trace].
    repeat rewrite <- app_assoc. reflexivity.
  - injection Hd as <-. rewrite Ht. cbn [sent trace].
    repeat rewrite <- app_assoc. rewrite app_nil_r. reflexivity.
Qed.

Lemma loop_overflow (f : nat) (a : Z) (le : option string) (w : world)
    (m : request_exn) (e : exn) (logged : option number) (w1 : world) :
  a < retries c ->
  session_request net call w = (RequestError m, w1) ->
  backoff c a = Overflowed e logged ->
  request_loop net (S f) c call a le w
  = Some (Raise e,
          match logged with
          | Some d => log (EvDebug (a + 1) (retries c + 1) (request_str m) d) w1
          | None => w1
          end).
Proof.
  intros Ha Hs Hd. cbn [request_loop].
  replace (a <=? retries c) with true by (symmetry; apply Z.leb_le; lia).
  rewrite Hs.
  replace (a =? retries c) with false by (symmetry; apply Z.eqb_neq; lia).
  unfold backoff in Hd.
  destruct (sleep_for c a) as [d'|e'].
  - destruct (number_truthy d'); [|discriminate Hd].
    destruct (asyncio_sleep d') as [[]|e']; [discriminate Hd|].
    injection Hd as <- <-. reflexivity.
  - injection Hd as <- <-. reflexivity.
Qed.

(** A pass that ends the call: the outcome is not a [RequestError], or the
    attempt is the last one allowed. *)
Lemma loop_last (f : nat) (a : Z) (le : option string) (w : world)
    (o : attempt_outcome) (w1 : world) :
  a <= retries c ->
  session_request net call w = (o, w1) ->
  (forall m, o = RequestError m -> a = retries c) ->
  request_loop net (S f) c call a le w = Some (final_result c o, w1).
Proof.
  intros Ha Hs Hm. cbn [request_loop].
  replace (a <=? retries c) with true by (symmetry; apply Z.leb_le; lia).
  rewrite Hs.
  destruct o as [body|sc rp text se|m|se|se|exc]; try reflexivity.
  - rewrite (Hm m eq_refl), Z.eqb_refl. reflexivity.
  - cbn [final_result]. destruct (is_Exception (exn_cls exc)); reflexivity.
Qed.

(** The loop ends within the passes [request] gives it, whatever the
    network does. *)
Lemma request_loop_ends (n : nat) :
  forall (a : Z) (le : option string) (w : world),
    retries c - a <= Z.of_nat n ->
    exists r, request_loop net (S n) c call a le w = Some r.
Proof.
  induction n as [|n IH]; intros a le w Hn;
    (destruct (Z_lt_le_dec (retries c) a) as [Hgt|Hle];
     [ cbn [request_loop];
       replace (a <=? retries c) with false by (symmetry; apply Z.leb_gt; lia);
       eauto
     | destruct (session_request net call w) as [o w1] eqn:Hs;
       destruct o as [body|sc rp text se|m|se|se|exc];
       try (rewrite (loop_last _ _ _ _ _ _ Hle Hs) by (intros ? ?; congruence);
            eauto; fail) ]).
  - rewrite (loop_last _ _ _ _ _ _ Hle Hs) by (intros ? ?; lia). eauto.
  - destruct (Z.eq_dec a (retries c)) as [Heq|Hne].
    + rewrite (loop_last _ _ _ _ _ _ Hle Hs) by (intros ? ?; lia). eauto.
    + destruct (backoff c a) as [d|e logged] eqn:Hd.
      * pose proof (session_request_RequestError _ _ _ Hs) as (_ & _ & _ & ->).
        rewrite (loop_retry _ _ _ _ m d) by (auto; lia). apply IH. lia.
      * rewrite (loop_overflow _ _ _ _ m e logged w1) by (auto; lia). eauto.
Qed.

(** Every call that reaches the loop with [attempt <= retries] is a
    [run]. *)
Lemma request_loop_run (n : nat) :
  forall (a : Z) (le : option string) (w : world) res w',
    a <= retries c ->
    request_loop net n c call a le w = Some (res, w') ->
    run net c call a w res w'.
Proof.
  induction n as [|n IH]; intros a le w res w' Ha Hrun; [discriminate|].
  destruct (session_request net call w) as [o w1] eqn:Hs.
  assert (Hcases : (forall m, o = RequestError m -> a = retries c)
                   \/ (exists m, o = RequestError m /\ a <> retries c)).
  { destruct o as [body|sc rp text se|m|se|se|exc];
      try (left; intros ? ?; congruence).
    destruct (Z.eq_dec a (retries c)) as [Heq|Hne]; [left; auto|right; eauto]. }
  destruct Hcases as [Hlast|(m & -> & Hne)].
  - rewrite (loop_last _ _ _ _ _ _ Ha Hs Hlast) in Hrun.
    injection Hrun as <- <-. apply run_done; assumption.
  - destruct (backoff c a) as [d|e logged] eqn:Hd.
    + pose proof (session_request_RequestError _ _ _ Hs) as (_ & _ & _ & ->).
      rewrite (loop_retry _ _ _ _ m d) in Hrun by (auto; lia).
      apply run_retry with (m := m) (d := d); [lia|assumption|assumption|].
      apply IH with (le := Some (request_str m)); [lia|assumption].
    + rewrite (loop_overflow _ _ _ _ m e logged w1) in Hrun by (auto; lia).
      injection Hrun as <- <-.
      apply run_overflow; [lia|assumption|assumption].
Qed.

Lemma attempts_retry_events (a : Z) (m : request_exn) (d : number) :
  attempts (retry_events c call a m d) = 1%nat.
Proof.
  unfold retry_events. destruct (number_truthy d); reflexivity.
Qed.

Lemma suspensions_retry_events (a : Z) (m : request_exn) (d : number)
    (base : nat) (t : list event) :
  suspensions_from base (retry_events c call a m d ++ t)
  = ((if number_truthy d then [(S base, d)] else [])
     ++ suspensions_from (S base) t)%list.
Proof.
  unfold retry_events. destruct (number_truthy d); reflexivity.
Qed.

(** What a run leaves behind: the events it appends, how many requests
    went out, the [k] passes that went round (each sent a request that
    failed with a [RequestError], and took its delay), when it suspended,
    and how it ended. *)
Lemma run_inv (a : Z) (w : world) res w' :
  run net c call a w res w' ->
  exists (new : list event) (k : nat),
    trace w' = (trace w ++ new)%list
    /\ sent w' = (sent w + attempts new)%nat
    /\ a + Z.of_nat k <= retries c
    /\ (forall i, (i < k)%nat ->
        call_base_url call <> None
        /\ exists m d, net (sent w + i)%nat call = RequestError m
                       /\ backoff c (a + Z.of_nat i) = Slept d)
    /\ (forall base, suspensions_from base new = backoff_schedule c a base k)
    /\ Forall (fun e => match e with EvRequest c' => c' = call | _ => True end)
         new
    /\ ended net c call a w k (attempts new) res.
Proof.
  induction 1 as [a w o w1 Ha Hs Hlast|a w m e logged w1 Ha Hs Hd
                 |a w m d res w' Ha Hs Hd _ IH].
  - destruct (session_request_cases w) as [(Hce & Hb & Hs')|(s & Hce & Hs')];
      rewrite Hs' in Hs; injection Hs as <- <-.
    + exists [EvRequest call], 0%nat.
      cbn [trace sent attempts filter is_request length].
      split; [reflexivity|]. split; [lia|]. split; [lia|].
      split; [intros i Hi; lia|]. split; [reflexivity|].
      split; [repeat constructor|].
      left. rewrite Nat.add_0_r, Z.add_0_r. auto.
    + exists [], 0%nat. cbn [attempts filter length].
      split; [symmetry; apply app_nil_r|]. split; [lia|]. split; [lia|].
      split; [intros i Hi; lia|]. split; [reflexivity|].
      split; [constructor|].
      right. right. split; [reflexivity|]. exists s.
      rewrite Nat.add_0_r. auto.
  - apply session_request_RequestError in Hs. destruct Hs as (Hce & Hb & Hn & ->).
    exists ([EvRequest call]
            ++ match logged with
               | Some d => [EvDebug (a + 1) (retries c + 1) (request_str m) d]
               | None => []
               end)%list, 0%nat.
    split; [destruct logged; cbn [log trace]; rewrite <- ?app_assoc;
            reflexivity|].
    split; [destruct logged; cbn; lia|]. split; [lia|].
    split; [intros i Hi; lia|].
    split; [destruct logged; reflexivity|].
    split; [destruct logged; repeat constructor|].
    right. left. rewrite Nat.add_0_r, Z.add_0_r.
    split; [destruct logged; reflexivity|]. split; [assumption|].
    exists m, e, logged. auto.
  - apply session_request_RequestError in Hs. destruct Hs as (Hce & Hb & Hn & _).
    destruct IH as (new & k & Htr & Hsent & Hle & Hpre & Hsus & Hall & Hend).
    exists (retry_events c call a m d ++ new)%list, (S k).
    rewrite attempts_app, attempts_retry_events.
    cbn [retry_step trace sent] in *.
    split; [rewrite Htr, app_assoc; reflexivity|].
    split; [lia|]. split; [lia|]. split; [|split; [|split]].
    + intros [|i] Hi.
      * split; [assumption|]. exists m, d.
        rewrite Nat.add_0_r, Z.add_0_r. auto.
      * destruct (Hpre i) as (_ & m' & d' & Hm' & Hd'); [lia|].
        split; [assumption|]. exists m', d'. split.
        -- rewrite <- Hm'. f_equal. lia.
        -- rewrite <- Hd'. f_equal. lia.
    + intros base. rewrite suspensions_retry_events, Hsus.
      cbn [backoff_schedule].
      destruct (backoff_Slept c a d Hd) as [-> _]. reflexivity.
    + apply Forall_app. split; [|assumption].
      unfold retry_events. destruct (number_truthy d); repeat constructor.
    + unfold ended in *.
      replace (sent w + S k)%nat with (S (sent w) + k)%nat by lia.
      replace (a + Z.of_nat (S k)) with (a + 1 + Z.of_nat k) by lia.
      destruct Hend as [(Hn' & Hc' & Hres & Hl)
                       |[(Hn' & Hc' & m' & e & lg & Hm' & Hlt & He & Hres)
                        |(Hn' & s & Hc' & Hres)]].
      * left. split; [lia|]. auto.
      * right. left. split; [lia|]. split; [assumption|].
        exists m', e, lg. auto.
      * right. right. split; [lia|]. exists s. auto.
Qed.

End Loop.

(** *** [request] *)

Section Request.
Variable net : nat -> http_call -> attempt_outcome.
Variable c : ResilientAsyncHTTPClient.
Variables (method url : string) (kwargs : dict json).

Let call := call_of c method url kwargs.

(** [request] always ends: it returns or it raises. *)
Lemma request_ends (httpx : bool) (w : world) :
  exists res w', request httpx net c method url kwargs w = Some (res, w').
Proof.
  unfold request. destruct httpx; cbn [negb].
  - rewrite Nat.add_1_r.
    destruct (request_loop_ends net c call (Z.to_nat (retries c)) 0 None w)
      as [[res w'] Hr]; [lia|].
    exists res, w'. exact Hr.
  - eauto.
Qed.

Lemma request_run (w : world) res w' :
  0 <= retries c ->
  request true net c method url kwargs w = Some (res, w') ->
  run net c call 0 w res w'.
Proof.
  unfold request. cbn [negb]. intros Hr Hreq.
  apply request_loop_run with (n := (Z.to_nat (retries c) + 1)%nat) (le := None);
    assumption.
Qed.

(** What any call of [request] leaves behind when [httpx] is there.  With a
    negative [retries] in the record (which [init] never gives) the loop is
    not entered. *)
Lemma request_observed (w : world) res w' :
  request true net c method url kwargs w = Some (res, w') ->
  exists (new : list event) (k : nat),
    trace w' = (trace w ++ new)%list
    /\ sent w' = (sent w + attempts new)%nat
    /\ (k <= Z.to_nat (retries c))%nat
    /\ (attempts new <= k + 1)%nat
    /\ (k <= attempts new)%nat
    /\ (forall i, (i < k)%nat ->
        call_base_url call <> None
        /\ exists m d, net (sent w + i)%nat call = RequestError m
                       /\ backoff c (Z.of_nat i) = Slept d)
    /\ suspensions new = backoff_schedule c 0 0 k
    /\ Forall (fun e => match e with EvRequest c' => c' = call | _ => True end)
         new
    /\ (0 <= retries c /\ ended net c call 0 w k (attempts new) res
        \/ retries c < 0 /\ new = [] /\ k = 0%nat
           /\ res = Raise (exhausted c None)).
Proof.
  intros Hreq.
  destruct (Z_lt_le_dec (retries c) 0) as [Hneg|Hpos].
  - unfold request in Hreq. cbn [negb] in Hreq.
    replace (Z.to_nat (retries c)) with 0%nat in Hreq by lia.
    cbn [Nat.add request_loop] in Hreq.
    replace (0 <=? retries c) with false in Hreq
      by (symmetry; apply Z.leb_gt; lia).
    injection Hreq as <- <-. exists [], 0%nat. rewrite app_nil_r.
    split; [reflexivity|]. split; [cbn; lia|]. split; [lia|].
    split; [cbn; lia|]. split; [cbn; lia|]. split; [intros; lia|].
    split; [reflexivity|]. split; [constructor|]. right. auto.
  - apply request_run in Hreq; [|assumption].
    apply run_inv in Hreq.
    destruct Hreq as (new & k & Htr & Hsent & Hle & Hpre & Hsus & Hall & Hend).
    exists new, k. split; [assumption|]. split; [assumption|].
    split; [lia|].
    assert (Hn : (attempts new = S k \/ attempts new = k)%nat).
    { destruct Hend as [(Hn & _)|[(Hn & _)|(Hn & _)]]; auto. }
    split; [lia|]. split; [lia|].
    split; [exact Hpre|]. split; [apply Hsus|]. split; [exact Hall|].
    left. auto.
Qed.

(** The passes that go round.  When the client has a base URL, the first
    [n] attempts fail with a [RequestError], [n] is within the retries and
    the delays after these attempts can be taken, the call goes round [n]
    times at least. *)
Lemma request_rounds (n : nat) (w : world) :
  base_url c <> None ->
  Z.of_nat n <= retries c ->
  (forall i, (i < n)%nat -> exists m, net (sent w + i)%nat call = RequestError m) ->
  (forall i, (i < n)%nat -> delay_fits c (Z.of_nat i) = true) ->
  exists res w' (new : list event) (k : nat),
    request true net c method url kwargs w = Some (res, w')
    /\ trace w' = (trace w ++ new)%list
    /\ sent w' = (sent w + attempts new)%nat
    /\ (n <= k)%nat
    /\ (k <= Z.to_nat (retries c))%nat
    /\ (forall i, (i < k)%nat ->
        exists m d, net (sent w + i)%nat call = RequestError m
                    /\ backoff c (Z.of_nat i) = Slept d)
    /\ suspensions new = backoff_schedule c 0 0 k
    /\ ended net c call 0 w k (attempts new) res.
Proof.
  intros Hb Hn Hpre Hdelay.
  destruct (request_ends true w) as (res & w' & Hreq).
  destruct (request_observed w res w' Hreq)
    as (new & k & Htr & Hsent & Hk & _ & _ & Hp & Hsus & _ & Hend).
  destruct Hend as [[_ Hend]|(Hneg & _)]; [|lia].
  exists res, w', new, k.
  split; [assumption|]. split; [assumption|]. split; [assumption|].
  split; [|split; [assumption|split; [|split; assumption]]].
  - destruct (Nat.le_gt_cases n k) as [|Hlt]; [assumption|]. exfalso.
    destruct (Hpre k Hlt) as [m Hm].
    destruct (delay_fits_backoff c (Z.of_nat k) (Hdelay k Hlt))
      as (d & _ & Hd & _).
    destruct Hend as [(_ & _ & _ & Hl)
                     |[(_ & _ & m' & e & lg & _ & _ & He & _)
                      |(_ & s & Hce & _)]].
    + specialize (Hl m Hm). lia.
    + rewrite Z.add_0_l in He. congruence.
    + unfold client_error in Hce. fold call in Hm.
      destruct (call_base_url call) eqn:Hu; [|contradiction].
      rewrite Hm in Hce. discriminate Hce.
  - intros i Hi. destruct (Hp i Hi) as (_ & H). exact H.
Qed.

(** The attempt that decides the call.  When moreover attempt number [k] is
    not one to retry (it does not fail with a [RequestError], or it is the
    last one allowed), the call ends with the outcome of that attempt, after
    [k + 1] requests, or after [k] when the client could not be built for
    it. *)
Lemma request_decided_at (k : nat) (w : world) :
  base_url c <> None ->
  Z.of_nat k <= retries c ->
  (forall i, (i < k)%nat -> exists m, net (sent w + i)%nat call = RequestError m) ->
  (forall i, (i < k)%nat -> delay_fits c (Z.of_nat i) = true) ->
  (forall m, net (sent w + k)%nat call = RequestError m -> Z.of_nat k = retries c) ->
  exists w' new,
    request true net c method url kwargs w
    = Some (final_result c (net (sent w + k)%nat call), w')
    /\ trace w' = (trace w ++ new)%list
    /\ sent w' = (sent w + attempts new)%nat
    /\ attempts new
       = match net (sent w + k)%nat call with
         | ClientError _ => k
         | _ => S k
         end
    /\ suspensions new = backoff_schedule c 0 0 k.
Proof.
  intros Hb Hk Hpre Hdelay Hlast.
  destruct (request_rounds k w Hb Hk Hpre Hdelay)
    as (res & w' & new & k' & Hreq & Htr & Hsent & Hge & Hle & Hp & Hsus & Hend).
  assert (k' = k).
  { destruct (Nat.eq_dec k' k) as [|Hne]; [assumption|]. exfalso.
    destruct (Hp k) as (m & d & Hm & _); [lia|].
    specialize (Hlast m Hm). lia. }
  subst k'. exists w', new. rewrite Hreq.
  assert (Hu : call_base_url call <> None) by exact Hb.
  unfold ended, client_error in Hend.
  destruct (call_base_url call) as [u|]; [|contradiction].
  destruct Hend as [(Hn & Hce & Hres & _)
                   |[(_ & _ & m & e & lg & Hm & Hlt & _)
                    |(Hn & s & Hce & Hres)]].
  - rewrite Hres.
    split; [reflexivity|]. split; [assumption|]. split; [assumption|].
    split; [|assumption].
    destruct (net (sent w + k)%nat call); try assumption. discriminate Hce.
  - specialize (Hlast m Hm). lia.
  - destruct (net (sent w + k)%nat call) as [| | | |s'|] eqn:Hnet;
      try discriminate Hce.
    injection Hce as ->. rewrite Hres.
    split; [reflexivity|]. split; [assumption|]. split; [assumption|].
    split; assumption.
Qed.

End Request.

(** *** The retry budget *)

(** The retry budget where the delays can be taken.  A client with a base
    URL, configured with [retries = r], [r >= 0].  When every attempt fails
    with a request error (a connection error or a timeout, say), [request]
    sends exactly [r + 1]
    requests and then raises an error whose message gives the count [r + 1]
    and the cause of the last failure.  When the first [r] attempts fail so
    and the next one succeeds, [request] returns the parsed body of that
    answer. *)
Lemma request_retry_budget
    (net : nat -> http_call -> attempt_outcome)
    (base_url : string) (headers : option (dict string))
    (timeout : option number) (r : Z) (b : number)
    (method url : string) (kwargs : dict json) (w : world) :
  0 <= r ->
  let c := init (Some base_url) headers timeout r b in
  let call := call_of c method url kwargs in
  no_overflow c ->
  (forall exc : nat -> request_exn,
      (forall i, (i <= Z.to_nat r)%nat ->
                 net (sent w + i)%nat call = RequestError (exc i)) ->
      exists w' new,
        request true net c method url kwargs w
        = Some (Raise (mkExn ToolExecutionError
                  ("Request failed after " ++ str_int (r + 1) ++ " attempts: "
                   ++ request_str (exc (Z.to_nat r)))), w')
        /\ trace w' = (trace w ++ new)%list
        /\ attempts new = (Z.to_nat r + 1)%nat)
  /\
  (forall body : json,
      (forall i, (i < Z.to_nat r)%nat ->
                 exists m, net (sent w + i)%nat call = RequestError m) ->
      net (sent w + Z.to_nat r)%nat call = Parsed body ->
      exists w' new,
        request true net c method url kwargs w = Some (Return body, w')
        /\ trace w' = (trace w ++ new)%list
        /\ attempts new = (Z.to_nat r + 1)%nat).
Proof.
  intros Hr c call Hno.
  assert (Hc : retries c = r) by (unfold c, init; cbn [retries]; lia).
  assert (Hu : Http.base_url c <> None) by discriminate.
  assert (Hdelay : forall i, (i < Z.to_nat r)%nat ->
                             delay_fits c (Z.of_nat i) = true).
  { intros i Hi. apply Hno. lia. }
  split.
  - intros exc Hall.
    destruct (request_decided_at net c method url kwargs (Z.to_nat r) w)
      as (w' & new & Hreq & Htr & _ & Hat & _).
    + exact Hu.
    + lia.
    + intros i Hi. exists (exc i). apply Hall. lia.
    + exact Hdelay.
    + intros _ _. lia.
    + exists w', new. fold call in Hreq, Hat. rewrite Hall in Hreq, Hat by lia.
      rewrite Hreq. cbn [final_result]. unfold exhausted. rewrite Hc.
      split; [reflexivity|]. split; [assumption|]. lia.
  - intros body Hpre Hok.
    destruct (request_decided_at net c method url kwargs (Z.to_nat r) w)
      as (w' & new & Hreq & Htr & _ & Hat & _).
    + exact Hu.
    + lia.
    + exact Hpre.
    + exact Hdelay.
    + intros m Hm. fold call in Hm. congruence.
    + exists w', new. fold call in Hreq, Hat. rewrite Hok in Hreq, Hat.
      rewrite Hreq. split; [reflexivity|]. split; [assumption|]. lia.
Qed.

Example retry_budget_of_two :
  Scenarios.outcome_and_attempts
    (request true Scenarios.refused Scenarios.client_2_half "GET" "/repos" [] world0)
  = Some (Raise (mkExn ToolExecutionError
                   "Request failed after 3 attempts: connection refused"), 3%nat)
  /\ Scenarios.outcome_and_attempts
       (request true Scenarios.third_time_lucky Scenarios.client_2_half
          "GET" "/repos" [] world0)
     = Some (Return (JDict [("ok", JBool true)]), 3%nat).
Proof. split; vm_compute; reflexivity. Qed.

(** C1 fails on the code for a [float] factor and more than 1024 retries.
    A client for [https://api.github.com] with [retries=1025] and
    [backoff_factor=0.0], against a server that refuses every connection:
    [request] sends 1025 requests, not 1026, and what it raises is the
    [OverflowError] of [0.0 * 2**1024], not the error that reports 1026
    attempts. *)
Theorem retry_budget_lost_to_overflow :
  Scenarios.outcome_and_attempts
    (request true Scenarios.refused Scenarios.client_1025_zero "GET" "/repos" []
       world0)
  = Some (Raise (mkExn OverflowError "int too large to convert to float"),
          1025%nat).
Proof. vm_compute. reflexivity. Qed.

(** The same call with [backoff_factor=0], an [int], uses up its budget;
    with [backoff_factor=1] it is [asyncio.sleep(2**1024)] that raises. *)
Example retry_budget_kept_with_int_factor :
  Scenarios.outcome_and_attempts
    (request true Scenarios.refused Scenarios.client_1025_int_zero "GET" "/repos" []
       world0)
  = Some (Raise (mkExn ToolExecutionError
                   "Request failed after 1026 attempts: connection refused"),
          1026%nat)
  /\ Scenarios.outcome_and_attempts
       (request true Scenarios.refused Scenarios.client_1025_int_one "GET"
          "/repos" [] world0)
     = Some (Raise (mkExn OverflowError "int too large to convert to float"),
             1025%nat).
Proof. split; vm_compute; reflexivity. Qed.

(** *** Delays *)

(** The delays a schedule holds for attempt number [k]. *)
Lemma delays_in_schedule (c : ResilientAsyncHTTPClient) (n : nat) :
  forall (a : Z) (base k : nat),
    map snd (filter (fun p => Nat.eqb (fst p) k) (backoff_schedule c a base n))
    = if (base <? k)%nat && (k <=? base + n)%nat
      then match sleep_for c (a + Z.of_nat (k - base - 1)) with
           | Return d => if number_truthy d then [d] else []
           | Raise _ => []
           end
      else [].
Proof.
  induction n as [|n IH]; intros a base k; cbn [backoff_schedule].
  - destruct (Nat.ltb_spec base k), (Nat.leb_spec k (base + 0)); try reflexivity.
    lia.
  - rewrite filter_app, map_app, IH.
    destruct (Nat.eq_dec k (S base)) as [->|Hne].
    + replace (S base - base - 1)%nat with 0%nat by lia.
      rewrite Z.add_0_r.
      replace (S base <? S base)%nat with false by (symmetry; apply Nat.ltb_irrefl).
      replace (base <? S base)%nat with true by (symmetry; apply Nat.ltb_lt; lia).
      replace (S base <=? base + S n)%nat with true
        by (symmetry; apply Nat.leb_le; lia).
      cbn [andb]. rewrite app_nil_r.
      destruct (sleep_for c a) as [d|e]; [|reflexivity].
      destruct (number_truthy d); cbn [filter fst map snd].
      * rewrite Nat.eqb_refl. reflexivity.
      * reflexivity.
    + assert (Hhead :
        map snd (filter (fun p => Nat.eqb (fst p) k)
                   match sleep_for c a with
                   | Return d => if number_truthy d then [(S base, d)] else []
                   | Raise _ => []
                   end)
        = []).
      { destruct (sleep_for c a) as [d|e]; [|reflexivity].
        destruct (number_truthy d); [|reflexivity].
        cbn [filter fst].
        replace (S base =? k)%nat with false
          by (symmetry; apply Nat.eqb_neq; lia).
        reflexivity. }
      rewrite Hhead. cbn [app].
      destruct (Nat.ltb_spec (S base) k) as [Hlt|Hge].
      * replace (base <? k)%nat with true by (symmetry; apply Nat.ltb_lt; lia).
        replace (k <=? S base + n)%nat with (k <=? base + S n)%nat
          by (f_equal; lia).
        replace (a + 1 + Z.of_nat (k - S base - 1))
          with (a + Z.of_nat (k - base - 1)) by lia.
        reflexivity.
      * replace (base <? k)%nat with false by (symmetry; apply Nat.ltb_ge; lia).
        reflexivity.
Qed.

(** C6.  A client with a base URL and a back-off factor [b >= 0], and a
    call whose first [n] attempts fail with a request error and are
    retried, the delays after them being delays Python can take (finite,
    and not too large for [asyncio.sleep]), and whose attempt number [n]
    ends it (it does not fail so, or it is the last one allowed).  These
    [n] requests go out, and so does the next one if its client can be
    built.  Nothing is waited before the first attempt.  Before attempt
    number [k], [1 <= k <= n], the delay computed is [b * 2^(k-1)] seconds,
    and [request] suspends once, for that long, or not at all when the delay
    is [0]. *)
Theorem backoff_delay_schedule
    (net : nat -> http_call -> attempt_outcome)
    (base_url : string) (headers : option (dict string))
    (timeout : option number) (r : Z) (b : number)
    (method url : string) (kwargs : dict json) (w : world) (n : nat) :
  (0 <= number_value b)%Q ->
  let c := init (Some base_url) headers timeout r b in
  let call := call_of c method url kwargs in
  Z.of_nat n <= r ->
  (forall i, (i < n)%nat -> exists m, net (sent w + i)%nat call = RequestError m) ->
  (forall i, (i < n)%nat -> delay_fits c (Z.of_nat i) = true) ->
  (forall m, net (sent w + n)%nat call = RequestError m -> Z.of_nat n = r) ->
  exists w' new,
    request true net c method url kwargs w
    = Some (final_result c (net (sent w + n)%nat call), w')
    /\ trace w' = (trace w ++ new)%list
    /\ attempts new
       = match net (sent w + n)%nat call with
         | ClientError _ => n
         | _ => S n
         end
    /\ delays_before 0 new = []
    /\ forall k : nat, (1 <= k <= n)%nat ->
         exists d : number,
           sleep_for c (Z.of_nat k - 1) = Return d
           /\ (number_value d == number_value b * 2 ^ (Z.of_nat k - 1))%Q
           /\ finite d = true
           /\ delays_before k new = if number_truthy d then [d] else [].
Proof.
  intros Hb c call Hn Hpre Hdelay Hlast.
  assert (Hc : backoff_factor c = b).
  { unfold c, init, max0. cbn [backoff_factor].
    apply Qle_bool_iff in Hb. rewrite Hb. reflexivity. }
  assert (Hr : retries c = r) by (unfold c, init; cbn [retries]; lia).
  destruct (request_decided_at net c method url kwargs n w)
    as (w' & new & Hreq & Htr & _ & Hat & Hsus);
    [discriminate|lia|exact Hpre|exact Hdelay|rewrite Hr; exact Hlast|].
  exists w', new. split; [exact Hreq|]. split; [assumption|].
  split; [exact Hat|]. split.
  - unfold delays_before. rewrite Hsus, delays_in_schedule. reflexivity.
  - intros k Hk. unfold delays_before. rewrite Hsus, delays_in_schedule.
    replace (0 + Z.of_nat (k - 0 - 1)) with (Z.of_nat k - 1) by lia.
    replace (0 <? k)%nat with true by (symmetry; apply Nat.ltb_lt; lia).
    replace (k <=? 0 + n)%nat with true by (symmetry; apply Nat.leb_le; lia).
    cbn [andb].
    destruct (delay_fits_backoff c (Z.of_nat (k - 1))) as (d & Hd & _ & Hfin);
      [apply Hdelay; lia|].
    replace (Z.of_nat (k - 1)) with (Z.of_nat k - 1) in Hd by lia.
    exists d. split; [assumption|]. split; [|split; [assumption|]].
    + rewrite <- Hc. apply sleep_for_value; [lia|assumption].
    + rewrite Hd. reflexivity.
Qed.

(** The delays before attempts 1, 2 and 3 for the factors 0, 0.5 and 2, as
    [int] and as [float], against a server that refuses every connection. *)
Lemma backoff_table :
  Scenarios.delays_when_refused (NInt 0) = []
  /\ Scenarios.delays_when_refused (NFloat 0) = []
  /\ Scenarios.delays_when_refused (NFloat (1 # 2))
     = [(1%nat, 1 # 2); (2%nat, 1%Q); (3%nat, 2%Q)]
  /\ Scenarios.delays_when_refused (NInt 2)
     = [(1%nat, 2%Q); (2%nat, 4%Q); (3%nat, 8%Q)]
  /\ Scenarios.delays_when_refused (NFloat 2)
     = [(1%nat, 2%Q); (2%nat, 4%Q); (3%nat, 8%Q)].
Proof. repeat split; vm_compute; reflexivity. Qed.

Lemma backoff_delay_schedule_witness :
  (exists w' new,
     request true Scenarios.refused (Scenarios.client_3 (NFloat (1 # 2)))
       "GET" "/" [] world0
     = Some (Raise (mkExn ToolExecutionError
                      "Request failed after 4 attempts: connection refused"), w')
     /\ trace w' = new
     /\ attempts new = 4%nat
     /\ delays_before 0 new = []
     /\ forall k : nat, (1 <= k <= 3)%nat ->
          exists d : number,
            sleep_for (Scenarios.client_3 (NFloat (1 # 2))) (Z.of_nat k - 1)
            = Return d
            /\ (number_value d == (1 # 2) * 2 ^ (Z.of_nat k - 1))%Q
            /\ finite d = true
            /\ delays_before k new = if number_truthy d then [d] else [])
  /\ Scenarios.delays_when_refused (NFloat (1 # 2))
     = [(1%nat, 1 # 2); (2%nat, 1%Q); (3%nat, 2%Q)].
Proof.
  split; [|vm_compute; reflexivity].
  apply (backoff_delay_schedule Scenarios.refused "https://api.github.com"
           None None 3 (NFloat (1 # 2)) "GET" "/" [] world0 3).
  - apply Qle_bool_iff. reflexivity.
  - lia.
  - intros i _. eexists. reflexivity.
  - intros [|[|[|i]]] Hi; [vm_compute; reflexivity..|lia].
  - intros m _. reflexivity.
Defined.

(** *** Status errors *)

(** C7, as the code has it.  In every call that ends, whatever the number of
    retries still allowed: a request answered with an error status is the
    last request of the call, and [request] raises the error that carries
    the status; and a request is followed by a further one only when it
    failed with a [RequestError] of [httpx].  The call does get there: when
    the client has a base URL, the first [k] attempts fail with a request
    error, [k] within the retries, and the delays after them can be taken,
    an error status at attempt number [k] ends the call after [k + 1]
    requests. *)
Theorem status_error_is_terminal
    (net : nat -> http_call -> attempt_outcome) (c : ResilientAsyncHTTPClient)
    (method url : string) (kwargs : dict json) (w : world) :
  (forall res w',
     request true net c method url kwargs w = Some (res, w') ->
     exists new,
       trace w' = (trace w ++ new)%list
       /\ (forall (i : nat) (status_code : Z)
                  (reason_phrase text str_exc : string),
             (i < attempts new)%nat ->
             net (sent w + i)%nat (call_of c method url kwargs)
             = HTTPStatusError status_code reason_phrase text str_exc ->
             attempts new = (i + 1)%nat
             /\ res = Raise (mkExn ToolExecutionError
                        ("API request failed: " ++ str_int status_code ++ " "
                         ++ reason_phrase ++ ". " ++ "Details: "
                         ++ _extract_error_detail str_exc text)))
       /\ (forall i : nat, (S i < attempts new)%nat ->
             exists m,
               net (sent w + i)%nat (call_of c method url kwargs)
               = RequestError m))
  /\ (forall (k : nat) (status_code : Z) (reason_phrase text str_exc : string),
        base_url c <> None ->
        Z.of_nat k <= retries c ->
        (forall i, (i < k)%nat ->
           exists m,
             net (sent w + i)%nat (call_of c method url kwargs) = RequestError m) ->
        (forall i, (i < k)%nat -> delay_fits c (Z.of_nat i) = true) ->
        net (sent w + k)%nat (call_of c method url kwargs)
        = HTTPStatusError status_code reason_phrase text str_exc ->
        exists w' new,
          request true net c method url kwargs w
          = Some (Raise (mkExn ToolExecutionError
                    ("API request failed: " ++ str_int status_code ++ " "
                     ++ reason_phrase ++ ". " ++ "Details: "
                     ++ _extract_error_detail str_exc text)), w')
          /\ trace w' = (trace w ++ new)%list
          /\ attempts new = (k + 1)%nat
          /\ sent w' = (sent w + k + 1)%nat).
Proof.
  split.
  - intros res w' Hreq.
    destruct (request_observed net c method url kwargs w res w' Hreq)
      as (new & k & Htr & _ & _ & Hle & _ & Hpre & _ & _ & Hend).
    exists new. split; [assumption|]. split.
    + intros i sc rp text se Hi Hstatus.
      assert (Hik : i = k).
      { destruct (Nat.eq_dec i k) as [|Hne]; [assumption|].
        destruct (Hpre i) as (_ & m & d & Hm & _); [lia|]. congruence. }
      subst i.
      destruct Hend as [[_ [(Hn & _ & Hres & _)
                           |[(_ & _ & m & e & lg & Hm & _)
                            |(Hn & _)]]]
                       |(_ & -> & _)]; [| |lia|cbn in Hi; lia].
      * rewrite Hres, Hstatus. split; [lia|reflexivity].
      * congruence.
    + intros i Hi. destruct (Hpre i) as (_ & m & d & Hm & _); [lia|]. eauto.
  - intros k sc rp text se Hb Hk Hpre Hdelay Hstatus.
    destruct (request_decided_at net c method url kwargs k w Hb Hk Hpre Hdelay)
      as (w' & new & Hreq & Htr & Hsent & Hat & _).
    + intros m Hm. congruence.
    + exists w', new. rewrite Hreq, Hsent, Hat, Hstatus. cbn [final_result].
      split; [reflexivity|]. split; [assumption|]. split; lia.
Qed.

Lemma status_error_is_terminal_witness :
  exists w' new,
    request true Scenarios.then_not_found Scenarios.client_2_half
      "GET" "/repos/o/r" [] world0
    = Some (Raise (mkExn ToolExecutionError
              ("API request failed: " ++ str_int 404 ++ " " ++ "Not Found"
               ++ ". " ++ "Details: "
               ++ _extract_error_detail "Client error '404 Not Found'" "")), w')
    /\ trace w' = ([] ++ new)%list
    /\ attempts new = (1 + 1)%nat
    /\ sent w' = (0 + 1 + 1)%nat.
Proof.
  apply (proj2 (status_error_is_terminal Scenarios.then_not_found
                  Scenarios.client_2_half "GET" "/repos/o/r" [] world0)
           1%nat 404 "Not Found" "" "Client error '404 Not Found'").
  - discriminate.
  - vm_compute. discriminate.
  - intros [|i] Hi; [eexists; reflexivity|lia].
  - intros [|i] Hi; [vm_compute; reflexivity|lia].
  - reflexivity.
Defined.

(** One timeout, then a 404, with two retries allowed: two requests. *)
Example not_found_ends_the_call :
  Scenarios.outcome_and_attempts
    (request true Scenarios.then_not_found Scenarios.client_2_half
       "GET" "/repos/o/r" [] world0)
  = Some (Raise (mkExn ToolExecutionError
            "API request failed: 404 Not Found. Details: Client error '404 Not Found'"),
          2%nat).
Proof. vm_compute. reflexivity. Qed.

(** C7 as stated does not hold: it is not only connection errors and
    timeouts that are retried.  An answer whose content cannot be decoded
    raises a [DecodingError], which is a [RequestError] and neither a
    timeout nor a network error; the request is made again, and here the
    call returns what the second request brings. *)
Lemma a_decoding_error_is_retried :
  ~ (forall (net : nat -> http_call -> attempt_outcome)
       (c : ResilientAsyncHTTPClient) (method url : string)
       (kwargs : dict json) (res : result json) (w' : world),
        request true net c method url kwargs world0 = Some (res, w') ->
        forall (i : nat) (m : request_exn),
          (S i < attempts (trace w'))%nat ->
          net i (call_of c method url kwargs) = RequestError m ->
          is_timeout (request_cls m) || is_connection_error (request_cls m)
          = true).
Proof.
  intros H.
  destruct (request true Scenarios.garbled_then_fine Scenarios.client_2_half
              "GET" "/repos" [] world0) as [[res w']|] eqn:Hrun;
    [|vm_compute in Hrun; discriminate Hrun].
  specialize (H Scenarios.garbled_then_fine Scenarios.client_2_half
                "GET" "/repos" [] res w' Hrun 0%nat
                (mkRequestExn DecodingError
                   "Error -3 while decompressing data: incorrect header check")).
  vm_compute in Hrun. injection Hrun as <- <-.
  specialize (H ltac:(vm_compute; lia) eq_refl). discriminate H.
Qed.

(** *** Error kinds *)

(** C8, as the code has it.  [request] always ends.  With [httpx] there and
    delays that can all be taken, it returns a body the network answered
    with, or it raises a [ToolExecutionError] whose message is one of
    "Request failed after ...", "API request failed: ..." and "Unexpected
    HTTP error: ...", or it lets through what is not an [Exception] and was
    raised while the request was under way; no other exception is raised.
    Without [httpx] it raises a [RuntimeError] and sends nothing. *)
Theorem request_returns_or_raises_ToolExecutionError
    (httpx : bool) (net : nat -> http_call -> attempt_outcome)
    (c : ResilientAsyncHTTPClient) (method url : string) (kwargs : dict json)
    (w : world) :
  no_overflow c ->
  exists res w',
    request httpx net c method url kwargs w = Some (res, w')
    /\ match res with
       | Return body =>
           httpx = true
           /\ exists n, net n (call_of c method url kwargs) = Parsed body
       | Raise e =>
           if httpx then
             (exn_cls e = ToolExecutionError /\ readable_cause (exn_str e) = true)
             \/ (is_Exception (exn_cls e) = false
                 /\ exists n, net n (call_of c method url kwargs) = Interrupted e)
           else
             e = mkExn RuntimeError "httpx is required for HTTP operations"
             /\ w' = w
       end.
Proof.
  intros Hno. destruct httpx.
  - destruct (request_ends net c method url kwargs true w) as (res & w' & Hreq).
    exists res, w'. split; [assumption|].
    destruct (request_observed net c method url kwargs w res w' Hreq)
      as (new & k & _ & _ & _ & _ & _ & _ & _ & _ & Hend).
    destruct Hend as [[Hpos [(_ & _ & Hres & _)
                            |[(_ & _ & m & e & lg & _ & Hlt & He & _)
                             |(_ & s & _ & Hres)]]]
                     |(_ & _ & _ & Hres)].
    + rewrite Hres.
      destruct (net (sent w + k)%nat (call_of c method url kwargs))
        as [body|sc rp text se|m|se|se|exc] eqn:Hnet; cbn [final_result];
        try (left; split; reflexivity); eauto.
      destruct (is_Exception (exn_cls exc)) eqn:Hexc;
        [left; split; reflexivity|right; eauto].
    + destruct (delay_fits_backoff c (0 + Z.of_nat k)) as (d & _ & Hd & _);
        [apply Hno; lia|congruence].
    + rewrite Hres. left. split; reflexivity.
    + rewrite Hres. left. split; reflexivity.
  - exists (Raise (mkExn RuntimeError "httpx is required for HTTP operations")), w.
    split; [reflexivity|]. split; reflexivity.
Qed.

Lemma request_returns_or_raises_ToolExecutionError_witness :
  exists res w',
    request true Scenarios.then_not_found Scenarios.client_2_half
      "GET" "/repos/o/r" [] world0 = Some (res, w')
    /\ match res with
       | Return body =>
           true = true
           /\ exists n,
                Scenarios.then_not_found n
                  (call_of Scenarios.client_2_half "GET" "/repos/o/r" [])
                = Parsed body
       | Raise e =>
           (exn_cls e = ToolExecutionError /\ readable_cause (exn_str e) = true)
           \/ (is_Exception (exn_cls e) = false
               /\ exists n,
                    Scenarios.then_not_found n
                      (call_of Scenarios.client_2_half "GET" "/repos/o/r" [])
                    = Interrupted e)
       end.
Proof.
  apply (request_returns_or_raises_ToolExecutionError true
           Scenarios.then_not_found Scenarios.client_2_half
           "GET" "/repos/o/r" [] world0).
  intros a Ha.
  assert (Hr : retries Scenarios.client_2_half = 2) by reflexivity.
  assert (Hcases : a = 0 \/ a = 1) by lia.
  destruct Hcases as [->| ->]; vm_compute; reflexivity.
Defined.

(** C8 as stated does not hold: the error of a failed call is an instance of
    [ToolExecutionError]; the sources have no class named [TransportError]. *)
Lemma request_error_is_not_a_TransportError :
  ~ (forall (httpx : bool) (net : nat -> http_call -> attempt_outcome)
       (c : ResilientAsyncHTTPClient) (method url : string) (kwargs : dict json)
       (w : world) (e : exn) (w' : world),
        request httpx net c method url kwargs w = Some (Raise e, w') ->
        class_name (exn_cls e) = "TransportError").
Proof.
  intros H.
  specialize (H true Scenarios.refused Scenarios.client_once
                "GET" "/repos" [] world0
                (mkExn ToolExecutionError
                   "Request failed after 1 attempts: connection refused")
                {| sent := 1;
                   trace := [EvRequest (call_of Scenarios.client_once
                                          "GET" "/repos" [])] |}
                eq_refl).
  discriminate H.
Qed.

End HttpFacts.

(* ================================================================= *)
(** ** Facts about mcp/tooling.py and server/mcp_server.py *)

Module ToolingFacts.
Import Py Tooling.

Lemma dict_get_None_iff {V} (k : string) (d : dict V) :
  dict_get k d = None <-> ~ In k (dict_keys d).
Proof.
  induction d as [|[k' v] d IH]; cbn [dict_get dict_keys map fst In].
  - tauto.
  - destruct (String.eqb_spec k k') as [->|Hne].
    + split; [discriminate|]. intros H. exfalso. apply H. left. reflexivity.
    + rewrite IH. unfold dict_keys. split.
      * intros H [Heq|Hin]; [congruence|tauto].
      * tauto.
Qed.

Lemma dict_mem_true_iff {V} (k : string) (d : dict V) :
  dict_mem k d = true <-> In k (dict_keys d).
Proof.
  unfold dict_mem. destruct (dict_get k d) as [v|] eqn:Hget.
  - split; [|reflexivity]. intros _.
    destruct (in_dec string_dec k (dict_keys d)) as [Hin|Hnin]; [assumption|].
    apply dict_get_None_iff in Hnin. congruence.
  - split; [discriminate|]. intros Hin.
    apply dict_get_None_iff in Hget. contradiction.
Qed.

(** C2.  A registered tool, an input that passes its input schema, and a
    handler that raises [ToolExecutionError] with message [X]: [invoke]
    returns a response with [ok] false, an empty [output] and [error = X];
    nothing is raised. *)
Theorem handler_error_becomes_response
    (srv : Server.AIHubMCPServer) (spec : ToolSpec)
    (request : ToolInvocationRequest) (payload : dict value) (X : string) :
  get (Server.catalog srv) (tool request) = Some spec ->
  input_model spec (VDict (input_or_empty (input request))) = Return payload ->
  handler spec payload (context request) = Raise (mkExn ToolExecutionError X) ->
  fst (invoke spec request)
  = Return {| ok := false; output := []; error := Some X |}
  /\ Server.invoke srv request = invoke spec request.
Proof.
  intros Hget Hin Hh. split.
  - unfold invoke. rewrite Hin, Hh. reflexivity.
  - unfold Server.invoke. rewrite Hget. reflexivity.
Qed.

Lemma handler_error_becomes_response_witness :
  fst (Server.invoke Scenarios.weather_server
         {| tool := "weather"; input := [("city", VStr "Oslo")]; context := None |})
  = Return {| ok := false; output := [];
              error := Some "units must be one of metric, imperial" |}.
Proof.
  destruct (handler_error_becomes_response Scenarios.weather_server
              Scenarios.failing_weather
              {| tool := "weather"; input := [("city", VStr "Oslo")];
                 context := None |}
              [("city", VStr "Oslo")] "units must be one of metric, imperial"
              eq_refl eq_refl eq_refl) as [Hres Hsrv].
  rewrite Hsrv. exact Hres.
Defined.

(** C4.  A registered tool and an input that its input schema rejects:
    [invoke] ends by raising the error of the validation, the handler has not
    run, and the outcome is the same whatever the handler is. *)
Theorem invalid_input_never_reaches_handler
    (srv : Server.AIHubMCPServer) (spec : ToolSpec)
    (request : ToolInvocationRequest) (e : exn) :
  get (Server.catalog srv) (tool request) = Some spec ->
  input_model spec (VDict (input_or_empty (input request))) = Raise e ->
  Server.invoke srv request
  = (Raise e, [EvValidateInput (name spec) (VDict (input_or_empty (input request)))])
  /\ handler_calls (snd (Server.invoke srv request)) = 0%nat
  /\ forall h, invoke (with_handler spec h) request = invoke spec request.
Proof.
  intros Hget Hin.
  assert (Hsrv : Server.invoke srv request
                 = (Raise e, [EvValidateInput (name spec)
                                (VDict (input_or_empty (input request)))])).
  { unfold Server.invoke. rewrite Hget. unfold invoke. rewrite Hin. reflexivity. }
  split; [exact Hsrv|]. split.
  - rewrite Hsrv. reflexivity.
  - intros h. unfold invoke, with_handler. cbn [name input_model]. rewrite Hin.
    reflexivity.
Qed.

Lemma invalid_input_never_reaches_handler_witness :
  Server.invoke Scenarios.weather_server
    {| tool := "weather"; input := [("city", VInt 7)]; context := None |}
  = (Raise (mkExn ValidationError "1 validation error for WeatherInput"),
     [EvValidateInput "weather" (VDict [("city", VInt 7)])]).
Proof.
  exact (proj1 (invalid_input_never_reaches_handler Scenarios.weather_server
                  Scenarios.failing_weather
                  {| tool := "weather"; input := [("city", VInt 7)];
                     context := None |}
                  (mkExn ValidationError "1 validation error for WeatherInput")
                  eq_refl eq_refl)).
Defined.

(** C3, as the code has it.  When the tool name of the request is not a key
    of the catalog, [invoke] raises a [ToolExecutionError] with the message
    "Unknown tool: <name>"; no input has been validated and no handler has
    run. *)
Theorem unknown_tool_raises_ToolExecutionError
    (srv : Server.AIHubMCPServer) (request : ToolInvocationRequest) :
  ~ In (tool request) (dict_keys (tools (Server.catalog srv))) ->
  Server.invoke srv request
  = (Raise (mkExn ToolExecutionError ("Unknown tool: " ++ tool request)), []).
Proof.
  intros Hnin. apply dict_get_None_iff in Hnin.
  unfold Server.invoke, get. rewrite Hnin. reflexivity.
Qed.

Lemma unknown_tool_raises_ToolExecutionError_witness :
  Server.invoke Scenarios.weather_server
    {| tool := "slack_post_message"; input := []; context := None |}
  = (Raise (mkExn ToolExecutionError "Unknown tool: slack_post_message"), []).
Proof.
  apply (unknown_tool_raises_ToolExecutionError Scenarios.weather_server
           {| tool := "slack_post_message"; input := []; context := None |}).
  cbn. intros [H|[]]. discriminate H.
Defined.

(** C3 as stated does not hold: the error for an unknown tool is an instance
    of [ToolExecutionError]; the sources have no class named
    [ToolNotFoundError]. *)
Lemma unknown_tool_error_is_not_a_ToolNotFoundError :
  ~ (forall (srv : Server.AIHubMCPServer) (request : ToolInvocationRequest)
       (e : exn) (t : list event),
        ~ In (tool request) (dict_keys (tools (Server.catalog srv))) ->
        Server.invoke srv request = (Raise e, t) ->
        class_name (exn_cls e) = "ToolNotFoundError").
Proof.
  intros H.
  specialize (H {| Server.catalog := empty_catalog |}
                {| tool := "weather"; input := []; context := None |}
                (mkExn ToolExecutionError "Unknown tool: weather") []
                (fun F => F) eq_refl).
  discriminate H.
Qed.

(** C5, as the code has it.  When the name of the tool is already a key of
    the catalog, [register] raises a [ValueError] with the message
    "Tool already registered: <name>" and leaves the catalog as it was. *)
Theorem register_duplicate_raises_ValueError
    (cat : ToolCatalog) (spec : ToolSpec) :
  In (name spec) (dict_keys (tools cat)) ->
  register cat spec
  = (Raise (mkExn ValueError ("Tool already registered: " ++ name spec)), cat).
Proof.
  intros Hin. apply dict_mem_true_iff in Hin.
  unfold register. rewrite Hin. reflexivity.
Qed.

Lemma register_duplicate_raises_ValueError_witness :
  register Scenarios.weather_catalog Scenarios.failing_weather
  = (Raise (mkExn ValueError "Tool already registered: weather"),
     Scenarios.weather_catalog).
Proof.
  apply (register_duplicate_raises_ValueError Scenarios.weather_catalog
           Scenarios.failing_weather).
  cbn. left. reflexivity.
Defined.

(** C5 as stated does not hold: the error for a name that is taken is a
    [ValueError]; the sources have no class named [DuplicateToolError]. *)
Lemma duplicate_error_is_not_a_DuplicateToolError :
  ~ (forall (cat : ToolCatalog) (spec : ToolSpec) (e : exn) (cat' : ToolCatalog),
        In (name spec) (dict_keys (tools cat)) ->
        register cat spec = (Raise e, cat') ->
        class_name (exn_cls e) = "DuplicateToolError").
Proof.
  intros H.
  specialize (H Scenarios.weather_catalog Scenarios.failing_weather
                (mkExn ValueError "Tool already registered: weather")
                Scenarios.weather_catalog
                (or_introl eq_refl) eq_refl).
  discriminate H.
Qed.

(** A name that is free is added after the tools already there. *)
Lemma register_fresh (cat : ToolCatalog) (spec : ToolSpec) :
  ~ In (name spec) (dict_keys (tools cat)) ->
  register cat spec
  = (Return tt, {| tools := (tools cat ++ [(name spec, spec)])%list |}).
Proof.
  intros Hnin. apply dict_get_None_iff in Hnin.
  unfold register, dict_mem. rewrite Hnin. do 2 f_equal.
  induction (tools cat) as [|[k v] d IH]; [reflexivity|].
  cbn [dict_get] in Hnin. cbn [dict_set app].
  destruct (String.eqb (name spec) k); [discriminate|].
  rewrite IH by assumption. reflexivity.
Qed.


(** The call shapes of a host, on a tool that takes a city. *)
Example payload_shapes :
  let city := VDict [("city", VStr "Oslo")] in
  let ctx := VDict [("request_id", VInt 7)] in
  let extract := _extract_invocation_payload Scenarios.py_dict in
  extract [] [("arguments", city); ("context", ctx)] = (city, ctx)
  /\ extract [] [("input", city)] = (city, VNone)
  /\ extract [] [("params", city); ("context", ctx)] = (city, ctx)
  /\ extract [] [("params", VDict []); ("input", city)] = (city, VNone)
  /\ extract [city] [] = (city, VNone)
  /\ extract [city; ctx] [] = (city, ctx)
  /\ extract [VObject "Context"; city] [] = (city, VObject "Context")
  /\ extract [VObject "Context"; VModel [("city", VStr "Oslo")]] []
     = (city, VObject "Context")
  /\ extract [] [] = (VDict [], VNone)
  /\ extract [] [("arguments", VList [VList [VStr "city"; VStr "Oslo"]])]
     = (city, VNone)
  /\ extract [] [("arguments", VInt 3)] = (VDict [("value", VInt 3)], VNone).
Proof. cbv zeta. repeat split. Qed.

End ToolingFacts.

(* ================================================================= *)
(** ** Facts about integrations/github.py *)

Module GithubFacts.
Import Py Http Github.

Lemma bind_Return {A B} (r : result A) (k : A -> result B) (b : B) :
  bind r k = Return b -> exists a, r = Return a /\ k a = Return b.
Proof.
  destruct r as [a|e]; cbn [bind]; [eauto|discriminate].
Qed.

Ltac bind_inv H :=
  let a := fresh "x" in
  let Ha := fresh "Hx" in
  apply bind_Return in H; destruct H as (a & Ha & H).

Lemma substring_0_length (m : nat) :
  forall s, String.length (substring 0 m s) = Nat.min m (String.length s).
Proof.
  induction m as [|m IH]; intros [|ch s]; cbn [substring String.length Nat.min];
    try reflexivity.
  rewrite IH. reflexivity.
Qed.

Lemma slice_upto_bounded (k : nat) (x y : json) :
  slice_upto k x = Return y ->
  exists n, json_len y = Some n /\ (n <= k)%nat.
Proof.
  destruct x; cbn [slice_upto]; intros H; try discriminate;
    injection H as <-; cbn [json_len].
  - eexists. split; [reflexivity|]. rewrite substring_0_length. lia.
  - eexists. split; [reflexivity|]. apply firstn_le_length.
Qed.

(** What an entry is made of. *)
Lemma issue_entry_inv (issue entry : json) :
  issue_entry issue = Return entry ->
  exists d body,
    issue = JDict d
    /\ slice_500 (or_empty_str (match dict_get "body" d with
                               | Some b => b
                               | None => JStr ""
                               end)) = Return body
    /\ entry_body entry = Some body.
Proof.
  unfold issue_entry. intros H.
  destruct issue as [| | | | | |d]; try discriminate H.
  cbn [json_get bind] in H.
  bind_inv H. rename x into body, Hx into Hslice.
  repeat (bind_inv H). injection H as <-.
  exists d, body. split; [reflexivity|]. split; [assumption|]. reflexivity.
Qed.

(** The loop keeps the entries built so far and appends one entry for each
    item that is not skipped, in order. *)
Lemma collect_issues_spec (items : list json) :
  forall issues out,
    collect_issues items issues = Return out ->
    exists new,
      out = (issues ++ new)%list
      /\ Forall2 (fun issue entry => issue_entry issue = Return entry)
           (filter (fun i => negb (marked_pull_request i)) items) new.
Proof.
  induction items as [|issue items IH]; intros issues out H; cbn [collect_issues] in H.
  - injection H as <-. exists []. rewrite app_nil_r. split; constructor.
  - bind_inv H. cbn [filter]. unfold marked_pull_request at 1. rewrite Hx.
    destruct x; cbn [negb].
    + apply IH. assumption.
    + bind_inv H. apply IH in H. destruct H as (new & -> & Hall).
      exists (x :: new). rewrite <- app_assoc. split; [reflexivity|].
      constructor; assumption.
Qed.

(** *** Well-formed answers are always shaped *)

Lemma get_each_objects (k : string) (l : list json) :
  forallb is_object l = true -> exists vs, get_each k l = Return vs.
Proof.
  induction l as [|x l IH]; cbn [forallb get_each]; [eauto|].
  intros H. apply andb_true_iff in H. destruct H as [Hx Hl].
  destruct x; try discriminate Hx. cbn [json_get bind].
  destruct (IH Hl) as [vs Hvs]. rewrite Hvs. cbn [bind]. eauto.
Qed.

Lemma iter_list_of_objects (k : string) (v : json) :
  list_of_objects v = true ->
  exists vs, bind (json_iter v) (get_each k) = Return vs.
Proof.
  destruct v; try discriminate. cbn [list_of_objects json_iter bind].
  apply get_each_objects.
Qed.

Lemma issue_entry_well_formed (issue : json) :
  well_formed_issue issue = true -> exists entry, issue_entry issue = Return entry.
Proof.
  destruct issue as [| | | | | |d]; try discriminate.
  cbn [well_formed_issue]. intros H.
  repeat (apply andb_true_iff in H; destruct H as [H ?]).
  unfold issue_entry. cbn [json_get bind].
  assert (Hbody : exists body,
             slice_500 (or_empty_str match dict_get "body" d with
                                     | Some x => x
                                     | None => JStr ""
                                     end) = Return body).
  { unfold slice_500, or_empty_str.
    destruct (dict_get "body" d) as [[| | | |s| |]|]; try discriminate H.
    - cbn [json_truthy slice_upto]. eauto.
    - destruct (json_truthy (JStr s)); cbn [slice_upto]; eauto.
    - cbn [json_truthy String.eqb negb slice_upto]. eauto. }
  destruct Hbody as [body ->]. cbn [bind].
  assert (Hlabels : exists vs,
             bind (json_iter match dict_get "labels" d with
                             | Some x => x
                             | None => JList []
                             end) (get_each "name") = Return vs).
  { destruct (dict_get "labels" d) as [v|].
    - apply iter_list_of_objects. assumption.
    - cbn. eauto. }
  destruct Hlabels as [labels Hlabels].
  apply bind_Return in Hlabels. destruct Hlabels as (l1 & Hi1 & Hg1).
  rewrite Hi1. cbn [bind]. rewrite Hg1. cbn [bind].
  assert (Huser : exists u,
             json_get match dict_get "user" d with
                      | Some x => x
                      | None => JDict []
                      end "login" JNull = Return u).
  { destruct (dict_get "user" d) as [[| | | | | |u]|]; try discriminate;
      cbn [json_get]; eauto. }
  destruct Huser as [u ->]. cbn [bind].
  assert (Hassignees : exists vs,
             bind (json_iter match dict_get "assignees" d with
                             | Some x => x
                             | None => JList []
                             end) (get_each "login") = Return vs).
  { destruct (dict_get "assignees" d) as [v|].
    - apply iter_list_of_objects. assumption.
    - cbn. eauto. }
  destruct Hassignees as [assignees Hassignees].
  apply bind_Return in Hassignees. destruct Hassignees as (l2 & Hi2 & Hg2).
  rewrite Hi2. cbn [bind]. rewrite Hg2. cbn [bind]. eauto.
Qed.

(** On a list of well-formed issues the shaping never raises, and it gives
    one entry for each issue that is not a pull request. *)
Lemma shape_issues_well_formed (items : list json) :
  forallb well_formed_issue items = true ->
  exists out,
    shape_issues (JList items) = Return out
    /\ List.length out
       = List.length (filter (fun i => negb (marked_pull_request i)) items).
Proof.
  intros Hwf. unfold shape_issues. cbn [json_iter bind].
  assert (H : forall issues, exists out, collect_issues items issues = Return out).
  { induction items as [|issue items IH]; intros issues; cbn [collect_issues].
    - eauto.
    - cbn [forallb] in Hwf. apply andb_true_iff in Hwf. destruct Hwf as [Hi Hr].
      destruct (issue_entry_well_formed issue Hi) as [entry Hentry].
      destruct issue as [| | | | | |d]; try discriminate Hi.
      cbn [json_contains bind]. destruct (dict_mem "pull_request" d).
      + apply IH. assumption.
      + rewrite Hentry. cbn [bind]. apply IH. assumption. }
  destruct (H []) as [out Hout]. exists out. split; [assumption|].
  apply collect_issues_spec in Hout. destruct Hout as (new & -> & Hall).
  cbn [app]. symmetry. apply (Forall2_length Hall).
Qed.

(** *** The entries of [list_issues] *)

(** C10.  Whatever the upstream answers, when [list_issues] returns a list:
    its entries are built, in order, from the items of the answer that are
    not marked as pull requests; the body of each entry has at most 500
    characters; the body of an issue with a string body is the first 500
    characters of it, and the body of an issue with no body or a [null] body
    is the empty string. *)
Theorem issue_bodies_are_bounded
    (httpx : bool) (net : nat -> http_call -> attempt_outcome)
    (self : GitHubIssuesAdapter) (owner repo state : string)
    (labels : option (list string)) (page per_page : Z) (w : world)
    (out : list json) (w' : world) :
  list_issues httpx net self owner repo state labels page per_page w
  = Some (Return out, w') ->
  exists issues_response items,
    request httpx net (client self) "GET"
      ("/repos/" ++ owner ++ "/" ++ repo ++ "/issues")
      [("params", JDict (issue_params state labels page per_page))] w
    = Some (Return issues_response, w')
    /\ json_iter issues_response = Return items
    /\ Forall2 (fun issue entry => issue_entry issue = Return entry)
         (filter (fun i => negb (marked_pull_request i)) items) out
    /\ Forall (fun entry =>
                exists body n,
                  entry_body entry = Some body
                  /\ json_len body = Some n /\ (n <= 500)%nat) out
    /\ (forall d entry,
          In (JDict d) items -> issue_entry (JDict d) = Return entry ->
          match dict_get "body" d with
          | Some (JStr s) =>
              entry_body entry = Some (JStr (substring 0 500 s))
              /\ String.length (substring 0 500 s) = Nat.min 500 (String.length s)
          | Some JNull | None => entry_body entry = Some (JStr "")
          | Some _ => True
          end).
Proof.
  unfold list_issues. intros H.
  destruct (request httpx net (client self) "GET" _ _ w)
    as [[[issues_response|e] w1]|]; try discriminate H.
  injection H as Hshape <-. unfold shape_issues in Hshape.
  bind_inv Hshape. rename x into items.
  apply collect_issues_spec in Hshape. destruct Hshape as (new & -> & Hall).
  cbn [app] in *.
  exists issues_response, items.
  split; [reflexivity|]. split; [assumption|]. split; [assumption|]. split.
  - clear Hx. induction Hall as [|issue entry l l' Hentry _ IH]; constructor.
    + apply issue_entry_inv in Hentry.
      destruct Hentry as (d & body & _ & Hslice & Hbody).
      apply slice_upto_bounded in Hslice. destruct Hslice as (n & Hlen & Hn).
      exists body, n. auto.
    + exact IH.
  - intros d entry _ Hentry. apply issue_entry_inv in Hentry.
    destruct Hentry as (d' & body & Hd & Hslice & Hbody).
    injection Hd as <-.
    unfold slice_500 in Hslice.
    destruct (dict_get "body" d) as [[| | | |s| |]|]; try exact I.
    + injection Hslice as <-. assumption.
    + rewrite substring_0_length. split; [|reflexivity].
      unfold or_empty_str in Hslice.
      destruct (json_truthy (JStr s)) eqn:Ht; cbn [slice_upto] in Hslice.
      * injection Hslice as <-. assumption.
      * cbn [json_truthy] in Ht. apply negb_false_iff, String.eqb_eq in Ht.
        subst s. injection Hslice as <-. assumption.
    + injection Hslice as <-. assumption.
Qed.

Lemma issue_bodies_are_bounded_witness :
  exists out w',
    list_issues true Scenarios.issues_net Scenarios.github "o" "r" "open"
      (Some ["bug"]) 1 30 world0
    = Some (Return out, w')
    /\ map entry_body out
       = [Some (JStr (substring 0 500 Scenarios.long_body));
          Some (JStr ""); Some (JStr "")]
    /\ Forall (fun entry =>
                exists body n,
                  entry_body entry = Some body
                  /\ json_len body = Some n /\ (n <= 500)%nat) out.
Proof.
  destruct (list_issues true Scenarios.issues_net Scenarios.github "o" "r" "open"
              (Some ["bug"]) 1 30 world0) as [[[out|e] w']|] eqn:Hrun.
  - exists out, w'. split; [reflexivity|].
    pose proof (issue_bodies_are_bounded _ _ _ _ _ _ _ _ _ _ _ _ Hrun)
      as (resp & items & _ & _ & _ & Hbound & _).
    split; [|exact Hbound].
    vm_compute in Hrun. injection Hrun as <- _. reflexivity.
  - vm_compute in Hrun. discriminate Hrun.
  - vm_compute in Hrun. discriminate Hrun.
Defined.

End GithubFacts.

(* ================================================================= *)
(** ** Further facts about utils/http.py *)

Module HttpMore.
Import Py Http HttpObs HttpFacts.

(** X1.  A call of a client built by [__init__] that ends has sent at most
    [max(retries, 0) + 1] requests.  With a base URL it has sent one at
    least, unless [httpx] could not build the client of the first pass.
    Without a base URL no client can be built: the call has sent nothing and
    raises "Unexpected HTTP error: ..." with what [httpx] says.  The call
    does end when its delays can all be taken. *)
Theorem request_attempts_bounded
    (net : nat -> http_call -> attempt_outcome)
    (base_url : option string) (headers : option (dict string))
    (timeout : option number) (r : Z) (b : number)
    (method url : string) (kwargs : dict json) (w : world) :
  (forall res w',
     request true net (init base_url headers timeout r b) method url kwargs w
     = Some (res, w') ->
     exists new,
       trace w' = (trace w ++ new)%list
       /\ sent w' = (sent w + attempts new)%nat
       /\ (attempts new <= Z.to_nat (Z.max r 0) + 1)%nat
       /\ (base_url <> None ->
           (forall s,
              net (sent w)
                (call_of (init base_url headers timeout r b) method url kwargs)
              <> ClientError s) ->
           (1 <= attempts new)%nat)
       /\ (base_url = None ->
           attempts new = 0%nat
           /\ exists msg,
                res = Raise (mkExn ToolExecutionError
                               ("Unexpected HTTP error: " ++ msg))))
  /\ (no_overflow (init base_url headers timeout r b) ->
      exists res w',
        request true net (init base_url headers timeout r b) method url kwargs w
        = Some (res, w')).
Proof.
  set (c := init base_url headers timeout r b).
  assert (Hc : retries c = Z.max r 0) by reflexivity.
  split; [|intros _; apply request_ends].
  intros res w' Hreq.
  destruct (request_observed net c method url kwargs w res w' Hreq)
    as (new & k & Htr & Hsent & Hk & Hle & Hge & Hpre & _ & _ & Hend).
  exists new.
  split; [assumption|]. split; [assumption|]. split; [lia|].
  destruct Hend as [[_ Hend]|(Hneg & _)]; [|lia].
  unfold ended, client_error in Hend.
  cbn [call_of call_base_url c init Http.base_url] in Hend.
  split.
  - intros Hb Hbuilt.
    destruct Hend as [(Hn & _)|[(Hn & _)|(Hn & s & Hce & _)]]; [lia|lia|].
    destruct k as [|k]; [|lia]. exfalso.
    rewrite Nat.add_0_r in Hce.
    destruct base_url as [u|]; [|contradiction].
    fold c in Hce.
    destruct (net (sent w) (call_of c method url kwargs)) eqn:Hnet;
      try discriminate Hce.
    exact (Hbuilt _ eq_refl).
  - intros ->.
    assert (Hk0 : k = 0%nat).
    { destruct k as [|k]; [reflexivity|].
      destruct (Hpre 0%nat) as (Hb & _); [lia|]. contradiction Hb. reflexivity. }
    subst k.
    destruct Hend as [(_ & Hce & _)|[(_ & Hce & _)|(Hn & s & _ & Hres)]];
      try discriminate Hce.
    split; [assumption|]. exists s. assumption.
Qed.

(** A client without a base URL sends nothing; with one, against a server
    that is down and one attempt allowed, it sends its one request. *)
Example attempts_with_and_without_base_url :
  Scenarios.outcome_and_attempts
    (request true Scenarios.refused (init None None None 3 (NFloat (1 # 2)))
       "GET" "/repos" [] world0)
  = Some (Raise (mkExn ToolExecutionError
                   ("Unexpected HTTP error: " ++ exn_str no_base_url)), 0%nat)
  /\ Scenarios.outcome_and_attempts
       (request true Scenarios.refused Scenarios.client_once
          "GET" "/repos" [] world0)
     = Some (Raise (mkExn ToolExecutionError
                      "Request failed after 1 attempts: connection refused"),
             1%nat).
Proof. split; vm_compute; reflexivity. Qed.

(** X2.  In every call that ends, a request that ended in an exception that
    is neither a status error nor a [RequestError] is the last request of
    the call, whatever the retries left: for an [Exception] (a body that is
    not JSON, say) [request] raises "Unexpected HTTP error: ..." with the
    cause, and what is no [Exception] (the [CancelledError] of a cancelled
    task) leaves [request] as it is.  The call does get there: when the
    client has a base URL, the first [k] attempts fail with a request error,
    [k] within the retries, and the delays after them can be taken, such an
    end of attempt number [k] ends the call after [k + 1] requests. *)
Theorem unexpected_error_is_terminal
    (net : nat -> http_call -> attempt_outcome) (c : ResilientAsyncHTTPClient)
    (method url : string) (kwargs : dict json) (w : world) :
  (forall res w',
     request true net c method url kwargs w = Some (res, w') ->
     exists new,
       trace w' = (trace w ++ new)%list
       /\ (forall (i : nat) (str_exc : string),
             (i < attempts new)%nat ->
             net (sent w + i)%nat (call_of c method url kwargs)
             = UnexpectedError str_exc ->
             attempts new = (i + 1)%nat
             /\ res = Raise (mkExn ToolExecutionError
                        ("Unexpected HTTP error: " ++ str_exc)))
       /\ (forall (i : nat) (exc : exn),
             (i < attempts new)%nat ->
             net (sent w + i)%nat (call_of c method url kwargs)
             = Interrupted exc ->
             is_Exception (exn_cls exc) = false ->
             attempts new = (i + 1)%nat /\ res = Raise exc))
  /\ (forall k : nat,
        base_url c <> None ->
        Z.of_nat k <= retries c ->
        (forall i, (i < k)%nat ->
           exists m,
             net (sent w + i)%nat (call_of c method url kwargs) = RequestError m) ->
        (forall i, (i < k)%nat -> delay_fits c (Z.of_nat i) = true) ->
        (forall str_exc : string,
           net (sent w + k)%nat (call_of c method url kwargs)
           = UnexpectedError str_exc ->
           exists w' new,
             request true net c method url kwargs w
             = Some (Raise (mkExn ToolExecutionError
                       ("Unexpected HTTP error: " ++ str_exc)), w')
             /\ trace w' = (trace w ++ new)%list
             /\ attempts new = (k + 1)%nat)
        /\ (forall exc : exn,
              net (sent w + k)%nat (call_of c method url kwargs)
              = Interrupted exc ->
              is_Exception (exn_cls exc) = false ->
              exists w' new,
                request true net c method url kwargs w = Some (Raise exc, w')
                /\ trace w' = (trace w ++ new)%list
                /\ attempts new = (k + 1)%nat)).
Proof.
  split.
  - intros res w' Hreq.
    destruct (request_observed net c method url kwargs w res w' Hreq)
      as (new & k & Htr & _ & _ & Hle & _ & Hpre & _ & _ & Hend).
    exists new. split; [assumption|].
    assert (Hlast : forall i o,
              (i < attempts new)%nat ->
              net (sent w + i)%nat (call_of c method url kwargs) = o ->
              (forall m, o <> RequestError m) ->
              attempts new = (i + 1)%nat /\ res = final_result c o).
    { intros i o Hi Ho Hnot.
      assert (Hik : i = k).
      { destruct (Nat.eq_dec i k) as [|Hne]; [assumption|].
        destruct (Hpre i) as (_ & m & d & Hm & _); [lia|].
        exfalso. apply (Hnot m). congruence. }
      subst i.
      destruct Hend as [[_ [(Hn & _ & Hres & _)
                           |[(_ & _ & m & e & lg & Hm & _)
                            |(Hn & _)]]]
                       |(_ & -> & _)]; [| |lia|cbn in Hi; lia].
      - rewrite Hres, Ho. split; [lia|reflexivity].
      - exfalso. apply (Hnot m). congruence. }
    split.
    + intros i se Hi Ho.
      destruct (Hlast i _ Hi Ho) as [Hn Hres]; [discriminate|].
      split; assumption.
    + intros i exc Hi Ho Hexc.
      destruct (Hlast i _ Hi Ho) as [Hn Hres]; [discriminate|].
      split; [assumption|]. rewrite Hres. cbn [final_result].
      rewrite Hexc. reflexivity.
  - intros k Hb Hk Hpre Hdelay. split.
    + intros se Ho.
      destruct (request_decided_at net c method url kwargs k w Hb Hk Hpre Hdelay)
        as (w' & new & Hreq & Htr & _ & Hat & _);
        [intros m Hm; congruence|].
      exists w', new. rewrite Hreq, Hat, Ho. cbn [final_result].
      split; [reflexivity|]. split; [assumption|lia].
    + intros exc Ho Hexc.
      destruct (request_decided_at net c method url kwargs k w Hb Hk Hpre Hdelay)
        as (w' & new & Hreq & Htr & _ & Hat & _);
        [intros m Hm; congruence|].
      exists w', new. rewrite Hreq, Hat, Ho. cbn [final_result].
      rewrite Hexc. split; [reflexivity|]. split; [assumption|lia].
Qed.

Lemma unexpected_error_is_terminal_witness :
  (exists w' new,
     request true Scenarios.then_not_json Scenarios.client_2_half
       "GET" "/repos/o/r" [] world0
     = Some (Raise (mkExn ToolExecutionError
               ("Unexpected HTTP error: "
                ++ "Expecting value: line 1 column 1 (char 0)")), w')
     /\ trace w' = ([] ++ new)%list
     /\ attempts new = (1 + 1)%nat)
  /\ (exists w' new,
        request true Scenarios.then_cancelled Scenarios.client_2_half
          "GET" "/repos/o/r" [] world0
        = Some (Raise (mkExn CancelledError ""), w')
        /\ trace w' = ([] ++ new)%list
        /\ attempts new = (1 + 1)%nat).
Proof.
  split.
  - apply (proj1 (proj2 (unexpected_error_is_terminal Scenarios.then_not_json
                           Scenarios.client_2_half "GET" "/repos/o/r" [] world0)
                    1%nat ltac:(discriminate) ltac:(vm_compute; discriminate)
                    ltac:(intros [|i] Hi; [eexists; reflexivity|lia])
                    ltac:(intros [|i] Hi; [vm_compute; reflexivity|lia]))).
    reflexivity.
  - apply (proj2 (proj2 (unexpected_error_is_terminal Scenarios.then_cancelled
                           Scenarios.client_2_half "GET" "/repos/o/r" [] world0)
                    1%nat ltac:(discriminate) ltac:(vm_compute; discriminate)
                    ltac:(intros [|i] Hi; [eexists; reflexivity|lia])
                    ltac:(intros [|i] Hi; [vm_compute; reflexivity|lia]))).
    + reflexivity.
    + reflexivity.
Defined.

(** X3.  [request] returns a body exactly when the last request it sent was
    answered with that body; every request before it had failed with a
    [RequestError]. *)
Theorem returned_body_is_the_last_answer
    (net : nat -> http_call -> attempt_outcome) (c : ResilientAsyncHTTPClient)
    (method url : string) (kwargs : dict json) (w : world) :
  exists res w' new,
    request true net c method url kwargs w = Some (res, w')
    /\ trace w' = (trace w ++ new)%list
    /\ (forall body : json,
          res = Return body
          <-> (1 <= attempts new)%nat
              /\ net (sent w + attempts new - 1)%nat (call_of c method url kwargs)
                 = Parsed body)
    /\ (forall i : nat, (S i < attempts new)%nat ->
          exists m,
            net (sent w + i)%nat (call_of c method url kwargs) = RequestError m).
Proof.
  destruct (request_ends net c method url kwargs true w) as (res & w' & Hreq).
  destruct (request_observed net c method url kwargs w res w' Hreq)
    as (new & k & Htr & _ & _ & Hle & _ & Hpre & _ & _ & Hend).
  exists res, w', new. split; [assumption|]. split; [assumption|]. split.
  - intros body. split.
    + intros ->.
      destruct Hend as [[_ [(Hn & _ & Hres & _)
                           |[(_ & _ & m & e & lg & _ & _ & _ & Hres)
                            |(_ & s & _ & Hres)]]]
                       |(_ & _ & _ & Hres)]; try discriminate Hres.
      rewrite Hn. split; [lia|].
      replace (sent w + S k - 1)%nat with (sent w + k)%nat by lia.
      destruct (net (sent w + k)%nat (call_of c method url kwargs)) as [| | | | |exc];
        cbn [final_result] in Hres; try discriminate Hres.
      * injection Hres as ->. reflexivity.
      * destruct (is_Exception (exn_cls exc)); discriminate Hres.
    + intros [Hone Hnet].
      destruct Hend as [[_ [(Hn & _ & Hres & _)
                           |[(Hn & _ & m & e & lg & Hm & _)
                            |(Hn & _)]]]
                       |(_ & -> & _)]; [| | |cbn in Hone; lia].
      * rewrite Hn in Hnet.
        replace (sent w + S k - 1)%nat with (sent w + k)%nat in Hnet by lia.
        rewrite Hres, Hnet. reflexivity.
      * rewrite Hn in Hnet.
        replace (sent w + S k - 1)%nat with (sent w + k)%nat in Hnet by lia.
        congruence.
      * destruct (Hpre (attempts new - 1)%nat) as (_ & m & d & Hm & _); [lia|].
        replace (sent w + (attempts new - 1))%nat
          with (sent w + attempts new - 1)%nat in Hm by lia.
        congruence.
  - intros i Hi. destruct (Hpre i) as (_ & m & d & Hm & _); [lia|]. eauto.
Qed.

(** *** The time spent waiting *)

Lemma sum_delays_app (l1 l2 : list (nat * number)) :
  (sum_delays (l1 ++ l2) == sum_delays l1 + sum_delays l2)%Q.
Proof.
  induction l1 as [|p l1 IH]; cbn [app sum_delays].
  - ring.
  - rewrite IH. ring.
Qed.

Lemma total_delay_suspensions (t : list event) :
  forall k, (total_delay t == sum_delays (suspensions_from k t))%Q.
Proof.
  induction t as [|e t IH]; intros k; [reflexivity|].
  destruct e as [c'|? ? ? ?|d]; cbn [total_delay suspensions_from].
  - apply IH.
  - apply IH.
  - cbn [sum_delays snd]. rewrite (IH k). reflexivity.
Qed.

Lemma pow2_succ (z : Z) : 0 <= z -> (2 ^ (z + 1) == 2 * 2 ^ z)%Q.
Proof.
  intros Hz. rewrite Qpower_plus by discriminate.
  change (2 ^ 1)%Q with 2%Q. ring.
Qed.

(** What [n] retries in a row wait for in all, from attempt number [a]. *)
Lemma schedule_sum (c : ResilientAsyncHTTPClient) (n : nat) :
  forall (a : Z) (base : nat),
    0 <= a ->
    (forall i, (i < n)%nat -> exists d, sleep_for c (a + Z.of_nat i) = Return d) ->
    (sum_delays (backoff_schedule c a base n)
     == number_value (backoff_factor c) * 2 ^ a * (2 ^ Z.of_nat n - 1))%Q.
Proof.
  induction n as [|n IH]; intros a base Ha Hd; cbn [backoff_schedule].
  - cbn [sum_delays]. change (2 ^ Z.of_nat 0)%Q with 1%Q. ring.
  - assert (Htail :
      (sum_delays (backoff_schedule c (a + 1) (S base) n)
       == number_value (backoff_factor c) * 2 ^ (a + 1) * (2 ^ Z.of_nat n - 1))%Q).
    { apply IH; [lia|]. intros i Hi. destruct (Hd (S i)) as [d Hdi]; [lia|].
      exists d. rewrite <- Hdi. f_equal. lia. }
    rewrite sum_delays_app, Htail.
    destruct (Hd 0%nat) as [d Hd0]; [lia|].
    rewrite Z.add_0_r in Hd0. rewrite Hd0.
    pose proof (sleep_for_value c a d Ha Hd0) as Hv.
    replace (Z.of_nat (S n)) with (Z.of_nat n + 1) by lia.
    rewrite !pow2_succ by lia.
    setoid_replace (number_value (backoff_factor c) * (2 * 2 ^ a)
                    * (2 ^ Z.of_nat n - 1))%Q
      with (2 * (number_value (backoff_factor c) * 2 ^ a)
            * (2 ^ Z.of_nat n - 1))%Q by ring.
    rewrite <- Hv.
    destruct (number_truthy d) eqn:Ht.
    + cbn [sum_delays snd]. ring.
    + unfold number_truthy in Ht. apply negb_false_iff, Qeq_bool_eq in Ht.
      cbn [sum_delays]. rewrite Ht. ring.
Qed.

(** X4.  A client with a base URL and a back-off factor [b >= 0], and a
    call whose first [n] attempts fail with a request error and are retried,
    the delays after them being delays Python can take, and whose attempt
    number [n] ends it (it does not fail so, or it is the last one allowed).
    The call has been suspended for [b * (2^n - 1)] seconds in all when it
    ends, with the outcome of that attempt. *)
Theorem total_backoff_of_a_call
    (net : nat -> http_call -> attempt_outcome)
    (base_url : string) (headers : option (dict string))
    (timeout : option number) (r : Z) (b : number)
    (method url : string) (kwargs : dict json) (w : world) (n : nat) :
  (0 <= number_value b)%Q ->
  let c := init (Some base_url) headers timeout r b in
  let call := call_of c method url kwargs in
  Z.of_nat n <= r ->
  (forall i, (i < n)%nat -> exists m, net (sent w + i)%nat call = RequestError m) ->
  (forall i, (i < n)%nat -> delay_fits c (Z.of_nat i) = true) ->
  (forall m, net (sent w + n)%nat call = RequestError m -> Z.of_nat n = r) ->
  exists w' new,
    request true net c method url kwargs w
    = Some (final_result c (net (sent w + n)%nat call), w')
    /\ trace w' = (trace w ++ new)%list
    /\ (n <= attempts new <= n + 1)%nat
    /\ (total_delay new == number_value b * (2 ^ Z.of_nat n - 1))%Q.
Proof.
  intros Hb c call Hn Hpre Hdelay Hlast.
  assert (Hc : backoff_factor c = b).
  { unfold c, init, max0. cbn [backoff_factor].
    apply Qle_bool_iff in Hb. rewrite Hb. reflexivity. }
  assert (Hr : retries c = r) by (unfold c, init; cbn [retries]; lia).
  destruct (request_decided_at net c method url kwargs n w)
    as (w' & new & Hreq & Htr & _ & Hat & Hsus);
    [discriminate|lia|exact Hpre|exact Hdelay|rewrite Hr; exact Hlast|].
  exists w', new. split; [exact Hreq|]. split; [assumption|]. split.
  - fold call in Hat. destruct (net (sent w + n)%nat call); lia.
  - unfold suspensions in Hsus.
    rewrite (total_delay_suspensions new 0), Hsus, schedule_sum.
    + rewrite Hc. change (2 ^ 0)%Q with 1%Q. ring.
    + lia.
    + intros i Hi.
      destruct (delay_fits_backoff c (0 + Z.of_nat i)) as (d & Hd & _);
        [apply Hdelay; assumption|]. eauto.
Qed.

Lemma total_backoff_of_a_call_witness :
  exists w' new,
    request true Scenarios.refused (Scenarios.client_3 (NFloat (1 # 2)))
      "GET" "/repos" [] world0
    = Some (Raise (mkExn ToolExecutionError
                     "Request failed after 4 attempts: connection refused"), w')
    /\ trace w' = new
    /\ (3 <= attempts new <= 3 + 1)%nat
    /\ (total_delay new == (1 # 2) * (2 ^ 3 - 1))%Q.
Proof.
  apply (total_backoff_of_a_call Scenarios.refused "https://api.github.com"
           None None 3 (NFloat (1 # 2)) "GET" "/repos" [] world0 3).
  - apply Qle_bool_iff. reflexivity.
  - lia.
  - intros i _. eexists. reflexivity.
  - intros [|[|[|i]]] Hi; [vm_compute; reflexivity..|lia].
  - intros m _. reflexivity.
Defined.

(** *** The requests of a call *)

Lemma requests_app (t1 t2 : list event) :
  requests (t1 ++ t2) = (requests t1 ++ requests t2)%list.
Proof.
  induction t1 as [|[c|? ? ? ?|?] t1 IH]; cbn [app requests];
    [reflexivity|rewrite IH; reflexivity|exact IH|exact IH].
Qed.

Lemma requests_of_one_call (call : http_call) (t : list event) :
  requests_are call t -> requests t = repeat call (attempts t).
Proof.
  unfold requests_are, attempts.
  induction 1 as [|[c|? ? ? ?|?] t Hx _ IH]; cbn [requests filter is_request].
  - reflexivity.
  - subst c. cbn [List.length repeat]. rewrite IH. reflexivity.
  - exact IH.
  - exact IH.
Qed.

(** What a call of [request] adds to the requests that went out. *)
Lemma request_requests (httpx : bool) (net : nat -> http_call -> attempt_outcome)
    (c : ResilientAsyncHTTPClient) (method url : string) (kwargs : dict json)
    (w : world) :
  exists res w' n,
    request httpx net c method url kwargs w = Some (res, w')
    /\ requests (trace w')
       = (requests (trace w) ++ repeat (call_of c method url kwargs) n)%list
    /\ (n <= Z.to_nat (retries c) + 1)%nat.
Proof.
  destruct (request_ends net c method url kwargs httpx w)
    as (res & w' & Hreq).
  exists res, w'.
  destruct httpx.
  - destruct (request_observed net c method url kwargs w res w' Hreq)
      as (new & k & Htr & _ & Hk & Hle & _ & _ & _ & Hall & _).
    exists (attempts new). split; [assumption|]. split; [|lia].
    rewrite Htr, requests_app, (requests_of_one_call _ _ Hall). reflexivity.
  - unfold request in Hreq. cbn [negb] in Hreq. injection Hreq as <- <-.
    exists 0%nat. cbn [repeat]. rewrite app_nil_r.
    split; [reflexivity|]. split; [reflexivity|lia].
Qed.

End HttpMore.

(* ================================================================= *)
(** ** Further facts about mcp/tooling.py and server/mcp_server.py *)

Module ToolingMore.
Import Py Tooling ToolingObs.

(** *** Dictionaries *)

Lemma dict_get_set_same {V} (k : string) (v : V) (d : dict V) :
  dict_get k (dict_set k v d) = Some v.
Proof.
  induction d as [|[k' v'] d IH]; cbn [dict_set dict_get].
  - rewrite String.eqb_refl. reflexivity.
  - destruct (String.eqb k k') eqn:E; cbn [dict_get]; rewrite E; auto.
Qed.

Lemma dict_get_set_other {V} (k k0 : string) (v : V) (d : dict V) :
  k0 <> k -> dict_get k0 (dict_set k v d) = dict_get k0 d.
Proof.
  intros Hne. induction d as [|[k' v'] d IH]; cbn [dict_set dict_get].
  - apply String.eqb_neq in Hne. rewrite Hne. reflexivity.
  - destruct (String.eqb_spec k k') as [->|Hk]; cbn [dict_get].
    + apply String.eqb_neq in Hne. rewrite Hne. reflexivity.
    + rewrite IH. reflexivity.
Qed.

Lemma dict_set_fresh {V} (k : string) (v : V) (d : dict V) :
  dict_get k d = None -> dict_set k v d = (d ++ [(k, v)])%list.
Proof.
  induction d as [|[k' v'] d IH]; cbn [dict_get dict_set app]; [reflexivity|].
  destruct (String.eqb k k'); [discriminate|].
  intros H. rewrite IH by assumption. reflexivity.
Qed.

Lemma dict_get_In {V} (k : string) (v : V) (d : dict V) :
  dict_get k d = Some v -> In (k, v) d.
Proof.
  induction d as [|[k' v'] d IH]; cbn [dict_get]; [discriminate|].
  destruct (String.eqb_spec k k') as [->|Hne].
  - intros H. injection H as ->. left. reflexivity.
  - intros H. right. auto.
Qed.

Lemma dict_get_NoDup {V} (k : string) (v : V) (d : dict V) :
  NoDup (dict_keys d) -> In (k, v) d -> dict_get k d = Some v.
Proof.
  induction d as [|[k' v'] d IH]; cbn [dict_keys map fst dict_get];
    intros Hnd Hin; [contradiction|].
  inversion Hnd as [|? ? Hnotin Hnd']; subst.
  destruct Hin as [Heq|Hin].
  - injection Heq as -> ->. rewrite String.eqb_refl. reflexivity.
  - destruct (String.eqb_spec k k') as [->|Hne].
    + exfalso. apply Hnotin. change k' with (fst (k', v)). apply in_map. assumption.
    + apply IH; assumption.
Qed.

(** *** [ToolSpec.invoke] *)

(** X5.  Whenever [invoke] returns a response, the handler has run exactly once,
    and the response is one of two kinds: [ok] with no error, or not [ok]
    with an error message and an empty output. *)
Theorem invoke_response_is_consistent
    (spec : ToolSpec) (request : ToolInvocationRequest)
    (response : ToolInvocationResponse) (t : list event) :
  invoke spec request = (Return response, t) ->
  handler_calls t = 1%nat
  /\ (ok response = true -> error response = None)
  /\ (ok response = false ->
      output response = [] /\ exists msg, error response = Some msg).
Proof.
  unfold invoke.
  destruct (input_model spec _) as [payload|e]; [|discriminate].
  destruct (handler spec payload (context request)) as [raw|exc].
  - destruct raw;
      try (destruct (output_model spec _) as [fields|e]; [|discriminate]);
      intros H; injection H as <- <-; cbn [ok error output];
      (split; [reflexivity|split; [reflexivity|discriminate]]).
  - destruct (is_ToolExecutionError (exn_cls exc));
      [|destruct (is_Exception (exn_cls exc)); discriminate].
    intros H. injection H as <- <-. cbn [ok error output].
    split; [reflexivity|]. split; [discriminate|]. eauto.
Qed.

Lemma invoke_response_is_consistent_witness :
  handler_calls
    (snd (invoke Scenarios.failing_weather
            {| tool := "weather"; input := [("city", VStr "Oslo")];
               context := None |})) = 1%nat.
Proof.
  exact (proj1 (invoke_response_is_consistent Scenarios.failing_weather
                  {| tool := "weather"; input := [("city", VStr "Oslo")];
                     context := None |}
                  {| ok := false; output := [];
                     error := Some "units must be one of metric, imperial" |}
                  _ eq_refl)).
Defined.

(** X6.  What [invoke] raises is the error of the input validation, the
    error of the output validation, a [ToolExecutionError] that carries the
    message of an [Exception] of another class raised by the handler (such
    an exception never leaves [invoke] as it is), or what the handler raised
    that is no [Exception], such as the [CancelledError] of a cancelled
    task, which leaves [invoke] unchanged. *)
Theorem invoke_raises_only_validation_or_ToolExecutionError
    (spec : ToolSpec) (request : ToolInvocationRequest) (e : exn)
    (t : list event) :
  invoke spec request = (Raise e, t) ->
  input_model spec (VDict (input_or_empty (input request))) = Raise e
  \/ (exists payload raw,
        input_model spec (VDict (input_or_empty (input request))) = Return payload
        /\ handler spec payload (context request) = Return raw
        /\ output_model spec raw = Raise e)
  \/ (exists payload exc,
        input_model spec (VDict (input_or_empty (input request))) = Return payload
        /\ handler spec payload (context request) = Raise exc
        /\ exn_cls exc <> ToolExecutionError
        /\ is_Exception (exn_cls exc) = true
        /\ e = mkExn ToolExecutionError (exn_str exc))
  \/ (exists payload,
        input_model spec (VDict (input_or_empty (input request))) = Return payload
        /\ handler spec payload (context request) = Raise e
        /\ is_Exception (exn_cls e) = false).
Proof.
  unfold invoke.
  destruct (input_model spec _) as [payload|e0] eqn:Hin.
  - destruct (handler spec payload (context request)) as [raw|exc] eqn:Hh.
    + destruct raw; try discriminate;
        (destruct (output_model spec _) as [fields|e1] eqn:Hout; [discriminate|]);
        intros H; injection H as <- <-; right; left;
        exists payload; eexists;
        (split; [reflexivity|split; [exact Hh|exact Hout]]).
    + destruct (is_ToolExecutionError (exn_cls exc)) eqn:Hc; [discriminate|].
      destruct (is_Exception (exn_cls exc)) eqn:Hexc;
        intros H; injection H as <- <-; right; right.
      * left. exists payload, exc. split; [reflexivity|]. split; [exact Hh|].
        split; [|split; [exact Hexc|reflexivity]].
        intros Heq. rewrite Heq in Hc. discriminate.
      * right. exists payload. split; [reflexivity|]. split; [exact Hh|exact Hexc].
  - intros H. injection H as <- <-. left. reflexivity.
Qed.

Lemma invoke_raises_only_validation_or_ToolExecutionError_witness :
  (exists payload exc,
     input_model Cases.crashing_tool (VDict (input_or_empty (input Cases.oslo)))
     = Return payload
     /\ handler Cases.crashing_tool payload (context Cases.oslo) = Raise exc
     /\ exn_cls exc <> ToolExecutionError
     /\ is_Exception (exn_cls exc) = true
     /\ mkExn ToolExecutionError "unsupported operand type(s)"
        = mkExn ToolExecutionError (exn_str exc))
  /\ (exists payload,
        input_model Cases.cancelled_tool
          (VDict (input_or_empty (input Cases.oslo))) = Return payload
        /\ handler Cases.cancelled_tool payload (context Cases.oslo)
           = Raise (mkExn CancelledError "")
        /\ is_Exception CancelledError = false).
Proof.
  split.
  - destruct (invoke_raises_only_validation_or_ToolExecutionError
                Cases.crashing_tool Cases.oslo
                (mkExn ToolExecutionError "unsupported operand type(s)") _ eq_refl)
      as [H|[(payload & raw & _ & H & _)|[H|(payload & _ & _ & H)]]].
    + discriminate H.
    + discriminate H.
    + exact H.
    + discriminate H.
  - destruct (invoke_raises_only_validation_or_ToolExecutionError
                Cases.cancelled_tool Cases.oslo
                (mkExn CancelledError "") _ eq_refl)
      as [H|[(payload & raw & _ & H & _)|[(payload & exc & _ & _ & _ & _ & H)|H]]].
    + discriminate H.
    + discriminate H.
    + discriminate H.
    + exact H.
Defined.

(** *** [_extract_invocation_payload] *)

Lemma extract_is_dict (py_dict : value -> option (dict value))
    (args : list value) (kwargs : dict value) :
  exists d, fst (_extract_invocation_payload py_dict args kwargs) = VDict d.
Proof.
  unfold _extract_invocation_payload.
  destruct (positional args (keyword_arguments kwargs) (keyword_context kwargs))
    as [arguments context].
  cbn [fst].
  destruct arguments; cbn [is_none coerce]; eauto;
    match goal with
    | |- context [py_dict ?v] => destruct (py_dict v); eauto
    end.
Qed.

(** X7.  The keywords decide by being there, not by what they carry.  When the
    keyword that is looked at carries something other than [None], the
    positional arguments are not looked at.  When "arguments" is there but
    carries [None], "input" and "params" are not looked at either: the
    arguments are what the positional arguments alone give. *)
Theorem keywords_go_first
    (py_dict : value -> option (dict value))
    (args : list value) (kwargs : dict value) :
  (keyword_arguments kwargs <> VNone ->
   _extract_invocation_payload py_dict args kwargs
   = _extract_invocation_payload py_dict [] kwargs)
  /\ (dict_get "arguments" kwargs = Some VNone ->
      fst (_extract_invocation_payload py_dict args kwargs)
      = fst (_extract_invocation_payload py_dict args [])).
Proof.
  split.
  - intros Hkw. unfold _extract_invocation_payload.
    destruct args as [|a0 rest]; [reflexivity|].
    cbn [positional].
    destruct (keyword_arguments kwargs); try reflexivity. contradiction.
  - intros Hnone. unfold _extract_invocation_payload.
    assert (Hkw : keyword_arguments kwargs = VNone).
    { unfold keyword_arguments, dict_mem. rewrite Hnone. reflexivity. }
    rewrite Hkw. change (keyword_arguments []) with VNone.
    destruct args as [|a0 [|a1 rest]]; cbn [positional is_none fst];
      try reflexivity; destruct (is_dict a0); reflexivity.
Qed.

(** X8.  What comes out can be fed back in: calling with the extracted pair under
    the keywords "arguments" and "context" extracts the same pair. *)
Theorem extraction_is_idempotent
    (py_dict : value -> option (dict value))
    (args : list value) (kwargs : dict value) :
  let extracted := _extract_invocation_payload py_dict args kwargs in
  _extract_invocation_payload py_dict []
    [("arguments", fst extracted); ("context", snd extracted)]
  = extracted.
Proof.
  intros extracted.
  destruct (extract_is_dict py_dict args kwargs) as [d Hd].
  fold extracted in Hd. destruct extracted as [a c]. cbn [fst snd] in *.
  subst a. reflexivity.
Qed.

(** X9.  Positional calls.  A [dict] and another value may come in either order:
    the [dict] is the arguments and the other value the context.  A single
    positional value that is not a [dict] (a model, say) is taken as the
    context, and the arguments are empty. *)
Theorem positional_arguments_in_either_order
    (py_dict : value -> option (dict value))
    (a0 : value) (d : dict value) :
  is_dict a0 = false ->
  _extract_invocation_payload py_dict [a0; VDict d] [] = (VDict d, a0)
  /\ _extract_invocation_payload py_dict [VDict d; a0] [] = (VDict d, a0)
  /\ _extract_invocation_payload py_dict [a0] [] = (VDict [], a0).
Proof.
  intros Ha. unfold _extract_invocation_payload.
  change (keyword_arguments []) with VNone.
  change (keyword_context []) with VNone.
  cbn [positional is_none is_dict]. rewrite Ha. cbn [is_none coerce].
  repeat split.
Qed.

Lemma positional_arguments_in_either_order_witness :
  _extract_invocation_payload Scenarios.py_dict
    [VModel [("city", VStr "Oslo")]] []
  = (VDict [], VModel [("city", VStr "Oslo")]).
Proof.
  exact (proj2 (proj2 (positional_arguments_in_either_order Scenarios.py_dict
                         (VModel [("city", VStr "Oslo")]) [] eq_refl))).
Defined.

(** *** [mcp_handler] and [fastmcp_handler] *)

Lemma input_or_empty_id (d : dict value) : input_or_empty d = d.
Proof. destruct d; reflexivity. Qed.

(** X10.  A host that calls [mcp_handler] with the input and the context of a
    request under the keywords "arguments" and "context" validates the same
    input and runs the handler on the same payload and context as [invoke]
    does.  Where [invoke] answers [ok], [mcp_handler] returns the output of
    that answer; where [invoke] answers not [ok], [mcp_handler] raises the
    [ToolExecutionError] with the message of the answer; where [invoke]
    raises, [mcp_handler] raises an error with the same message. *)
Theorem mcp_handler_agrees_with_invoke
    (py_dict : value -> option (dict value))
    (spec : ToolSpec) (request : ToolInvocationRequest) :
  let direct := invoke spec request in
  let hosted := mcp_handler py_dict spec [] (keyword_call request) in
  snd hosted = snd direct
  /\ match fst direct with
     | Return response =>
         if ok response then fst hosted = Return (output response)
         else exists msg,
                error response = Some msg
                /\ fst hosted = Raise (mkExn ToolExecutionError msg)
     | Raise e =>
         exists e', fst hosted = Raise e' /\ exn_str e' = exn_str e
     end.
Proof.
  cbv zeta. unfold mcp_handler, invoke, keyword_call, _extract_invocation_payload.
  change (keyword_arguments _) with (VDict (input request)).
  change (keyword_context _) with (context_value (context request)).
  cbn [positional is_none coerce]. rewrite input_or_empty_id.
  destruct (input_model spec (VDict (input request))) as [payload|e];
    [|cbn [fst snd]; eauto].
  assert (Hctx : match context_value (context request) with
                 | VDict d => Some d
                 | _ => None
                 end = context request)
    by (destruct (context request); reflexivity).
  rewrite Hctx.
  destruct (handler spec payload (context request)) as [raw|[cls msg]].
  - destruct raw; cbn [fst snd ok output]; try (split; reflexivity);
      destruct (output_model spec _) as [fields|e]; cbn [fst snd ok output];
      (split; [reflexivity|]); try reflexivity; eauto.
  - cbn [exn_cls exn_str].
    destruct cls; cbn [is_ToolExecutionError is_Exception fst snd ok error];
      split; try reflexivity; eauto.
Qed.

(** X11.  A host that passes one [dict] has the same done by both closures
    [bind_to_server] makes: the same validations and the same run of the
    handler, and the same exception where one is raised.  Where
    [mcp_handler] returns a dictionary, the dump of a model,
    [fastmcp_handler] returns that model itself. *)
Theorem fastmcp_handler_agrees_on_a_dict
    (py_dict : value -> option (dict value)) (spec : ToolSpec) (d : dict value) :
  snd (fastmcp_handler spec (VDict d))
  = snd (mcp_handler py_dict spec [VDict d] [])
  /\ fst (fastmcp_handler spec (VDict d))
     = match fst (mcp_handler py_dict spec [VDict d] []) with
       | Return fields => Return (VModel fields)
       | Raise e => Raise e
       end.
Proof.
  unfold fastmcp_handler, mcp_handler, _extract_invocation_payload.
  change (keyword_arguments []) with VNone.
  change (keyword_context []) with VNone.
  cbn [positional is_none is_dict coerce].
  destruct (input_model spec (VDict d)) as [payload|e];
    [|split; reflexivity].
  cbv beta iota zeta delta [dict].
  match goal with
  | |- context [handler spec payload ?ctx] =>
      destruct (handler spec payload ctx) as [raw|e]; [|split; reflexivity]
  end.
  destruct raw; cbn [fst snd]; split; try reflexivity;
    match goal with
    | |- context [output_model spec ?v] => destruct (output_model spec v)
    end; reflexivity.
Qed.

(** On the echo tool, which returns a dictionary: [mcp_handler] returns the
    validated output as a dictionary, [fastmcp_handler] as a model. *)
Example both_closures_on_echo :
  fst (mcp_handler Scenarios.py_dict Cases.echo_tool
         [VDict [("city", VStr "Oslo")]] [])
  = Return [("city", VStr "Oslo")]
  /\ fst (fastmcp_handler Cases.echo_tool (VDict [("city", VStr "Oslo")]))
     = Return (VModel [("city", VStr "Oslo")]).
Proof. split; reflexivity. Qed.

(** *** [ToolCatalog] *)

Lemma register_new (cat : ToolCatalog) (spec : ToolSpec) :
  dict_get (name spec) (tools cat) = None ->
  register cat spec
  = (Return tt, {| tools := (tools cat ++ [(name spec, spec)])%list |}).
Proof.
  intros Hget. unfold register, dict_mem. rewrite Hget.
  rewrite dict_set_fresh by assumption. reflexivity.
Qed.

Lemma register_Return (cat cat' : ToolCatalog) (spec : ToolSpec) :
  register cat spec = (Return tt, cat') ->
  dict_get (name spec) (tools cat) = None
  /\ cat' = {| tools := (tools cat ++ [(name spec, spec)])%list |}.
Proof.
  intros H.
  destruct (dict_get (name spec) (tools cat)) as [old|] eqn:Hget.
  - unfold register, dict_mem in H. rewrite Hget in H. discriminate H.
  - split; [reflexivity|]. rewrite (register_new _ _ Hget) in H.
    injection H as <-. reflexivity.
Qed.

Lemma get_new (d : dict ToolSpec) (spec : ToolSpec) :
  dict_get (name spec) d = None ->
  get {| tools := (d ++ [(name spec, spec)])%list |} (name spec) = Some spec.
Proof.
  intros Hget. unfold get. cbn [tools].
  rewrite <- (dict_set_fresh _ spec _ Hget). apply dict_get_set_same.
Qed.

Lemma list_new (d : dict ToolSpec) (spec : ToolSpec) :
  list_ {| tools := (d ++ [(name spec, spec)])%list |}
  = (list_ {| tools := d |} ++ [spec])%list.
Proof.
  unfold list_, dict_values. cbn [tools]. rewrite map_app. reflexivity.
Qed.

(** X12.  A tool that [register] accepts can be looked up under its name, is last
    in the listing, and leaves every other name as it was. *)
Theorem register_then_get
    (cat cat' : ToolCatalog) (spec : ToolSpec) :
  register cat spec = (Return tt, cat') ->
  get cat' (name spec) = Some spec
  /\ (forall n, n <> name spec -> get cat' n = get cat n)
  /\ list_ cat' = (list_ cat ++ [spec])%list.
Proof.
  unfold register, dict_mem.
  destruct (dict_get (name spec) (tools cat)) as [old|] eqn:Hget; [discriminate|].
  intros H. injection H as <-. unfold get, list_, dict_values. cbn [tools].
  split; [apply dict_get_set_same|]. split.
  - intros n Hn. apply dict_get_set_other. assumption.
  - rewrite dict_set_fresh by assumption. rewrite map_app. reflexivity.
Qed.

Lemma register_then_get_witness :
  get Scenarios.weather_catalog "weather" = Some Scenarios.failing_weather
  /\ (forall n, n <> "weather" -> get Scenarios.weather_catalog n = get empty_catalog n)
  /\ list_ Scenarios.weather_catalog = [Scenarios.failing_weather].
Proof.
  exact (register_then_get empty_catalog Scenarios.weather_catalog
           Scenarios.failing_weather eq_refl).
Defined.

Lemma register_all_get (specs : list ToolSpec) :
  forall (cat : ToolCatalog) (n : string),
    get (register_all specs cat) n
    = match get cat n with
      | Some spec => Some spec
      | None => find (fun spec => String.eqb (name spec) n) specs
      end.
Proof.
  induction specs as [|spec specs IH]; intros cat n; cbn [register_all fold_left find].
  - destruct (get cat n); reflexivity.
  - fold (register_all specs (snd (register cat spec))). rewrite IH.
    unfold register, dict_mem, get.
    destruct (dict_get (name spec) (tools cat)) as [old|] eqn:Hget; cbn [snd tools].
    + destruct (dict_get n (tools cat)) eqn:Hn; [reflexivity|].
      destruct (String.eqb_spec (name spec) n) as [Heq|Hne]; [congruence|reflexivity].
    + destruct (String.eqb_spec (name spec) n) as [<-|Hne].
      * rewrite dict_get_set_same, Hget. reflexivity.
      * rewrite dict_get_set_other by congruence. reflexivity.
Qed.

Lemma register_all_list (specs : list ToolSpec) :
  forall cat : ToolCatalog,
    list_ (register_all specs cat)
    = (list_ cat ++ first_of_each_name (dict_keys (tools cat)) specs)%list.
Proof.
  induction specs as [|spec specs IH]; intros cat;
    cbn [register_all fold_left first_of_each_name].
  - rewrite app_nil_r. reflexivity.
  - fold (register_all specs (snd (register cat spec))). rewrite IH.
    unfold register, dict_mem.
    assert (Hseen : existsb (String.eqb (name spec)) (dict_keys (tools cat))
                    = match dict_get (name spec) (tools cat) with
                      | Some _ => true
                      | None => false
                      end).
    { induction (tools cat) as [|[k v] d IHd]; cbn; [reflexivity|].
      destruct (String.eqb (name spec) k); [reflexivity|]. exact IHd. }
    rewrite Hseen.
    destruct (dict_get (name spec) (tools cat)) as [old|] eqn:Hget; cbn [snd tools].
    + reflexivity.
    + rewrite dict_set_fresh by assumption.
      unfold list_, dict_values, dict_keys. cbn [tools].
      rewrite !map_app. cbn [map fst snd]. rewrite <- app_assoc. reflexivity.
Qed.

(** X13.  A catalog filled from empty by any series of [register] calls: a name
    leads to the first tool registered under it (a later tool of the same
    name is turned away and changes nothing), and the listing holds the
    tools that were accepted in the order of their registration. *)
Theorem catalog_keeps_the_first_of_each_name
    (specs : list ToolSpec) (n : string) :
  get (register_all specs empty_catalog) n
  = find (fun spec => String.eqb (name spec) n) specs
  /\ list_ (register_all specs empty_catalog) = first_of_each_name [] specs.
Proof.
  split.
  - rewrite register_all_get. reflexivity.
  - rewrite register_all_list. reflexivity.
Qed.

(** The keys of such a catalog are the names of the tools stored under
    them, and no name is there twice. *)
Lemma register_all_well_keyed (specs : list ToolSpec) :
  forall cat : ToolCatalog,
    NoDup (dict_keys (tools cat)) ->
    Forall (fun kv => name (snd kv) = fst kv) (tools cat) ->
    NoDup (dict_keys (tools (register_all specs cat)))
    /\ Forall (fun kv => name (snd kv) = fst kv) (tools (register_all specs cat)).
Proof.
  induction specs as [|spec specs IH]; intros cat Hnd Hkeys;
    cbn [register_all fold_left]; [auto|].
  fold (register_all specs (snd (register cat spec))). apply IH.
  - unfold register, dict_mem.
    destruct (dict_get (name spec) (tools cat)) as [old|] eqn:Hget;
      cbn [snd tools]; [assumption|].
    rewrite dict_set_fresh by assumption. unfold dict_keys.
    rewrite map_app. cbn [map fst].
    apply NoDup_app_remove_l with (l := []). cbn [app].
    apply NoDup_app; [assumption|repeat constructor; intros []|].
    intros k Hk [<-|[]].
    apply ToolingFacts.dict_get_None_iff in Hget. contradiction.
  - unfold register, dict_mem.
    destruct (dict_get (name spec) (tools cat)) as [old|] eqn:Hget;
      cbn [snd tools]; [assumption|].
    rewrite dict_set_fresh by assumption. apply Forall_app. split; [assumption|].
    repeat constructor.
Qed.

(** *** [AIHubMCPServer] *)

(** X14.  Register, list, invoke: on a server whose catalog was filled from empty
    by [register] calls, invoking a tool under the name the listing gives
    for it is invoking that very tool. *)
Theorem invoking_a_listed_tool
    (specs : list ToolSpec) (spec : ToolSpec) (request : ToolInvocationRequest) :
  In spec (Server.list_tools
             {| Server.catalog := register_all specs empty_catalog |}) ->
  tool request = name spec ->
  Server.invoke {| Server.catalog := register_all specs empty_catalog |} request
  = invoke spec request.
Proof.
  unfold Server.list_tools, list_, dict_values, Server.invoke, get.
  cbn [Server.catalog]. intros Hin Hname.
  destruct (register_all_well_keyed specs empty_catalog) as [Hnd Hkeys];
    [constructor|constructor|].
  apply in_map_iff in Hin. destruct Hin as ([k v] & Hv & Hin).
  cbn [snd] in Hv. subst v.
  rewrite Forall_forall in Hkeys. pose proof (Hkeys _ Hin) as Hk. cbn [fst snd] in Hk.
  subst k. rewrite Hname.
  rewrite (dict_get_NoDup (name spec) spec _ Hnd Hin). reflexivity.
Qed.

Lemma invoking_a_listed_tool_witness :
  Server.invoke
    {| Server.catalog :=
         register_all [Cases.echo_tool; Cases.crashing_tool; Cases.echo_tool]
           empty_catalog |}
    Cases.oslo
  = invoke Cases.echo_tool Cases.oslo.
Proof.
  apply (invoking_a_listed_tool
           [Cases.echo_tool; Cases.crashing_tool; Cases.echo_tool]
           Cases.echo_tool Cases.oslo).
  - left. reflexivity.
  - reflexivity.
Defined.

(** X15.  However an invocation goes, the handler of one tool at most has run,
    and it has run once at most: once when the tool is known and the input
    passes its schema, and not at all otherwise. *)
Theorem handler_runs_at_most_once
    (srv : Server.AIHubMCPServer) (request : ToolInvocationRequest) :
  handler_calls (snd (Server.invoke srv request))
  = match get (Server.catalog srv) (tool request) with
    | Some spec =>
        match input_model spec (VDict (input_or_empty (input request))) with
        | Return _ => 1%nat
        | Raise _ => 0%nat
        end
    | None => 0%nat
    end.
Proof.
  unfold Server.invoke.
  destruct (get (Server.catalog srv) (tool request)) as [spec|]; [|reflexivity].
  unfold invoke.
  destruct (input_model spec _) as [payload|e]; [|reflexivity].
  destruct (handler spec payload (context request)) as [raw|exc].
  - destruct raw; try reflexivity;
      destruct (output_model spec _); reflexivity.
  - destruct (is_ToolExecutionError (exn_cls exc)); [reflexivity|].
    destruct (is_Exception (exn_cls exc)); reflexivity.
Qed.

End ToolingMore.

(* ================================================================= *)
(** ** Facts about [bind_to_server], [register_tool] and [load_tools] *)

Module BindingFacts.
Import Py Tooling ToolingObs Binding Loader.

Ltac destruct_answers H :=
  repeat match type of H with
         | context [match answer ?h ?l ?c with _ => _ end] =>
             let E := fresh "Hans" in destruct (answer h l c) eqn:E
         | context [is_TypeError (exn_cls ?e)] =>
             let E := fresh "Htype" in destruct (is_TypeError (exn_cls e)) eqn:E
         | context [is_Exception (exn_cls ?e)] =>
             let E := fresh "Hexc" in destruct (is_Exception (exn_cls e)) eqn:E
         | context [match ?f ?a ?b ?c with Return _ => _ | Raise _ => _ end] =>
             let E := fresh "Hmk" in destruct (f a b c) eqn:E
         end.

Ltac answers_known :=
  repeat match goal with
         | E : answer ?h ?l ?c = _ |- context [answer ?h ?l ?c] => rewrite E
         end.

Ltac last_call :=
  first [ exists []; eexists; split; [reflexivity|]
        | eexists [_]; eexists; split; [reflexivity|]
        | eexists [_; _]; eexists; split; [reflexivity|]
        | eexists [_; _; _]; eexists; split; [reflexivity|]
        | eexists [_; _; _; _]; eexists; split; [reflexivity|] ].

Ltac bind_cases mcp_types model_json_schema server self H :=
  unfold bind_to_server, try_add_tool, try_register_tool, try_tool_decorator,
    pass_Exception, host_do in H;
  destruct mcp_types as [[tool_cls|]|];
  destruct (model_json_schema self) as [[input_schema output_schema]|es]
    eqn:Hschema;
  destruct (has_add_tool server), (has_register_tool server),
    (has_tool server) eqn:Htool;
  destruct_answers H.

Lemma accepted_app (h : host) (new1 new2 : list host_call) :
  forall log : list host_call,
    accepted h log (new1 ++ new2)
    = (accepted h log new1 ++ accepted h (log ++ new1) new2)%list.
Proof.
  induction new1 as [|c new1 IH]; intros log; cbn [app accepted].
  - rewrite app_nil_r. reflexivity.
  - rewrite IH, <- app_assoc. cbn [app].
    destruct (answer h log c); reflexivity.
Qed.

Lemma binding_calls
    (mcp_types : mcp_types_module)
    (model_json_schema : ToolSpec -> result (value * value))
    (server : host) (self : ToolSpec) (log log' : list host_call) (u : unit) :
  bind_to_server mcp_types model_json_schema server self log = (Return u, log') ->
  exists new,
    log' = (log ++ new)%list
    /\ List.length (filter registers (accepted server log new)) = 1%nat.
Proof.
  destruct u. intros H.
  bind_cases mcp_types model_json_schema server self H;
    try discriminate H;
    injection H as <-;
    (eexists; split;
     [repeat rewrite <- app_assoc; cbn [app];
      first [reflexivity | symmetry; apply app_nil_r]|]);
    cbn [accepted]; answers_known; cbn [accepted filter registers];
    answers_known; reflexivity.
Qed.

(** X16.  Binding a tool registers it once or not at all.  The calls made on the
    host are at most five.  When [bind_to_server] returns, the host accepted
    exactly one registration, the last call made; when it raises, the host
    accepted none. *)
Theorem binding_registers_at_most_once
    (mcp_types : mcp_types_module)
    (model_json_schema : ToolSpec -> result (value * value))
    (server : host) (self : ToolSpec) (log : list host_call)
    (r : result unit) (log' : list host_call) :
  bind_to_server mcp_types model_json_schema server self log = (r, log') ->
  exists new,
    log' = (log ++ new)%list
    /\ (List.length new <= 5)%nat
    /\ match r with
       | Return _ =>
           exists before c,
             new = (before ++ [c])%list
             /\ filter registers (accepted server log new) = [c]
       | Raise _ => filter registers (accepted server log new) = []
       end.
Proof.
  intros H.
  bind_cases mcp_types model_json_schema server self H;
    injection H as <- <-;
    (eexists; split;
     [repeat rewrite <- app_assoc; cbn [app];
      first [reflexivity | symmetry; apply app_nil_r]|]);
    (split; [cbn [List.length]; lia|]);
    try last_call;
    cbn [accepted]; answers_known; cbn [accepted filter registers];
    answers_known; reflexivity.
Qed.

(** X17.  What [bind_to_server] raises is one of five things: the
    [RuntimeError] for a missing [mcp] package, before anything else; the
    exception of [model_json_schema], before any call on the host; what the
    host or the tool class of [mcp.types] raised that is no [Exception];
    the [RuntimeError] for a host without a usable registration call (the
    host has no [tool]); or the error the host raised when asked for the
    decorator or when the decorator was applied.  So an [Exception] raised
    by [add_tool] or by [register_tool] is dropped. *)
Theorem binding_lets_through_decorator_errors_only
    (mcp_types : mcp_types_module)
    (model_json_schema : ToolSpec -> result (value * value))
    (server : host) (self : ToolSpec) (log : list host_call)
    (e : exn) (log' : list host_call) :
  bind_to_server mcp_types model_json_schema server self log = (Raise e, log') ->
  (mcp_types = None /\ log' = log
   /\ e = mkExn RuntimeError "The 'mcp' package is required but not installed")
  \/ (mcp_types <> None /\ model_json_schema self = Raise e /\ log' = log)
  \/ (is_Exception (exn_cls e) = false
      /\ ((exists l c, answer server l c = Raise e)
          \/ exists tool_cls input_schema output_schema,
               mcp_types = Some (Some tool_cls)
               /\ tool_cls self input_schema output_schema = Raise e))
  \/ (has_tool server = false
      /\ e = mkExn RuntimeError
               "Incompatible MCP server: missing tool registration API")
  \/ (has_tool server = true
      /\ exists input_schema output_schema l c,
           model_json_schema self = Return (input_schema, output_schema)
           /\ (c = ToolDecorator self input_schema output_schema
               \/ c = Decorated self)
           /\ answer server l c = Raise e).
Proof.
  intros H.
  bind_cases mcp_types model_json_schema server self H;
    try discriminate H;
    injection H as <- <-;
    first [ left; split; [reflexivity|split; reflexivity]
          | right; left; split; [discriminate|split; reflexivity]
          | right; right; left; split; [eassumption|];
            first [ left; eexists; eexists; eassumption
                  | right; eexists; eexists; eexists;
                    split; [reflexivity|eassumption] ]
          | right; right; right; left; split; reflexivity
          | right; right; right; right; split; [reflexivity|];
            eexists; eexists; eexists; eexists;
            split; [reflexivity|split; [|eassumption]]; auto ].
Qed.

Lemma binding_lets_through_decorator_errors_only_witness :
  (Hosts.mcp_without_tool_class = None /\ [AddToolFunction Cases.echo_tool] = []
   /\ mkExn RuntimeError "Incompatible MCP server: missing tool registration API"
      = mkExn RuntimeError "The 'mcp' package is required but not installed")
  \/ (Hosts.mcp_without_tool_class <> None
      /\ Hosts.no_schema Cases.echo_tool
         = Raise (mkExn RuntimeError
                    "Incompatible MCP server: missing tool registration API")
      /\ [AddToolFunction Cases.echo_tool] = [])
  \/ (is_Exception RuntimeError = false
      /\ ((exists l c,
             answer Hosts.refusing_host l c
             = Raise (mkExn RuntimeError
                        "Incompatible MCP server: missing tool registration API"))
          \/ exists tool_cls input_schema output_schema,
               Hosts.mcp_without_tool_class = Some (Some tool_cls)
               /\ tool_cls Cases.echo_tool input_schema output_schema
                  = Raise (mkExn RuntimeError
                             "Incompatible MCP server: missing tool registration API")))
  \/ (has_tool Hosts.refusing_host = false
      /\ mkExn RuntimeError "Incompatible MCP server: missing tool registration API"
         = mkExn RuntimeError
             "Incompatible MCP server: missing tool registration API")
  \/ (has_tool Hosts.refusing_host = true
      /\ exists input_schema output_schema l c,
           Hosts.no_schema Cases.echo_tool
           = Return (input_schema, output_schema)
           /\ (c = ToolDecorator Cases.echo_tool input_schema output_schema
               \/ c = Decorated Cases.echo_tool)
           /\ answer Hosts.refusing_host l c
              = Raise (mkExn RuntimeError
                         "Incompatible MCP server: missing tool registration API")).
Proof.
  exact (binding_lets_through_decorator_errors_only
           Hosts.mcp_without_tool_class Hosts.no_schema Hosts.refusing_host
           Cases.echo_tool []
           (mkExn RuntimeError
              "Incompatible MCP server: missing tool registration API")
           [AddToolFunction Cases.echo_tool] eq_refl).
Defined.

(** A model whose schema cannot be generated: [bind_to_server] raises the
    error of [model_json_schema] and asks nothing of the host.  A host whose
    [add_tool] is interrupted: the interruption leaves [bind_to_server]. *)
Example binding_errors_outside_the_decorator :
  bind_to_server Hosts.mcp_without_tool_class Hosts.broken_schema
    Hosts.fastmcp_host Cases.echo_tool []
  = (Raise (mkExn (OtherException "PydanticInvalidForJsonSchema")
              "Cannot generate a JsonSchema for core_schema.CallableSchema"), [])
  /\ bind_to_server Hosts.mcp_without_tool_class Hosts.no_schema
       Hosts.interrupted_host Cases.echo_tool []
     = (Raise (mkExn KeyboardInterrupt ""), [AddToolFunction Cases.echo_tool]).
Proof. split; reflexivity. Qed.

Lemma binding_registers_at_most_once_witness :
  exists before c,
    [AddToolFunction Cases.echo_tool;
     AddToolKeywords Cases.echo_tool (VDict []) (VDict [])]
    = (before ++ [c])%list
    /\ filter registers
         (accepted Hosts.keyword_host []
            [AddToolFunction Cases.echo_tool;
             AddToolKeywords Cases.echo_tool (VDict []) (VDict [])])
       = [c].
Proof.
  destruct (binding_registers_at_most_once Hosts.mcp_without_tool_class
              Hosts.no_schema Hosts.keyword_host Cases.echo_tool []
              (Return tt)
              [AddToolFunction Cases.echo_tool;
               AddToolKeywords Cases.echo_tool (VDict []) (VDict [])] eq_refl)
    as (new & Hnew & _ & Hacc).
  cbn [app] in Hnew. subst new. exact Hacc.
Defined.

(** *** [AIHubMCPServer.register_tool] *)

(** X18.  [register_tool] does not ask the host about a tool whose name is taken:
    it raises the [ValueError] of the catalog and changes nothing.  For a
    new name the catalog is written first; when the binding then raises, the
    tool stays in the catalog, so that registering it once more is turned
    away as a duplicate, without a call on the host. *)
Theorem register_tool_writes_the_catalog_first
    (mcp_types : mcp_types_module)
    (model_json_schema : ToolSpec -> result (value * value))
    (server : host) (catalog : ToolCatalog) (log : list host_call)
    (spec : ToolSpec) :
  (In (name spec) (dict_keys (tools catalog)) ->
   register_tool mcp_types model_json_schema server catalog log spec
   = (Raise (mkExn ValueError ("Tool already registered: " ++ name spec)),
      (catalog, log)))
  /\ (~ In (name spec) (dict_keys (tools catalog)) ->
      exists r catalog' log',
        register_tool mcp_types model_json_schema server catalog log spec
        = (r, (catalog', log'))
        /\ bind_to_server mcp_types model_json_schema server spec log = (r, log')
        /\ get catalog' (name spec) = Some spec
        /\ list_ catalog' = (list_ catalog ++ [spec])%list
        /\ forall log2,
             register_tool mcp_types model_json_schema server catalog' log2 spec
             = (Raise (mkExn ValueError ("Tool already registered: " ++ name spec)),
                (catalog', log2))).
Proof.
  assert (Hdup : forall cat lg,
             In (name spec) (dict_keys (tools cat)) ->
             register_tool mcp_types model_json_schema server cat lg spec
             = (Raise (mkExn ValueError ("Tool already registered: " ++ name spec)),
                (cat, lg))).
  { intros cat lg Hin. apply ToolingFacts.dict_mem_true_iff in Hin.
    unfold register_tool, register. rewrite Hin. reflexivity. }
  split; [apply Hdup|].
  intros Hnew. apply ToolingFacts.dict_get_None_iff in Hnew.
  pose proof (ToolingMore.register_new catalog spec Hnew) as Hreg.
  destruct (bind_to_server mcp_types model_json_schema server spec log)
    as [r log'] eqn:Hbind.
  exists r, {| tools := (tools catalog ++ [(name spec, spec)])%list |}, log'.
  split; [|split; [reflexivity|split; [|split]]].
  - unfold register_tool. rewrite Hreg, Hbind. destruct r as [[]|e]; reflexivity.
  - apply ToolingMore.get_new. assumption.
  - destruct catalog as [d]. apply ToolingMore.list_new.
  - intros log2. apply Hdup.
    apply ToolingFacts.dict_mem_true_iff. unfold dict_mem.
    pose proof (ToolingMore.get_new _ spec Hnew) as Hget.
    unfold get in Hget. rewrite Hget. reflexivity.
Qed.

(** *** [load_tools] *)

Lemma register_tool_Return
    (mcp_types : mcp_types_module)
    (model_json_schema : ToolSpec -> result (value * value))
    (server : host) (catalog catalog' : ToolCatalog) (log log' : list host_call)
    (spec : ToolSpec) (u : unit) :
  register_tool mcp_types model_json_schema server catalog log spec
  = (Return u, (catalog', log')) ->
  register catalog spec = (Return tt, catalog')
  /\ bind_to_server mcp_types model_json_schema server spec log = (Return tt, log').
Proof.
  unfold register_tool. intros H.
  destruct (register catalog spec) as [[[]|e0] c0]; [|discriminate H].
  destruct (bind_to_server mcp_types model_json_schema server spec log)
    as [[[]|e1] l1]; [|discriminate H].
  injection H as _ <- <-. split; reflexivity.
Qed.

(** X19.  A toggle that is switched off is as good as absent: but for the
    debug log, [load_tools] does the same on the settings and on the
    settings without the tools that are switched off. *)
Theorem load_tools_skips_disabled_tools
    (modules : string -> import_outcome) (mcp_types : mcp_types_module)
    (model_json_schema : ToolSpec -> result (value * value)) (server : host)
    (enabled_tools : dict ToolToggle) :
  forall (catalog : ToolCatalog) (log : list host_call),
    load_tools modules mcp_types model_json_schema server enabled_tools catalog log
    = load_tools modules mcp_types model_json_schema server
        (filter (fun item => enabled (snd item)) enabled_tools) catalog log.
Proof.
  induction enabled_tools as [|[tool_name toggle] rest IH]; intros catalog log;
    [reflexivity|].
  cbn [load_tools filter snd].
  destruct (enabled toggle) eqn:Hon; cbn [negb].
  - cbn [load_tools]. rewrite Hon. cbn [negb].
    destruct (_import_tool_factory modules tool_name) as [factory|e];
      [|reflexivity].
    destruct (factory (config toggle)) as [spec|e]; [|reflexivity].
    destruct (register_tool mcp_types model_json_schema server catalog log spec)
      as [[u|e] [catalog' log']]; [|reflexivity].
    apply IH.
  - apply IH.
Qed.

(** X20.  When [load_tools] returns, every factory of a tool that is switched on
    was found and built its tool, the catalog is the old one with these
    tools registered in the order of the settings, none of them turned
    away, and the host accepted a registration for each. *)
Theorem load_tools_registers_what_the_factories_build
    (modules : string -> import_outcome) (mcp_types : mcp_types_module)
    (model_json_schema : ToolSpec -> result (value * value)) (server : host)
    (enabled_tools : dict ToolToggle) :
  forall (catalog catalog' : ToolCatalog) (log log' : list host_call),
    load_tools modules mcp_types model_json_schema server enabled_tools catalog log
    = (Return tt, (catalog', log')) ->
    exists specs,
      built_tools modules enabled_tools = Some specs
      /\ catalog' = register_all specs catalog
      /\ list_ catalog' = (list_ catalog ++ specs)%list
      /\ exists new,
           log' = (log ++ new)%list
           /\ List.length (filter registers (accepted server log new))
              = List.length specs.
Proof.
  induction enabled_tools as [|[tool_name toggle] rest IH];
    intros catalog catalog' log log' H; cbn [load_tools built_tools] in *.
  - injection H as <- <-. exists []. split; [reflexivity|].
    split; [reflexivity|]. split; [symmetry; apply app_nil_r|].
    exists []. split; [symmetry; apply app_nil_r|reflexivity].
  - destruct (enabled toggle); cbn [negb] in *; [|apply IH; assumption].
    destruct (_import_tool_factory modules tool_name) as [factory|e];
      [|discriminate H].
    destruct (factory (config toggle)) as [spec|e]; [|discriminate H].
    destruct (register_tool mcp_types model_json_schema server catalog log spec)
      as [[u|e] [catalog1 log1]] eqn:Hreg; [|discriminate H].
    apply register_tool_Return in Hreg. destruct Hreg as [Hreg Hbind].
    destruct (IH _ _ _ _ H) as (specs & Hbuilt & Hcat & Hlist & new & Hlog & Hacc).
    destruct (binding_calls _ _ _ _ _ _ _ Hbind) as (new1 & Hlog1 & Hacc1).
    exists (spec :: specs). rewrite Hbuilt.
    split; [reflexivity|]. split; [|split].
    + cbn [register_all fold_left]. rewrite Hreg. exact Hcat.
    + rewrite Hlist.
      apply ToolingMore.register_Return in Hreg. destruct Hreg as [_ ->].
      destruct catalog as [d]. rewrite ToolingMore.list_new.
      rewrite <- app_assoc. reflexivity.
    + exists (new1 ++ new)%list. split.
      * rewrite Hlog, Hlog1. symmetry. apply app_assoc.
      * rewrite accepted_app, filter_app, length_app.
        rewrite Hacc1. rewrite <- Hlog1, Hacc. reflexivity.
Qed.

Lemma load_tools_registers_what_the_factories_build_witness :
  exists specs,
    built_tools Hosts.echo_module_only Hosts.echo_settings = Some specs
    /\ {| tools := [("echo", Cases.echo_tool)] |} = register_all specs empty_catalog
    /\ list_ {| tools := [("echo", Cases.echo_tool)] |}
       = (list_ empty_catalog ++ specs)%list
    /\ exists new,
         [AddToolFunction Cases.echo_tool] = ([] ++ new)%list
         /\ List.length (filter registers (accepted Hosts.fastmcp_host [] new))
            = List.length specs.
Proof.
  exact (load_tools_registers_what_the_factories_build
           Hosts.echo_module_only Hosts.mcp_without_tool_class Hosts.no_schema
           Hosts.fastmcp_host Hosts.echo_settings
           empty_catalog {| tools := [("echo", Cases.echo_tool)] |}
           [] [AddToolFunction Cases.echo_tool] eq_refl).
Defined.

(** X21.  [load_tools] has no way back.  When it raises, the settings split at a
    tool that is switched on: the tools before it were loaded and stay
    registered, in the catalog and on the host; the error is the one of
    importing the module of that tool, of its factory (in both cases
    nothing more is changed), or of [register_tool]; the tools after it are
    not looked at. *)
Theorem load_tools_stops_at_the_first_failure
    (modules : string -> import_outcome) (mcp_types : mcp_types_module)
    (model_json_schema : ToolSpec -> result (value * value)) (server : host)
    (enabled_tools : dict ToolToggle) :
  forall (catalog catalog' : ToolCatalog) (log log' : list host_call) (e : exn),
    load_tools modules mcp_types model_json_schema server enabled_tools catalog log
    = (Raise e, (catalog', log')) ->
    exists before tool_name toggle after catalog0 log0,
      enabled_tools = (before ++ (tool_name, toggle) :: after)%list
      /\ enabled toggle = true
      /\ load_tools modules mcp_types model_json_schema server before catalog log
         = (Return tt, (catalog0, log0))
      /\ ((catalog' = catalog0 /\ log' = log0
           /\ (_import_tool_factory modules tool_name = Raise e
               \/ exists factory,
                    _import_tool_factory modules tool_name = Return factory
                    /\ factory (config toggle) = Raise e))
          \/ exists factory spec,
               _import_tool_factory modules tool_name = Return factory
               /\ factory (config toggle) = Return spec
               /\ register_tool mcp_types model_json_schema server
                    catalog0 log0 spec
                  = (Raise e, (catalog', log'))).
Proof.
  induction enabled_tools as [|[tool_name toggle] rest IH];
    intros catalog catalog' log log' e H; cbn [load_tools] in H;
    [discriminate H|].
  destruct (enabled toggle) eqn:Hon; cbn [negb] in H.
  - destruct (_import_tool_factory modules tool_name) as [factory|e0] eqn:Himp.
    + destruct (factory (config toggle)) as [spec|e1] eqn:Hbuild.
      * destruct (register_tool mcp_types model_json_schema server
                    catalog log spec) as [[u|e2] [catalog1 log1]] eqn:Hreg.
        -- destruct (IH _ _ _ _ _ H)
             as (before & n & t & after & c0 & l0 & Hsplit & Hn & Hbefore & Hwhy).
           exists ((tool_name, toggle) :: before), n, t, after, c0, l0.
           split; [rewrite Hsplit; reflexivity|]. split; [assumption|].
           split; [|assumption].
           cbn [load_tools]. rewrite Hon, Himp, Hbuild, Hreg. cbn [negb].
           assumption.
        -- injection H as <- <- <-.
           exists [], tool_name, toggle, rest, catalog, log.
           split; [reflexivity|]. split; [assumption|]. split; [reflexivity|].
           right. exists factory, spec. rewrite Himp. auto.
      * injection H as <- <- <-.
        exists [], tool_name, toggle, rest, catalog, log.
        split; [reflexivity|]. split; [assumption|]. split; [reflexivity|].
        left. split; [reflexivity|]. split; [reflexivity|].
        right. exists factory. rewrite Himp. auto.
    + injection H as <- <- <-.
      exists [], tool_name, toggle, rest, catalog, log.
      split; [reflexivity|]. split; [assumption|]. split; [reflexivity|].
      left. split; [reflexivity|]. split; [reflexivity|]. left. exact Himp.
  - destruct (IH _ _ _ _ _ H)
      as (before & n & t & after & c0 & l0 & Hsplit & Hn & Hbefore & Hwhy).
    exists ((tool_name, toggle) :: before), n, t, after, c0, l0.
    split; [rewrite Hsplit; reflexivity|]. split; [assumption|].
    split; [|assumption].
    cbn [load_tools]. rewrite Hon. cbn [negb]. assumption.
Qed.

Lemma load_tools_stops_at_the_first_failure_witness :
  exists before tool_name toggle after catalog0 log0,
    Hosts.settings_with_unknown_tool
    = (before ++ (tool_name, toggle) :: after)%list
    /\ enabled toggle = true
    /\ load_tools Hosts.echo_module_only Hosts.mcp_without_tool_class
         Hosts.no_schema Hosts.fastmcp_host before empty_catalog []
       = (Return tt, (catalog0, log0))
    /\ (({| tools := [("echo", Cases.echo_tool)] |} = catalog0
         /\ [AddToolFunction Cases.echo_tool] = log0
         /\ (_import_tool_factory Hosts.echo_module_only tool_name
             = Raise (mkExn ConfigurationError
                        "Tool module not found: ai_assistant_hub.tools.nowhere")
             \/ exists factory,
                  _import_tool_factory Hosts.echo_module_only tool_name
                  = Return factory
                  /\ factory (config toggle)
                     = Raise (mkExn ConfigurationError
                                "Tool module not found: ai_assistant_hub.tools.nowhere")))
        \/ exists factory spec,
             _import_tool_factory Hosts.echo_module_only tool_name = Return factory
             /\ factory (config toggle) = Return spec
             /\ register_tool Hosts.mcp_without_tool_class Hosts.no_schema
                  Hosts.fastmcp_host catalog0 log0 spec
                = (Raise (mkExn ConfigurationError
                            "Tool module not found: ai_assistant_hub.tools.nowhere"),
                   ({| tools := [("echo", Cases.echo_tool)] |},
                    [AddToolFunction Cases.echo_tool]))).
Proof.
  exact (load_tools_stops_at_the_first_failure
           Hosts.echo_module_only Hosts.mcp_without_tool_class Hosts.no_schema
           Hosts.fastmcp_host Hosts.settings_with_unknown_tool
           empty_catalog {| tools := [("echo", Cases.echo_tool)] |}
           [] [AddToolFunction Cases.echo_tool]
           (mkExn ConfigurationError
              "Tool module not found: ai_assistant_hub.tools.nowhere")
           eq_refl).
Defined.

End BindingFacts.

(* ================================================================= *)
(** ** The GitHub issues tool *)

Module GithubMore.
Import Py Http HttpObs Github GithubTool.

Lemma substring_of_append (needle post : string) :
  substring 0 (String.length needle) (needle ++ post) = needle.
Proof.
  induction needle as [|ch needle IH]; cbn [String.length append substring].
  - destruct post; reflexivity.
  - rewrite IH. reflexivity.
Qed.

Lemma substring_after (pre needle post : string) :
  substring (String.length pre) (String.length needle) (pre ++ needle ++ post)
  = needle.
Proof.
  induction pre as [|ch pre IH]; cbn [String.length append substring].
  - apply substring_of_append.
  - exact IH.
Qed.

(** A string mentions what was put into it. *)
Lemma contains_mention (pre needle post : string) :
  needle <> "" -> contains needle (pre ++ needle ++ post) = true.
Proof.
  intros Hne. unfold contains.
  destruct (index 0 needle (pre ++ needle ++ post)) eqn:Hidx; [reflexivity|].
  exfalso.
  apply (index_correct3 0 (String.length pre)) in Hidx; [|assumption|lia].
  apply Hidx. apply substring_after.
Qed.

(** *** [ensure_repository] *)

(** X22.  On an adapter whose client has a base URL: a 404 of the repository
    endpoint is reported as a repository that was not found, after one
    request.  A 403 is reported as a repository that is private or
    inaccessible, unless the message built from the answer also mentions 404
    or Not Found: its reason phrase and its body are looked at, not only
    its status. *)
Theorem ensure_repository_reads_the_message
    (net : nat -> http_call -> attempt_outcome) (self : GitHubIssuesAdapter)
    (owner repo : string) (w : world)
    (status_code : Z) (reason_phrase text str_exc : string) :
  base_url (client self) <> None ->
  0 <= retries (client self) ->
  net (sent w)
    (call_of (client self) "GET" ("/repos/" ++ owner ++ "/" ++ repo) [])
  = HTTPStatusError status_code reason_phrase text str_exc ->
  let w1 :=
    {| sent := S (sent w);
       trace := trace w
                ++ [EvRequest (call_of (client self) "GET"
                                 ("/repos/" ++ owner ++ "/" ++ repo) [])] |} in
  let message :=
    "API request failed: " ++ str_int status_code ++ " " ++ reason_phrase
    ++ ". " ++ "Details: " ++ _extract_error_detail str_exc text in
  (status_code = 404 ->
   ensure_repository true net self owner repo w
   = Some (Raise (repository_not_found owner repo), w1))
  /\ (status_code = 403 ->
      ensure_repository true net self owner repo w
      = Some (Raise (if contains "404" message || contains "Not Found" message
                     then repository_not_found owner repo
                     else repository_inaccessible owner repo), w1)).
Proof.
  intros Hb Hr Hnet w1 message.
  assert (Hreq : request true net (client self) "GET"
                   ("/repos/" ++ owner ++ "/" ++ repo) [] w
                 = Some (Raise (mkExn ToolExecutionError message), w1)).
  { unfold request. cbn [negb]. rewrite Nat.add_1_r.
    set (call := call_of (client self) "GET" ("/repos/" ++ owner ++ "/" ++ repo) [])
      in *.
    destruct (HttpFacts.session_request_cases net call w)
      as [(_ & _ & Hs)|(s & Hce & _)].
    - rewrite (HttpFacts.loop_last net (client self) call _ 0 None w _ _ Hr Hs)
        by (intros m Hm; rewrite Hnet in Hm; discriminate Hm).
      rewrite Hnet. reflexivity.
    - unfold client_error in Hce.
      destruct (call_base_url call) eqn:Hu; [|contradiction].
      rewrite Hnet in Hce. discriminate Hce. }
  unfold ensure_repository. rewrite Hreq. cbn [exn_cls exn_str is_ToolExecutionError].
  split; intros ->.
  - assert (Hm : contains "404" message = true).
    { unfold message. change (str_int 404) with "404".
      apply contains_mention. discriminate. }
    rewrite Hm. reflexivity.
  - assert (Hm : contains "403" message = true).
    { unfold message. change (str_int 403) with "403".
      apply contains_mention. discriminate. }
    rewrite Hm. cbn [orb].
    destruct (contains "404" message || contains "Not Found" message);
      reflexivity.
Qed.

Lemma ensure_repository_reads_the_message_witness :
  ensure_repository true always_404 Scenarios.github "o" "r" world0
  = Some (Raise (repository_not_found "o" "r"),
          {| sent := 1;
             trace := [EvRequest (call_of (client Scenarios.github) "GET"
                                    "/repos/o/r" [])] |}).
Proof.
  exact (proj1 (ensure_repository_reads_the_message always_404 Scenarios.github
                  "o" "r" world0 404 "Not Found" "no such repository"
                  "Client error '404 Not Found' for url 'https://api.github.com/repos/o/r'"
                  ltac:(discriminate) ltac:(vm_compute; discriminate) eq_refl)
           eq_refl).
Defined.


(** *** The handler of the tool *)

Lemma ensure_repository_requests (httpx : bool)
    (net : nat -> http_call -> attempt_outcome) (self : GitHubIssuesAdapter)
    (owner repo : string) (w : world) :
  exists r w' n,
    ensure_repository httpx net self owner repo w = Some (r, w')
    /\ requests (trace w')
       = (requests (trace w)
          ++ repeat (call_of (client self) "GET"
                       ("/repos/" ++ owner ++ "/" ++ repo) []) n)%list
    /\ (n <= Z.to_nat (retries (client self)) + 1)%nat.
Proof.
  destruct (HttpMore.request_requests httpx net (client self) "GET"
              ("/repos/" ++ owner ++ "/" ++ repo) [] w)
    as (res & w' & n & Hreq & Htr).
  unfold ensure_repository. rewrite Hreq.
  destruct res as [body|exc]; [exists (Return tt), w', n; auto|].
  destruct (is_ToolExecutionError (exn_cls exc)); [|eauto].
  destruct (contains "404" (exn_str exc) || contains "Not Found" (exn_str exc));
    [eauto|].
  destruct (contains "403" (exn_str exc) || contains "Forbidden" (exn_str exc));
    eauto.
Qed.

Lemma list_issues_requests (httpx : bool)
    (net : nat -> http_call -> attempt_outcome) (self : GitHubIssuesAdapter)
    (owner repo state : string) (labels : option (list string))
    (page per_page : Z) (w : world) :
  exists r w' n,
    list_issues httpx net self owner repo state labels page per_page w
    = Some (r, w')
    /\ requests (trace w')
       = (requests (trace w)
          ++ repeat (call_of (client self) "GET"
                       ("/repos/" ++ owner ++ "/" ++ repo ++ "/issues")
                       [("params",
                         JDict (issue_params state labels page per_page))])
               n)%list
    /\ (n <= Z.to_nat (retries (client self)) + 1)%nat.
Proof.
  destruct (HttpMore.request_requests httpx net (client self) "GET"
              ("/repos/" ++ owner ++ "/" ++ repo ++ "/issues")
              [("params", JDict (issue_params state labels page per_page))] w)
    as (res & w' & n & Hreq & Htr).
  unfold list_issues. rewrite Hreq. destruct res as [body|exc]; eauto.
Qed.

(** A run of the handler: it ends, and what it sends. *)
Lemma handler_run
    (httpx : bool) (net : nat -> http_call -> attempt_outcome)
    (lower : string -> string) (adapter : GitHubIssuesAdapter)
    (payload : GitHubIssuesInput) (w : world) :
  exists res w' n1 n2,
    handler httpx net lower adapter payload w = Some (res, w')
    /\ requests (trace w')
       = (requests (trace w)
          ++ repeat (repository_call adapter payload) n1
          ++ repeat (issues_call lower adapter payload) n2)%list
    /\ (n1 <= Z.to_nat (retries (client adapter)) + 1)%nat
    /\ (n2 <= Z.to_nat (retries (client adapter)) + 1)%nat
    /\ (existsb (String.eqb (asked_state lower payload)) issue_states = false ->
        w' = w /\ n1 = 0%nat /\ n2 = 0%nat
        /\ res = Raise (mkExn ToolExecutionError
                          "Invalid issue state. Choose 'open', 'closed', or 'all'.")).
Proof.
  unfold handler.
  destruct (existsb (String.eqb (asked_state lower payload)) issue_states)
    eqn:Hstate; cbn [negb].
  - destruct (ensure_repository_requests httpx net adapter
                (owner payload) (repo payload) w)
      as (r1 & w1 & n1 & Hens & Htr1 & Hn1).
    rewrite Hens. destruct r1 as [[]|e1].
    + destruct (list_issues_requests httpx net adapter (owner payload)
                  (repo payload) (asked_state lower payload) (labels payload)
                  (asked_page payload) (asked_per_page payload) w1)
        as (r2 & w2 & n2 & Hlist & Htr2 & Hn2).
      rewrite Hlist.
      assert (Htr : requests (trace w2)
                    = (requests (trace w)
                       ++ repeat (repository_call adapter payload) n1
                       ++ repeat (issues_call lower adapter payload) n2)%list).
      { rewrite Htr2, Htr1, <- app_assoc. reflexivity. }
      destruct r2 as [issues|e2].
      * eexists _, w2, n1, n2. split; [reflexivity|]. split; [exact Htr|].
        split; [assumption|]. split; [assumption|discriminate].
      * eexists _, w2, n1, n2. split; [reflexivity|]. split; [exact Htr|].
        split; [assumption|]. split; [assumption|discriminate].
    + eexists _, w1, n1, 0%nat. split; [reflexivity|]. split.
      * rewrite Htr1. cbn [repeat]. rewrite app_nil_r. reflexivity.
      * split; [assumption|]. split; [lia|discriminate].
  - eexists _, w, 0%nat, 0%nat. split; [reflexivity|]. split.
    + cbn [repeat app]. rewrite app_nil_r. reflexivity.
    + split; [lia|]. split; [lia|auto].
Qed.



(** X25.  When the handler returns, the repository was found, the issues were
    fetched, and [total_count] is the number of entries returned: the items
    of this page of the answer that are not pull requests, not the number
    of issues of the repository. *)
Theorem handler_counts_the_issues_of_the_page
    (httpx : bool) (net : nat -> http_call -> attempt_outcome)
    (lower : string -> string) (adapter : GitHubIssuesAdapter)
    (payload : GitHubIssuesInput) (w : world) (out : json) (w' : world) :
  handler httpx net lower adapter payload w = Some (Return out, w') ->
  exists w1 issues_response items issues,
    ensure_repository httpx net adapter (owner payload) (repo payload) w
    = Some (Return tt, w1)
    /\ request httpx net (client adapter) "GET"
         ("/repos/" ++ owner payload ++ "/" ++ repo payload ++ "/issues")
         (call_kwargs (issues_call lower adapter payload)) w1
       = Some (Return issues_response, w')
    /\ json_iter issues_response = Return items
    /\ out = JDict [("issues", JList issues);
                    ("repository_exists", JBool true);
                    ("total_count", JInt (Z.of_nat (List.length issues)))]
    /\ List.length issues
       = List.length (filter (fun i => negb (marked_pull_request i)) items)
    /\ (List.length issues <= List.length items)%nat
    /\ In (asked_state lower payload) issue_states.
Proof.
  unfold handler. intros H.
  destruct (existsb (String.eqb (asked_state lower payload)) issue_states)
    eqn:Hstate; cbn [negb] in H; [|discriminate H].
  destruct (ensure_repository httpx net adapter (owner payload) (repo payload) w)
    as [[[[]|e1] w1]|]; try discriminate H.
  destruct (list_issues httpx net adapter (owner payload) (repo payload)
              (asked_state lower payload) (labels payload) (asked_page payload)
              (asked_per_page payload) w1) as [[[issues|e2] w2]|] eqn:Hlist;
    try discriminate H.
  injection H as <- <-.
  unfold list_issues in Hlist.
  destruct (request httpx net (client adapter) "GET" _ _ w1)
    as [[[issues_response|e] w3]|] eqn:Hreq; try discriminate Hlist.
  injection Hlist as Hshape <-. unfold shape_issues in Hshape.
  apply GithubFacts.bind_Return in Hshape. destruct Hshape as (items & Hiter & Hcoll).
  apply GithubFacts.collect_issues_spec in Hcoll.
  destruct Hcoll as (new & -> & Hall). cbn [app] in *.
  exists w1, issues_response, items, new.
  split; [reflexivity|]. split; [exact Hreq|]. split; [assumption|].
  split; [reflexivity|].
  assert (Hlen : List.length new
                 = List.length (filter (fun i => negb (marked_pull_request i)) items))
    by (symmetry; apply (Forall2_length Hall)).
  split; [assumption|]. split.
  - rewrite Hlen. apply filter_length_le.
  - apply existsb_exists in Hstate. destruct Hstate as (x & Hin & Heq).
    apply String.eqb_eq in Heq. subst x. assumption.
Qed.

Lemma handler_counts_the_issues_of_the_page_witness :
  exists out w',
    handler true Scenarios.issues_net ascii_lower Scenarios.github
      closed_issues_of_o_r world0
    = Some (Return out, w')
    /\ exists issues,
         out = JDict [("issues", JList issues);
                      ("repository_exists", JBool true);
                      ("total_count", JInt (Z.of_nat (List.length issues)))]
         /\ In (asked_state ascii_lower closed_issues_of_o_r) issue_states.
Proof.
  destruct (handler true Scenarios.issues_net ascii_lower Scenarios.github
              closed_issues_of_o_r world0) as [[[out|e] w']|] eqn:Hrun.
  - exists out, w'. split; [reflexivity|].
    destruct (handler_counts_the_issues_of_the_page _ _ _ _ _ _ _ _ Hrun)
      as (w1 & resp & items & issues & _ & _ & _ & Hout & _ & _ & Hstate).
    exists issues. split; assumption.
  - vm_compute in Hrun. discriminate Hrun.
  - vm_compute in Hrun. discriminate Hrun.
Defined.

(** *** The adapter built from a configuration *)

(** X26.  All that a call of the tool sends goes to the configured base URL as a
    GET, with the configured timeout and the [Accept] header of the GitHub
    API; it carries the token, as [<token_type> <token>], when one is
    configured and not empty, and no [Authorization] header otherwise.  With
    [retries] from the configuration, a call sends at most
    [2 * (retries + 1)] requests. *)
Theorem handler_requests_carry_the_configuration
    (httpx : bool) (net : nat -> http_call -> attempt_outcome)
    (lower : string -> string) (config : GithubConfig.GitHubIssuesConfig)
    (payload : GitHubIssuesInput) (w : world) :
  exists res w' new,
    handler httpx net lower (GithubConfig.GitHubIssuesAdapter_init config)
      payload w
    = Some (res, w')
    /\ requests (trace w') = (requests (trace w) ++ new)%list
    /\ (List.length new
        <= 2 * (Z.to_nat (GithubConfig.retries config) + 1))%nat
    /\ Forall (fun c =>
                call_method c = "GET"
                /\ call_base_url c = Some (GithubConfig.base_url config)
                /\ call_timeout c = Some (GithubConfig.timeout config)
                /\ dict_get "Accept" (call_headers c)
                   = Some "application/vnd.github.v3+json"
                /\ dict_get "Authorization" (call_headers c)
                   = GithubConfig.authorization config) new.
Proof.
  set (adapter := GithubConfig.GitHubIssuesAdapter_init config).
  destruct (handler_run httpx net lower adapter payload w)
    as (res & w' & n1 & n2 & Hrun & Htr & Hn1 & Hn2 & _).
  exists res, w',
    (repeat (repository_call adapter payload) n1
     ++ repeat (issues_call lower adapter payload) n2)%list.
  split; [assumption|]. split; [assumption|]. split.
  - rewrite length_app, !repeat_length.
    assert (Hr : Z.to_nat (retries (client adapter))
                 = Z.to_nat (GithubConfig.retries config)).
    { unfold adapter, GithubConfig.GitHubIssuesAdapter_init, init.
      cbn [client retries]. lia. }
    lia.
  - assert (Hheaders :
              dict_get "Accept" (GithubConfig.adapter_headers config)
              = Some "application/vnd.github.v3+json"
              /\ dict_get "Authorization" (GithubConfig.adapter_headers config)
                 = GithubConfig.authorization config).
    { unfold GithubConfig.adapter_headers, GithubConfig.authorization.
      destruct (GithubConfig.token config) as [t|]; [|split; reflexivity].
      destruct (String.eqb t ""); split; reflexivity. }
    apply Forall_app. split; apply Forall_forall; intros c Hc;
      apply repeat_spec in Hc; subst c;
      (split; [reflexivity|]); (split; [reflexivity|]);
      (split; [reflexivity|]); exact Hheaders.
Qed.

End GithubMore.

(* ================================================================= *)
(** ** Merging configurations *)

Module ConfigFacts.
Import Py Config.

(** [merge_dicts] as the source writes it: the loop over the items of
    [overrides], with the recursive call on two dictionaries. *)
Lemma merge_dicts_loop (base : dict json) (key : string) (value : json)
    (rest : dict json) :
  merge_dicts base ((key, value) :: rest)
  = merge_dicts
      (match value, dict_get key base with
       | JDict v, Some (JDict b) => dict_set key (JDict (merge_dicts b v)) base
       | _, _ => dict_set key value base
       end) rest.
Proof.
  assert (Hloop : forall items b,
             (fix loop (items : list (string * json)) (base : dict json)
                {struct items} : dict json :=
                match items with
                | [] => base
                | (key, v) :: rest =>
                    loop rest
                      (dict_set key (merge_value (dict_get key base) v) base)
                end) items b
             = merge_dicts b items).
  { induction items as [|[k v] items IH]; intros b; [reflexivity|].
    cbn [merge_dicts]. apply IH. }
  cbn [merge_dicts].
  destruct value; try reflexivity.
  destruct (dict_get key base) as [[| | | | | |b]|]; try reflexivity.
  cbn [merge_value]. rewrite Hloop. reflexivity.
Qed.

Lemma dict_keys_set {V} (k : string) (v : V) (d : dict V) :
  dict_keys (dict_set k v d)
  = (dict_keys d ++ if dict_mem k d then [] else [k])%list.
Proof.
  unfold dict_keys, dict_mem.
  induction d as [|[k' v'] d IH]; cbn [dict_set dict_get map fst app];
    [reflexivity|].
  destruct (String.eqb_spec k k') as [->|Hne]; cbn [map fst].
  - rewrite app_nil_r. reflexivity.
  - rewrite IH. reflexivity.
Qed.

(** X27.  Looking a key up after a merge: a key that [overrides] does not hold
    is as it was in [base]; under a key that it holds there is its value,
    or, when both sides hold a dictionary, the merge of the two. *)
Theorem merge_dicts_lookup (overrides : dict json) :
  NoDup (dict_keys overrides) ->
  forall (base : dict json) (k : string),
    dict_get k (merge_dicts base overrides)
    = match dict_get k overrides with
      | None => dict_get k base
      | Some (JDict v) =>
          match dict_get k base with
          | Some (JDict b) => Some (JDict (merge_dicts b v))
          | _ => Some (JDict v)
          end
      | Some value => Some value
      end.
Proof.
  induction overrides as [|[key value] rest IH]; intros Hnd base k;
    [reflexivity|].
  cbn [dict_keys map fst] in Hnd. apply NoDup_cons_iff in Hnd.
  destruct Hnd as [Hnew Hnd].
  rewrite merge_dicts_loop, (IH Hnd). cbn [dict_get].
  destruct (String.eqb_spec k key) as [->|Hne].
  - apply ToolingFacts.dict_get_None_iff in Hnew. rewrite Hnew.
    destruct value; try apply ToolingMore.dict_get_set_same.
    destruct (dict_get key base) as [[| | | | | |b]|];
      apply ToolingMore.dict_get_set_same.
  - assert (Hother : forall x, dict_get k (dict_set key x base) = dict_get k base)
      by (intros x; apply ToolingMore.dict_get_set_other; assumption).
    destruct value; rewrite ?Hother; try reflexivity.
    destruct (dict_get key base) as [[| | | | | |b]|]; rewrite Hother; reflexivity.
Qed.

Lemma merge_dicts_lookup_witness :
  dict_get "APP_NAME" (merge_dicts env_config file_config) = Some (JStr "hub-2")
  /\ dict_get "TOOL_WEATHER" (merge_dicts env_config file_config)
     = Some (JDict [("enabled", JBool true);
                    ("config", JDict [("api_key", JStr "k");
                                      ("retries", JInt 3)])]).
Proof.
  assert (Hnd : NoDup (dict_keys file_config)).
  { repeat constructor; cbn; intuition discriminate. }
  split.
  - exact (merge_dicts_lookup file_config Hnd env_config "APP_NAME").
  - exact (merge_dicts_lookup file_config Hnd env_config "TOOL_WEATHER").
Defined.

(** X28.  A merge keeps the keys of [base] in their order and puts the keys that
    are new after them, in the order of [overrides]. *)
Theorem merge_dicts_keeps_the_order (overrides : dict json) :
  NoDup (dict_keys overrides) ->
  forall base : dict json,
    dict_keys (merge_dicts base overrides)
    = (dict_keys base
       ++ filter (fun k => negb (dict_mem k base)) (dict_keys overrides))%list.
Proof.
  induction overrides as [|[key value] rest IH]; intros Hnd base.
  - cbn. rewrite app_nil_r. reflexivity.
  - cbn [dict_keys map fst] in Hnd. apply NoDup_cons_iff in Hnd.
    destruct Hnd as [Hnew Hnd].
    assert (Hstep : forall x,
               dict_keys (merge_dicts (dict_set key x base) rest)
               = (dict_keys base
                  ++ filter (fun k => negb (dict_mem k base))
                       (dict_keys ((key, value) :: rest)))%list).
    { intros x. rewrite (IH Hnd), dict_keys_set, <- app_assoc. f_equal.
      cbn [dict_keys map fst filter].
      assert (Hrest : filter (fun k => negb (dict_mem k (dict_set key x base)))
                        (map fst rest)
                      = filter (fun k => negb (dict_mem k base)) (map fst rest)).
      { apply filter_ext_in. intros k Hk. unfold dict_mem.
        rewrite ToolingMore.dict_get_set_other; [reflexivity|].
        intros ->. contradiction. }
      unfold dict_keys. rewrite Hrest.
      destruct (dict_mem key base); reflexivity. }
    rewrite merge_dicts_loop.
    destruct value; try apply Hstep.
    destruct (dict_get key base) as [[| | | | | |b]|]; apply Hstep.
Qed.

Lemma merge_dicts_keeps_the_order_witness :
  dict_keys (merge_dicts env_config file_config)
  = ["APP_NAME"; "TOOL_WEATHER"; "LOG_LEVEL"].
Proof.
  assert (Hnd : NoDup (dict_keys file_config)).
  { repeat constructor; cbn; intuition discriminate. }
  exact (merge_dicts_keeps_the_order file_config Hnd env_config).
Defined.

End ConfigFacts.

(* ================================================================= *)
(** ** The weather tool *)

Module WeatherFacts.
Import Py Http HttpObs.

Ltac bind_inv H :=
  let a := fresh "x" in
  let Ha := fresh "Hx" in
  apply GithubFacts.bind_Return in H; destruct H as (a & Ha & H).



End WeatherFacts.

(* ================================================================= *)
(** ** The Slack tool *)

Module SlackFacts.
Import Py Http HttpObs.

Ltac bind_inv H :=
  let a := fresh "x" in
  let Ha := fresh "Hx" in
  apply GithubFacts.bind_Return in H; destruct H as (a & Ha & H).




End SlackFacts.
